(** * pandas/core/dtypes/cast.py: dtype promotion and nan-safe casting

    A shallow embedding of the routines of [cast.py] that decide dtype
    promotion ([maybe_promote], [find_common_type]), nan-safe casting
    ([astype_nansafe], [astype_td64_unit_conversion]), strict integer
    casting ([maybe_cast_to_integer_array]) and numeric downcasting
    ([maybe_downcast_numeric]), together with the part of NumPy those
    routines call. *)

From Stdlib Require Import ZArith Arith List Bool String Lia Permutation.
From Stdlib Require Import Floats.SpecFloat.
Import ListNotations.

Local Open Scope string_scope.
Local Open Scope Z_scope.

(** ** Python results and exceptions *)

Inductive exn :=
| ValueError (msg : string)
| TypeError (msg : string)
| OverflowError (msg : string)
| AssertionError.

Inductive outcome (A : Type) :=
| Ok (a : A)
| Raise (e : exn).
Arguments Ok {A} a.
Arguments Raise {A} e.

Definition bind {A B} (r : outcome A) (k : A -> outcome B) : outcome B :=
  match r with
  | Ok a => k a
  | Raise e => Raise e
  end.

Notation "x <- r ;; k" := (bind r (fun x => k))
  (at level 61, r at next level, right associativity).
Notation "' p <- r ;; k" := (bind r (fun x => let 'p := x in k))
  (at level 61, p pattern, r at next level, right associativity).

(** ** Binary floating point

    A Python [float] and a NumPy [float64] are IEEE binary64 numbers, a
    [float32] a binary32 and a [float16] a binary16 number.  All are carried
    by [spec_float]; the format fixes precision and exponent range. *)

Definition float := spec_float.

Inductive float_width := F16 | F32 | F64.

Definition prec_of (w : float_width) : Z :=
  match w with F16 => 11 | F32 => 24 | F64 => 53 end.

Definition emax_of (w : float_width) : Z :=
  match w with F16 => 16 | F32 => 128 | F64 => 1024 end.

Definition is_nan (f : float) : bool :=
  match f with S754_nan => true | _ => false end.

Definition is_finite (f : float) : bool :=
  match f with S754_zero _ | S754_finite _ _ _ => true | _ => false end.

(** The finite number [m * 2^e] carried by a float, as a scaled integer. *)
Definition dyadic (f : float) : option (Z * Z) :=
  match f with
  | S754_zero _ => Some (0, 0)
  | S754_finite s m e => Some (if s then Z.neg m else Z.pos m, e)
  | _ => None
  end.

(** Exact comparison of two dyadic numbers. *)
Definition dyadic_compare (a b : Z * Z) : comparison :=
  let e := Z.min (snd a) (snd b) in
  Z.compare (fst a * 2 ^ (snd a - e)) (fst b * 2 ^ (snd b - e)).

(** IEEE comparison: [None] when either side is NaN. *)
Definition float_compare (x y : float) : option comparison :=
  match x, y with
  | S754_nan, _ | _, S754_nan => None
  | S754_infinity sx, S754_infinity sy =>
      Some (match sx, sy with
            | true, false => Lt
            | false, true => Gt
            | _, _ => Eq
            end)
  | S754_infinity sx, _ => Some (if sx then Lt else Gt)
  | _, S754_infinity sy => Some (if sy then Gt else Lt)
  | _, _ =>
      match dyadic x, dyadic y with
      | Some a, Some b => Some (dyadic_compare a b)
      | _, _ => None
      end
  end.

Definition float_eqb (x y : float) : bool :=
  match float_compare x y with Some Eq => true | _ => false end.

Definition float_ltb (x y : float) : bool :=
  match float_compare x y with Some Lt => true | _ => false end.

Definition float_leb (x y : float) : bool :=
  match float_compare x y with Some (Lt | Eq) => true | _ => false end.

(** Rounding an integer to the nearest float of a format (ties to even). *)
Definition float_of_Z (w : float_width) (z : Z) : float :=
  binary_normalize (prec_of w) (emax_of w) z 0 false.

(** Rounding a float to a (narrower) format. *)
Definition float_round (w : float_width) (f : float) : float :=
  match f with
  | S754_finite s m e =>
      binary_normalize (prec_of w) (emax_of w)
        (if s then Z.neg m else Z.pos m) e s
  | _ => f
  end.

(** Truncation toward zero of a finite float. *)
Definition float_trunc (f : float) : option Z :=
  match dyadic f with
  | Some (m, e) =>
      Some (if 0 <=? e then m * 2 ^ e else Z.quot m (2 ^ (- e)))
  | None => None
  end.

Definition float64_sub (x y : float) : float := SFsub 53 1024 x y.
Definition float64_add (x y : float) : float := SFadd 53 1024 x y.
Definition float64_mul (x y : float) : float := SFmul 53 1024 x y.
Definition float64_div (x y : float) : float := SFdiv 53 1024 x y.
Definition float_abs (x : float) : float := SFabs x.
Definition float_nan : float := S754_nan.

(** ** NumPy dtypes *)

Inductive int_width := W8 | W16 | W32 | W64.

Definition bits (w : int_width) : Z :=
  match w with W8 => 8 | W16 => 16 | W32 => 32 | W64 => 64 end.

Inductive complex_width := C64 | C128.

(** The float format of each component of a complex number. *)
Definition component (w : complex_width) : float_width :=
  match w with C64 => F32 | C128 => F64 end.

(** Resolution of a [datetime64] / [timedelta64] dtype; [U_generic] is the
    bare family name, with no unit. *)
Inductive time_unit :=
| U_generic | U_Y | U_M | U_W | U_D | U_h | U_m | U_s | U_ms | U_us | U_ns.

Inductive np_dtype :=
| Bool_
| Int (w : int_width)
| UInt (w : int_width)
| Float (w : float_width)
| Complex (w : complex_width)
| Object_
| Datetime64 (u : time_unit)
| Timedelta64 (u : time_unit)
| Str_
| Bytes_.

(** [dtype.kind] *)
Inductive kind := Kb | Ki | Ku | Kf | Kc | KO | KM | Km | KU | KS.

(** [dtype.type]: the scalar class of a dtype.  [T_Timestamp] and [T_class]
    are classes that only extension dtypes use. *)
Inductive pytype :=
| T_bool_
| T_signed (w : int_width)
| T_unsigned (w : int_width)
| T_floating (w : float_width)
| T_complexfloating (w : complex_width)
| T_object_
| T_datetime64
| T_timedelta64
| T_str_
| T_bytes_
| T_Timestamp
| T_class (name : string).

Scheme Equality for int_width.
Scheme Equality for float_width.
Scheme Equality for complex_width.
Scheme Equality for time_unit.
Scheme Equality for np_dtype.
Scheme Equality for kind.

(** ** Python values

    The scalars and objects that reach these routines as fill values or as
    elements of object arrays. *)

Inductive signedness := Signed | Unsigned.

Definition iNaT : Z := - 2 ^ 63.

Inductive pyobj :=
| PyNone
| PyBool (b : bool)
| PyInt (z : Z)
| PyFloat (f : float)
| PyComplex (re im : float)
| PyStr (s : string)
| PyDatetime (tz : option string) (ns : Z)  (* datetime, pd.Timestamp *)
| PyTimedelta (ns : Z)                      (* timedelta, pd.Timedelta *)
| PdNaT
| PdNA
| NpBool (b : bool)
| NpInt (s : signedness) (w : int_width) (z : Z)
| NpFloat (w : float_width) (f : float)
| NpComplex (w : complex_width) (re im : float)
| NpDatetime64 (u : time_unit) (v : Z)      (* [v = iNaT] is NaT *)
| NpTimedelta64 (u : time_unit) (v : Z)     (* [v = iNaT] is NaT *)
| NpStr (s : string)
| PyListLike                                (* a list or tuple *)
| NdArray (dt : np_dtype)                   (* an ndarray, by its dtype *)
| PyObject (cls : string).                  (* any other scalar object *)

Definition int_dtype (s : signedness) (w : int_width) : np_dtype :=
  match s with Signed => Int w | Unsigned => UInt w end.

Module np.

Definition int_min (w : int_width) : Z := - 2 ^ (bits w - 1).
Definition int_max (w : int_width) : Z := 2 ^ (bits w - 1) - 1.
Definition uint_max (w : int_width) : Z := 2 ^ bits w - 1.

Definition kind_of (d : np_dtype) : kind :=
  match d with
  | Bool_ => Kb
  | Int _ => Ki
  | UInt _ => Ku
  | Float _ => Kf
  | Complex _ => Kc
  | Object_ => KO
  | Datetime64 _ => KM
  | Timedelta64 _ => Km
  | Str_ => KU
  | Bytes_ => KS
  end.

Definition type_of (d : np_dtype) : pytype :=
  match d with
  | Bool_ => T_bool_
  | Int w => T_signed w
  | UInt w => T_unsigned w
  | Float w => T_floating w
  | Complex w => T_complexfloating w
  | Object_ => T_object_
  | Datetime64 _ => T_datetime64
  | Timedelta64 _ => T_timedelta64
  | Str_ => T_str_
  | Bytes_ => T_bytes_
  end.

(** Class hierarchy of the NumPy scalar types ([np.timedelta64] derives
    from [np.signedinteger]). *)
Definition issubclass_bool_ (t : pytype) : bool :=
  match t with T_bool_ => true | _ => false end.

Definition issubclass_integer (t : pytype) : bool :=
  match t with
  | T_signed _ | T_unsigned _ | T_timedelta64 => true
  | _ => false
  end.

Definition issubclass_floating (t : pytype) : bool :=
  match t with T_floating _ => true | _ => false end.

Definition issubclass_complexfloating (t : pytype) : bool :=
  match t with T_complexfloating _ => true | _ => false end.

Definition issubclass_number (t : pytype) : bool :=
  issubclass_integer t || issubclass_floating t
  || issubclass_complexfloating t.

Definition issubclass_datetime64 (t : pytype) : bool :=
  match t with T_datetime64 => true | _ => false end.

Definition issubclass_timedelta64 (t : pytype) : bool :=
  match t with T_timedelta64 => true | _ => false end.

Definition issubclass_object_ (t : pytype) : bool :=
  match t with T_object_ => true | _ => false end.

(** [issubclass(t, (bytes, str))] *)
Definition issubclass_bytes_str (t : pytype) : bool :=
  match t with T_str_ | T_bytes_ => true | _ => false end.

Definition issubclass_str (t : pytype) : bool :=
  match t with T_str_ => true | _ => false end.

(** Can an integer of [b] bits be cast safely to a float format? *)
Definition int_fits_float (w : int_width) (f : float_width) : bool :=
  match w, f with
  | W8, _ => true
  | W16, (F32 | F64) => true
  | (W32 | W64), F64 => true
  | _, _ => false
  end.

Definition float_le (a b : float_width) : bool :=
  prec_of a <=? prec_of b.

(** [np.can_cast(from, to, casting="safe")] between dtypes.  The numeric
    kinds follow NumPy's table; every dtype casts safely to itself and to
    object; the temporal and string kinds are the targets of no other
    cast that this module asks for. *)
Definition can_cast (from to : np_dtype) : bool :=
  match from, to with
  | _, Object_ => true
  | Bool_, (Bool_ | Int _ | UInt _ | Float _ | Complex _) => true
  | Int a, Int b => bits a <=? bits b
  | UInt a, UInt b => bits a <=? bits b
  | UInt a, Int b => bits a <? bits b
  | Int a, Float f => int_fits_float a f
  | UInt a, Float f => int_fits_float a f
  | Int a, Complex c => int_fits_float a (component c)
  | UInt a, Complex c => int_fits_float a (component c)
  | Float a, Float b => float_le a b
  | Float a, Complex c => float_le a (component c)
  | Complex a, Complex b => float_le (component a) (component b)
  | _, _ => np_dtype_beq from to
  end.

(** [a > b] on dtypes: [b] casts safely to [a] and they differ. *)
Definition dtype_gt (a b : np_dtype) : bool :=
  negb (np_dtype_beq a b) && can_cast b a.

(** The builtin types in increasing kind, then size: the order in which
    NumPy looks for the smallest type two dtypes both cast to. *)
Definition numeric_order : list np_dtype :=
  [Bool_; UInt W8; UInt W16; UInt W32; UInt W64;
   Int W8; Int W16; Int W32; Int W64;
   Float F16; Float F32; Float F64; Complex C64; Complex C128].

(** [np.promote_types(a, b)]: the smallest dtype to which both can be
    safely cast. *)
Definition promote_types (a b : np_dtype) : np_dtype :=
  if np_dtype_beq a b then a
  else
    match find (fun k => can_cast a k && can_cast b k) numeric_order with
    | Some k => k
    | None => Object_
    end.

(** *** Value-based functions *)

(** The dtype NumPy gives a scalar when it wraps it in an array. *)
Definition dtype_of (v : pyobj) : np_dtype :=
  match v with
  | PyBool _ | NpBool _ => Bool_
  | PyInt z =>
      if (- 2 ^ 63 <=? z) && (z <? 2 ^ 63) then Int W64
      else if (0 <=? z) && (z <? 2 ^ 64) then UInt W64
      else Object_
  | NpInt s w _ => int_dtype s w
  | PyFloat _ => Float F64
  | NpFloat w _ => Float w
  | PyComplex _ _ => Complex C128
  | NpComplex w _ _ => Complex w
  | NpDatetime64 u _ => Datetime64 u
  | NpTimedelta64 u _ => Timedelta64 u
  | PyStr _ | NpStr _ => Str_
  | NdArray dt => dt
  | _ => Object_
  end.

(** The smallest integer dtype holding [z]: unsigned for [z >= 0]. *)
Definition min_int_type (z : Z) : np_dtype :=
  if 0 <=? z then
    if z <=? uint_max W8 then UInt W8
    else if z <=? uint_max W16 then UInt W16
    else if z <=? uint_max W32 then UInt W32
    else if z <=? uint_max W64 then UInt W64
    else Object_
  else
    if int_min W8 <=? z then Int W8
    else if int_min W16 <=? z then Int W16
    else if int_min W32 <=? z then Int W32
    else if int_min W64 <=? z then Int W64
    else Object_.

(** The thresholds [65000] and [3.4e38] of NumPy's [min_scalar_type]. *)
Definition half_limit : float :=
  Eval vm_compute in float_of_Z F64 65000.
Definition single_limit : float :=
  Eval vm_compute in float_of_Z F64 (34 * 10 ^ 37).

Definition within (limit f : float) : bool :=
  float_ltb (SFopp limit) f && float_ltb f limit.

Definition min_float_type (w : float_width) (f : float) : float_width :=
  match w with
  | F16 => F16
  | F32 => if within half_limit f || negb (is_finite f) then F16 else F32
  | F64 =>
      if within half_limit f || negb (is_finite f) then F16
      else if within single_limit f then F32
      else F64
  end.

Definition min_complex_type (w : complex_width) (re im : float)
  : complex_width :=
  match w with
  | C64 => C64
  | C128 =>
      if within single_limit re && within single_limit im then C64
      else C128
  end.

(** [np.min_scalar_type(v)] *)
Definition min_scalar_type (v : pyobj) : np_dtype :=
  match v with
  | PyInt z => min_int_type z
  | NpInt _ _ z => min_int_type z
  | PyFloat f => Float (min_float_type F64 f)
  | NpFloat w f => Float (min_float_type w f)
  | PyComplex re im => Complex (min_complex_type C128 re im)
  | NpComplex w re im => Complex (min_complex_type w re im)
  | _ => dtype_of v
  end.

(** A non-negative integer that also fits the signed type of the same
    width can be cast as that signed type. *)
Definition small_unsigned (z : Z) : np_dtype :=
  match min_int_type z with
  | UInt w => if z <=? int_max w then Int w else UInt w
  | d => d
  end.

(** [np.can_cast(v, to)] for a scalar [v]: by value for a number.  An
    integer is cast from its smallest type, taken as signed where the
    integer is a small unsigned one and the target is not unsigned. *)
Definition can_cast_scalar (v : pyobj) (to : np_dtype) : bool :=
  if can_cast (dtype_of v) to then true
  else
    match v with
    | PyInt z | NpInt _ _ z =>
        match to with
        | UInt _ => can_cast (min_int_type z) to
        | _ => can_cast (small_unsigned z) to
        end
    | _ => can_cast (min_scalar_type v) to
    end.

(** *** [np.find_common_type] *)

(** [np.core.numerictypes.__test_types]: the type codes
    ['?bBhHiIlLqQefdgFDGO'] (long double left out). *)
Definition __test_types : list np_dtype :=
  [Bool_; Int W8; UInt W8; Int W16; UInt W16; Int W32; UInt W32;
   Int W64; UInt W64; Float F16; Float F32; Float F64;
   Complex C64; Complex C128; Object_].

(** [_can_coerce_all(dtypelist)]: the first test type to which every
    dtype of the list casts safely. *)
Definition _can_coerce_all (dtypelist : list np_dtype) : option np_dtype :=
  let N := List.length dtypelist in
  match dtypelist with
  | [] => None
  | [d] => Some d
  | _ =>
      find (fun newdtype =>
              let numcoerce :=
                List.length
                  (filter (fun x => can_cast x newdtype) dtypelist)
              in Nat.eqb numcoerce N)
           __test_types
  end.

(** [np.find_common_type(array_types, [])] *)
Definition find_common_type (array_types : list np_dtype)
  : option np_dtype :=
  _can_coerce_all array_types.

End np.

(** ** Extension dtypes

    An extension dtype is known to this module by its attributes only. *)

Record ExtensionDtype := {
  ext_name : string;
  ext_type : pytype;             (* [dtype.type] *)
  ext_kind : kind;               (* [dtype.kind] *)
  ext_na_value : pyobj;          (* [dtype.na_value] *)
  ext_tz : option string         (* [Some tz] for a DatetimeTZDtype *)
}.

Inductive DtypeObj :=
| Np (d : np_dtype)
| Ext (e : ExtensionDtype).

Definition dtype_type (d : DtypeObj) : pytype :=
  match d with Np n => np.type_of n | Ext e => ext_type e end.

Definition dtype_kind (d : DtypeObj) : kind :=
  match d with Np n => np.kind_of n | Ext e => ext_kind e end.

(** [dtype == np.object_] *)
Definition eq_object (d : DtypeObj) : bool :=
  match d with Np Object_ => true | _ => false end.

(** ** Predicates of pandas.core.dtypes *)

(** Modelled from the spec: [lib.is_scalar] of pandas._libs is not under
    src/; lists, tuples and arrays are the values that are not scalars. *)
Definition is_scalar (v : pyobj) : bool :=
  match v with PyListLike | NdArray _ => false | _ => true end.

(** Modelled from the spec: [is_integer] of pandas.core.dtypes.common is
    not under src/; true of Python and NumPy integers, booleans excluded. *)
Definition is_integer (v : pyobj) : bool :=
  match v with PyInt _ | NpInt _ _ _ => true | _ => false end.

(** Modelled from the spec: [is_float] of pandas.core.dtypes.common is not
    under src/; true of Python and NumPy floats. *)
Definition is_float (v : pyobj) : bool :=
  match v with PyFloat _ | NpFloat _ _ => true | _ => false end.

(** Modelled from the spec: [is_bool] of pandas.core.dtypes.common is not
    under src/; true of Python and NumPy booleans. *)
Definition is_bool (v : pyobj) : bool :=
  match v with PyBool _ | NpBool _ => true | _ => false end.

(** Modelled from the spec: [is_complex] of pandas.core.dtypes.common is
    not under src/; true of Python and NumPy complex numbers. *)
Definition is_complex (v : pyobj) : bool :=
  match v with PyComplex _ _ | NpComplex _ _ _ => true | _ => false end.

(** Modelled from the spec: [isna] of pandas.core.dtypes.missing is not
    under src/; the null markers are None, NA, NaT, a float or complex NaN
    and the NaT of [datetime64] and [timedelta64].  (On a list-like [isna]
    answers per element; no element-wise answer is modelled.) *)
Definition isna (v : pyobj) : bool :=
  match v with
  | PyNone | PdNaT | PdNA => true
  | PyFloat f | NpFloat _ f => is_nan f
  | PyComplex re im | NpComplex _ re im => is_nan re || is_nan im
  | NpDatetime64 _ z | NpTimedelta64 _ z => z =? iNaT
  | _ => false
  end.

(** [np.isnan] on a float scalar *)
Definition np_isnan (v : pyobj) : bool :=
  match v with PyFloat f | NpFloat _ f => is_nan f | _ => false end.

(** Modelled from the spec: [is_valid_nat_for_dtype] of
    pandas.core.dtypes.missing is not under src/; a null scalar is a valid
    NaT for a dtype unless it is the NaT of the other temporal family. *)
Definition is_valid_nat_for_dtype (v : pyobj) (d : DtypeObj) : bool :=
  if negb (is_scalar v) || negb (isna v) then false
  else
    match dtype_kind d, v with
    | KM, NpTimedelta64 _ _ => false
    | KM, _ => true
    | Km, NpDatetime64 _ _ => false
    | Km, _ => true
    | _, (NpDatetime64 _ _ | NpTimedelta64 _ _) => false
    | _, _ => true
    end.

(** Modelled from the spec: [is_object_dtype] of pandas.core.dtypes.common
    is not under src/; like the predicates below it tests the scalar class
    of the dtype. *)
Definition is_object_dtype (d : DtypeObj) : bool :=
  np.issubclass_object_ (dtype_type d).

(** Modelled from the spec: [is_bool_dtype] of pandas.core.dtypes.common
    is not under src/; the boolean class. *)
Definition is_bool_dtype (d : DtypeObj) : bool :=
  np.issubclass_bool_ (dtype_type d).

(** Modelled from the spec: [is_integer_dtype] of
    pandas.core.dtypes.common is not under src/; the integer classes,
    signed and unsigned, the temporal classes left out. *)
Definition is_integer_dtype (d : DtypeObj) : bool :=
  np.issubclass_integer (dtype_type d)
  && negb (np.issubclass_datetime64 (dtype_type d)
           || np.issubclass_timedelta64 (dtype_type d)).

(** Modelled from the spec: [is_unsigned_integer_dtype] of
    pandas.core.dtypes.common is not under src/; the unsigned integer
    classes. *)
Definition is_unsigned_integer_dtype (d : DtypeObj) : bool :=
  match dtype_type d with T_unsigned _ => true | _ => false end.

(** Modelled from the spec: [is_float_dtype] of pandas.core.dtypes.common
    is not under src/; the floating classes. *)
Definition is_float_dtype (d : DtypeObj) : bool :=
  np.issubclass_floating (dtype_type d).

(** Modelled from the spec: [is_complex_dtype] of
    pandas.core.dtypes.common is not under src/; the complex classes. *)
Definition is_complex_dtype (d : DtypeObj) : bool :=
  np.issubclass_complexfloating (dtype_type d).

(** Modelled from the spec: [is_extension_array_dtype] of
    pandas.core.dtypes.common is not under src/; the extension dtypes. *)
Definition is_extension_array_dtype (d : DtypeObj) : bool :=
  match d with Ext _ => true | Np _ => false end.

(** Modelled from the spec: [is_datetime64tz_dtype] of
    pandas.core.dtypes.common is not under src/; the extension dtype of
    zoned instants. *)
Definition is_datetime64tz_dtype (d : DtypeObj) : bool :=
  match d with
  | Ext e => match ext_tz e with Some _ => true | None => false end
  | Np _ => false
  end.

(** Modelled from the spec: [is_datetime64_dtype] of
    pandas.core.dtypes.common is not under src/; the class [datetime64],
    whatever the unit. *)
Definition is_datetime64_dtype (d : DtypeObj) : bool :=
  np.issubclass_datetime64 (dtype_type d).

(** Modelled from the spec: [is_timedelta64_dtype] of
    pandas.core.dtypes.common is not under src/; the class [timedelta64],
    whatever the unit. *)
Definition is_timedelta64_dtype (d : DtypeObj) : bool :=
  np.issubclass_timedelta64 (dtype_type d).

(** Modelled from the spec: [tz_compare] of pandas._libs.tslibs.timezones
    is not under src/; time zones are compared by name. *)
Definition tz_compare (a b : string) : bool := String.eqb a b.

(** ** Scalar construction: [dtype.type(value)] *)

Inductive number :=
| NumInt (z : Z)
| NumFloat (f : float)
| NumComplex (re im : float).

Definition to_number (v : pyobj) : option number :=
  match v with
  | PyBool b | NpBool b => Some (NumInt (if b then 1 else 0))
  | PyInt z | NpInt _ _ z => Some (NumInt z)
  | PyFloat f | NpFloat _ f => Some (NumFloat f)
  | PyComplex re im | NpComplex _ re im => Some (NumComplex re im)
  | _ => None
  end.

(** Two's complement wrap-around of [z] into an integer dtype. *)
Definition wrap (s : signedness) (w : int_width) (z : Z) : Z :=
  match s with
  | Unsigned => z mod 2 ^ bits w
  | Signed => (z + 2 ^ (bits w - 1)) mod 2 ^ bits w - 2 ^ (bits w - 1)
  end.

Definition in_range (s : signedness) (w : int_width) (z : Z) : bool :=
  match s with
  | Unsigned => (0 <=? z) && (z <=? np.uint_max w)
  | Signed => (np.int_min w <=? z) && (z <=? np.int_max w)
  end.

(** A Python integer enters a C integer type through a C [long]
    ([unsigned long] for uint64): beyond that it raises, within it wraps. *)
Definition int_new (s : signedness) (w : int_width) (z : Z) : outcome pyobj :=
  if in_range Signed W64 z || (in_range s w z)
  then Ok (NpInt s w (wrap s w z))
  else Raise (OverflowError "Python int too large to convert to C long").

Definition py_float_of_int (z : Z) : outcome float :=
  let f := float_of_Z F64 z in
  if is_finite f then Ok f
  else Raise (OverflowError "int too large to convert to float").

Section ScalarNew.

(** The constructor call for arguments outside the numeric and temporal
    scalars that promotion passes to it. *)
Variable scalar_new_other : np_dtype -> pyobj -> outcome pyobj.

Definition bool_new (v : pyobj) : outcome pyobj :=
  match to_number v with
  | Some (NumInt z) => Ok (NpBool (negb (z =? 0)))
  | Some (NumFloat f) => Ok (NpBool (negb (float_eqb f (S754_zero false))))
  | Some (NumComplex re im) =>
      Ok (NpBool (negb (float_eqb re (S754_zero false)
                        && float_eqb im (S754_zero false))))
  | None => scalar_new_other Bool_ v
  end.

Definition integer_new (s : signedness) (w : int_width) (v : pyobj)
  : outcome pyobj :=
  match to_number v with
  | Some (NumInt z) =>
      match v with
      | NpInt _ _ _ | NpBool _ => Ok (NpInt s w (wrap s w z))  (* a C cast *)
      | _ => int_new s w z
      end
  | Some (NumFloat f) =>
      match float_trunc f with
      | Some z => int_new s w z
      | None =>
          if is_nan f
          then Raise (ValueError "cannot convert float NaN to integer")
          else Raise (OverflowError
                        "cannot convert float infinity to integer")
      end
  | Some (NumComplex _ _) =>
      Raise (TypeError "can't convert complex to int")
  | None => scalar_new_other (int_dtype s w) v
  end.

Definition floating_new (w : float_width) (v : pyobj) : outcome pyobj :=
  match to_number v with
  | Some (NumInt z) =>
      f <- py_float_of_int z ;; Ok (NpFloat w (float_round w f))
  | Some (NumFloat f) => Ok (NpFloat w (float_round w f))
  | Some (NumComplex _ _) =>
      Raise (TypeError "can't convert complex to float")
  | None => scalar_new_other (Float w) v
  end.

Definition complex_new (w : complex_width) (v : pyobj) : outcome pyobj :=
  match to_number v with
  | Some (NumInt z) =>
      f <- py_float_of_int z ;;
      Ok (NpComplex w (float_round (component w) f) (S754_zero false))
  | Some (NumFloat f) =>
      Ok (NpComplex w (float_round (component w) f) (S754_zero false))
  | Some (NumComplex re im) =>
      Ok (NpComplex w (float_round (component w) re)
            (float_round (component w) im))
  | None => scalar_new_other (Complex w) v
  end.

(** [dtype.type(value)] for a NumPy dtype.  A [datetime64] or
    [timedelta64] scalar is kept with the unit it carries. *)
Definition scalar_new (d : np_dtype) (v : pyobj) : outcome pyobj :=
  match d with
  | Bool_ => bool_new v
  | Int w => integer_new Signed w v
  | UInt w => integer_new Unsigned w v
  | Float w => floating_new w v
  | Complex w => complex_new w v
  | Object_ => Ok v
  | Datetime64 _ =>
      match v with
      | NpDatetime64 _ _ => Ok v
      | _ => scalar_new_other d v
      end
  | Timedelta64 _ =>
      match v with
      | NpTimedelta64 _ _ => Ok v
      | _ => scalar_new_other d v
      end
  | Str_ | Bytes_ => scalar_new_other d v
  end.

End ScalarNew.

(** [isinstance(v, t)] for the scalar class [t] of a NumPy dtype. *)
Definition isinstance (v : pyobj) (t : pytype) : bool :=
  match t, v with
  | T_bool_, NpBool _ => true
  | T_signed w, NpInt Signed w' _ => int_width_beq w w'
  | T_unsigned w, NpInt Unsigned w' _ => int_width_beq w w'
  | T_floating w, NpFloat w' _ => float_width_beq w w'
  | T_complexfloating w, NpComplex w' _ _ => complex_width_beq w w'
  | T_datetime64, NpDatetime64 _ _ => true
  | T_timedelta64, NpTimedelta64 _ _ => true
  | T_str_, NpStr _ => true
  | _, _ => false
  end.

(** ** Pairwise promotion: [maybe_promote] *)

Definition nan : pyobj := PyFloat float_nan.

(** NumPy refuses an extension dtype where it expects one of its own. *)
Definition as_np (d : DtypeObj) : outcome np_dtype :=
  match d with
  | Np n => Ok n
  | Ext e => Raise (TypeError ("Cannot interpret '" ++ ext_name e
                               ++ "' as a data type"))
  end.

Definition kind_in_US (k : kind) : bool :=
  match k with KU | KS => true | _ => false end.

Section Promotion.

(** [Timestamp(v).to_datetime64()] of pandas._libs.tslibs: the nanosecond
    count of the instant ([iNaT] for NaT), or the exception raised. *)
Variable Timestamp_to_datetime64 : pyobj -> outcome Z.

(** [Timedelta(v)] of pandas._libs.tslibs: [None] is NaT, else the
    nanosecond count of the duration, or the exception raised. *)
Variable Timedelta : pyobj -> outcome (option Z).

Variable scalar_new_other : np_dtype -> pyobj -> outcome pyobj.

(** [_ensure_dtype_type(value, dtype)] *)
Definition _ensure_dtype_type (value : pyobj) (dtype : DtypeObj)
  : outcome pyobj :=
  (* Start with exceptions in which we do _not_ cast to numpy types *)
  match dtype with
  | Ext _ => Ok value
  | Np d =>
      if eq_object dtype then Ok value
      else if isna value then
        (* e.g. keep np.nan rather than try to cast to
           np.float32(np.nan) *)
        Ok value
      else scalar_new scalar_new_other d value
  end.

(** The fill value an ndarray stands for (lines 510-525). *)
Definition fill_of_ndarray (dtype : DtypeObj) (fill_value : pyobj)
  : DtypeObj * pyobj :=
  match fill_value with
  | NdArray fdt =>
      let '(dtype, fill_value) :=
        match fdt with
        | Datetime64 _ => (dtype, NpDatetime64 U_ns iNaT)
        | Timedelta64 _ => (dtype, NpTimedelta64 U_ns iNaT)
        | _ =>
            (* we need to change to object type as our fill_value is of
               object type *)
            ((if np_dtype_beq fdt Object_ then Np Object_ else dtype), nan)
        end in
      if eq_object dtype || kind_in_US (dtype_kind dtype) then
        (* We treat string-like dtypes as object, and _always_ fill with
           np.nan *)
        (Np Object_, nan)
      else (dtype, fill_value)
  | _ => (dtype, fill_value)
  end.

Definition object_ : DtypeObj := Np Object_.

(** The ordered promotion rules (lines 528-638). *)
Definition promote_rules (dtype : DtypeObj) (fill_value : pyobj)
  : outcome (DtypeObj * pyobj) :=
  let t := dtype_type dtype in
  if np.issubclass_datetime64 t then
    match fill_value with
    | PyDatetime (Some _) _ =>
        (* Trying to insert tzaware into tznaive, have to cast to object *)
        Ok (object_, fill_value)
    | _ =>
        if is_integer fill_value
           || (is_float fill_value && negb (isna fill_value))
        then Ok (object_, fill_value)
        else if is_valid_nat_for_dtype fill_value dtype then
          (* e.g. pd.NA, which is not accepted by Timestamp constructor *)
          Ok (dtype, NpDatetime64 U_ns iNaT)
        else
          match Timestamp_to_datetime64 fill_value with
          | Ok ns => Ok (dtype, NpDatetime64 U_ns ns)
          | Raise (TypeError _) | Raise (ValueError _) =>
              Ok (object_, fill_value)
          | Raise e => Raise e
          end
    end
  else if np.issubclass_timedelta64 t then
    if is_integer fill_value
       || (is_float fill_value && negb (np_isnan fill_value))
       || match fill_value with PyStr _ | NpStr _ => true | _ => false end
    then
      (* TODO: What about str that can be a timedelta? *)
      Ok (object_, fill_value)
    else if is_valid_nat_for_dtype fill_value dtype then
      (* e.g pd.NA, which is not accepted by the Timedelta constructor *)
      Ok (dtype, NpTimedelta64 U_ns iNaT)
    else
      match Timedelta fill_value with
      | Raise (ValueError _) => Ok (object_, fill_value)
      | Raise e => Raise e
      | Ok None =>
          (* NaT has no `to_timedelta64` method *)
          Ok (dtype, NpTimedelta64 U_ns iNaT)
      | Ok (Some ns) => Ok (dtype, NpTimedelta64 U_ns ns)
      end
  else if is_datetime64tz_dtype dtype then
    if isna fill_value then Ok (dtype, PdNaT)
    else
      match fill_value, dtype with
      | PyDatetime (Some tz) _, Ext e =>
          match ext_tz e with
          | Some dtz =>
              if negb (tz_compare tz dtz) then
                (* TODO: sure we want to cast here? *)
                Ok (object_, fill_value)
              else Ok (dtype, fill_value)
          | None => Ok (dtype, fill_value)
          end
      | PyDatetime None _, _ => Ok (object_, fill_value)
      | _, _ => Ok (object_, fill_value)
      end
  else if is_extension_array_dtype dtype && isna fill_value then
    Ok (dtype, match dtype with
               | Ext e => ext_na_value e
               | Np _ => fill_value
               end)
  else if is_float fill_value then
    if np.issubclass_bool_ t then Ok (object_, fill_value)
    else if np.issubclass_integer t then Ok (Np (Float F64), fill_value)
    else
      match dtype_kind dtype with
      | Kf =>
          d <- as_np dtype ;;
          let mst := np.min_scalar_type fill_value in
          if np.dtype_gt mst d then
            (* e.g. mst is np.float64 and dtype is np.float32 *)
            Ok (Np mst, fill_value)
          else Ok (dtype, fill_value)
      | Kc =>
          d <- as_np dtype ;;
          let mst := np.min_scalar_type fill_value in
          Ok (Np (np.promote_types d mst), fill_value)
      | _ => Ok (dtype, fill_value)
      end
  else if is_bool fill_value then
    if negb (np.issubclass_bool_ t) then Ok (object_, fill_value)
    else Ok (dtype, fill_value)
  else if is_integer fill_value then
    if np.issubclass_bool_ t then Ok (object_, fill_value)
    else if np.issubclass_integer t then
      d <- as_np dtype ;;
      if negb (np.can_cast_scalar fill_value d) then
        (* upcast to prevent overflow *)
        let mst := np.min_scalar_type fill_value in
        let dtype := np.promote_types d mst in
        match np.kind_of dtype with
        | Kf =>
            (* Case where we disagree with numpy *)
            Ok (object_, fill_value)
        | _ => Ok (Np dtype, fill_value)
        end
      else Ok (dtype, fill_value)
    else Ok (dtype, fill_value)
  else if is_complex fill_value then
    if np.issubclass_bool_ t then Ok (object_, fill_value)
    else if np.issubclass_integer t || np.issubclass_floating t then
      d <- as_np dtype ;;
      let mst := np.min_scalar_type fill_value in
      Ok (Np (np.promote_types d mst), fill_value)
    else
      match dtype_kind dtype with
      | Kc =>
          d <- as_np dtype ;;
          let mst := np.min_scalar_type fill_value in
          if np.dtype_gt mst d then
            (* e.g. mst is np.complex128 and dtype is np.complex64 *)
            Ok (Np mst, fill_value)
          else Ok (dtype, fill_value)
      | _ => Ok (dtype, fill_value)
      end
  else
    match fill_value with
    | PyNone | PdNA =>
        (* Note: we already excluded dt64/td64 dtypes above *)
        if is_float_dtype dtype || is_complex_dtype dtype then
          Ok (dtype, nan)
        else if is_integer_dtype dtype then
          (* the source assigns the scalar class np.float64 here, not
             np.dtype(np.float64): the class stands for the dtype to
             every reader but [maybe_promote] itself, which takes
             [dtype.type] of its argument *)
          Ok (Np (Float F64), nan)
        else
          Ok (object_,
              match fill_value with PdNA => fill_value | _ => nan end)
    | _ => Ok (object_, fill_value)
    end.

(** [maybe_promote(dtype, fill_value)] *)
Definition maybe_promote (dtype : DtypeObj) (fill_value : pyobj)
  : outcome (DtypeObj * pyobj) :=
  if negb (is_scalar fill_value) && negb (is_object_dtype dtype) then
    (* with object dtype there is nothing to promote, and the user can
       pass pretty much any weird fill_value they like *)
    Raise (ValueError "fill_value must be a scalar")
  else
    (* if we passed an array here, determine the fill value by dtype *)
    let '(dtype, fill_value) := fill_of_ndarray dtype fill_value in
    (* returns tuple of (dtype, fill_value) *)
    '(dtype, fill_value) <- promote_rules dtype fill_value ;;
    (* in case we have a string that looked like a number *)
    let dtype :=
      match dtype with
      | Ext _ => dtype
      | Np d =>
          if np.issubclass_bytes_str (np.type_of d) then object_
          else dtype
      end in
    fill_value <- _ensure_dtype_type fill_value dtype ;;
    Ok (dtype, fill_value).

End Promotion.

(** ** N-ary join: [find_common_type] *)

(** Modelled from the spec: [is_dtype_equal] of pandas.core.dtypes.common is
    not under src/; NumPy dtypes are equal when identical, extension dtypes
    when they have the same name. *)
Definition is_dtype_equal (a b : DtypeObj) : bool :=
  match a, b with
  | Np x, Np y => np_dtype_beq x y
  | Ext x, Ext y => String.eqb (ext_name x) (ext_name y)
  | _, _ => false
  end.

(** [list(dict.fromkeys(types).keys())]: the distinct elements, each at its
    first occurrence. *)
Fixpoint fromkeys_from (seen types : list DtypeObj) : list DtypeObj :=
  match types with
  | [] => []
  | t :: rest =>
      if existsb (is_dtype_equal t) seen then fromkeys_from seen rest
      else t :: fromkeys_from (t :: seen) rest
  end.

Definition dict_fromkeys (types : list DtypeObj) : list DtypeObj :=
  fromkeys_from [] types.

Definition isinstance_ExtensionDtype (t : DtypeObj) : bool :=
  match t with Ext _ => true | Np _ => false end.

Definition as_np_list (types : list DtypeObj) : list np_dtype :=
  flat_map (fun t => match t with Np d => [d] | Ext _ => [] end) types.

Section CommonType.

(** The capability [t._get_common_dtype(types)] of an extension dtype;
    [None] when the extension has no answer. *)
Variable _get_common_dtype :
  ExtensionDtype -> list DtypeObj -> option DtypeObj.

(** The loop over the extension dtypes of the list: the first answer. *)
Fixpoint first_common_dtype (ts types : list DtypeObj) : DtypeObj :=
  match ts with
  | [] => Np Object_
  | Ext e :: rest =>
      match _get_common_dtype e types with
      | Some res => res
      | None => first_common_dtype rest types
      end
  | Np _ :: rest => first_common_dtype rest types
  end.

(** [find_common_type(types)]; [Ok None] is Python's [None]. *)
Definition find_common_type (types : list DtypeObj)
  : outcome (option DtypeObj) :=
  match types with
  | [] => Raise (ValueError "no types given")
  | first :: rest =>
      (* workaround for find_common_type([np.dtype('datetime64[ns]')] * 2)
         => object *)
      if forallb (is_dtype_equal first) rest then Ok (Some first)
      else
        (* get unique types (dict.fromkeys is used as order-preserving
           set()) *)
        let types := dict_fromkeys types in
        if existsb isinstance_ExtensionDtype types then
          Ok (Some (first_common_dtype types types))
        (* take lowest unit *)
        else if forallb is_datetime64_dtype types then
          Ok (Some (Np (Datetime64 U_ns)))
        else if forallb is_timedelta64_dtype types then
          Ok (Some (Np (Timedelta64 U_ns)))
        (* don't mix bool / int or float or complex
           this is different from numpy, which casts bool with float/int
           as int *)
        else if existsb is_bool_dtype types
                && existsb (fun t => is_integer_dtype t || is_float_dtype t
                                     || is_complex_dtype t) types
        then Ok (Some (Np Object_))
        else
          Ok (option_map Np (np.find_common_type (as_np_list types)))
  end.

End CommonType.

(** ** NumPy arrays *)

(** The typed buffer of an array, in memory order. *)
Inductive buffer :=
| BufBool (l : list bool)
| BufInt (s : signedness) (w : int_width) (l : list Z)
| BufFloat (w : float_width) (l : list float)
| BufComplex (w : complex_width) (l : list (float * float))
| BufDatetime64 (u : time_unit) (l : list Z)    (* [iNaT] is NaT *)
| BufTimedelta64 (u : time_unit) (l : list Z)   (* [iNaT] is NaT *)
| BufObject (l : list pyobj)
| BufStr (l : list string).

(** An array that is contiguous in memory, in C or in Fortran order: its
    shape, its order and its elements as they lie in memory.  A strided
    view that is contiguous in neither order has no counterpart here. *)
Record ndarray := {
  shape : list nat;
  fortran : bool;     (* [flags.f_contiguous] *)
  data : buffer
}.

Definition buffer_dtype (b : buffer) : np_dtype :=
  match b with
  | BufBool _ => Bool_
  | BufInt s w _ => int_dtype s w
  | BufFloat w _ => Float w
  | BufComplex w _ => Complex w
  | BufDatetime64 u _ => Datetime64 u
  | BufTimedelta64 u _ => Timedelta64 u
  | BufObject _ => Object_
  | BufStr _ => Str_
  end.

Definition buffer_size (b : buffer) : nat :=
  match b with
  | BufBool l => List.length l
  | BufInt _ _ l | BufDatetime64 _ l | BufTimedelta64 _ l => List.length l
  | BufFloat _ l => List.length l
  | BufComplex _ l => List.length l
  | BufObject l => List.length l
  | BufStr l => List.length l
  end.

(** [arr.dtype], [arr.ndim], [arr.size] *)
Definition arr_dtype (a : ndarray) : np_dtype := buffer_dtype (data a).
Definition ndim (a : ndarray) : nat := List.length (shape a).
Definition size (a : ndarray) : nat := buffer_size (data a).

(** A one-dimensional array over a buffer. *)
Definition array1d (b : buffer) : ndarray :=
  {| shape := [buffer_size b]; fortran := true; data := b |}.

(** [arr.ravel("K")]: the elements in memory order. *)
Definition ravel_K (a : ndarray) : ndarray := array1d (data a).

(** [result.reshape(shape, order=order)] of a flat array, laid out in the
    given order. *)
Definition reshape (a : ndarray) (shp : list nat) (order_F : bool)
  : ndarray :=
  {| shape := shp; fortran := order_F; data := data a |}.

(** [np.atleast_1d(arr)] *)
Definition atleast_1d (a : ndarray) : ndarray :=
  match shape a with
  | [] => {| shape := [1%nat]; fortran := true; data := data a |}
  | _ => a
  end.

(** The same buffer under another shape. *)
Definition with_data (a : ndarray) (b : buffer) : ndarray :=
  {| shape := shape a; fortran := fortran a; data := b |}.

(** Modelled from the spec: [isna] of pandas.core.dtypes.missing on an
    array is not under src/; it marks NaN in floating and complex arrays,
    NaT in temporal arrays, the null markers in object arrays and nothing
    elsewhere. *)
Definition isna_array (a : ndarray) : list bool :=
  match data a with
  | BufBool l => map (fun _ => false) l
  | BufInt _ _ l => map (fun _ => false) l
  | BufFloat _ l => map is_nan l
  | BufComplex _ l => map (fun c => is_nan (fst c) || is_nan (snd c)) l
  | BufDatetime64 _ l | BufTimedelta64 _ l => map (fun z => z =? iNaT) l
  | BufObject l => map isna l
  | BufStr l => map (fun _ => false) l
  end.

(** [mask.any()], [mask.all()] *)
Definition any (mask : list bool) : bool := existsb (fun b => b) mask.
Definition all (mask : list bool) : bool := forallb (fun b => b) mask.

Definition notna_array (a : ndarray) : list bool :=
  map negb (isna_array a).

(** Nanoseconds in one tick of a unit (a year and a month are NumPy's
    average year of 365.2425 days and a twelfth of it). *)
Definition unit_ns (u : time_unit) : Z :=
  match u with
  | U_Y => 31556952 * 10 ^ 9
  | U_M => 2629746 * 10 ^ 9
  | U_W => 604800 * 10 ^ 9
  | U_D => 86400 * 10 ^ 9
  | U_h => 3600 * 10 ^ 9
  | U_m => 60 * 10 ^ 9
  | U_s => 10 ^ 9
  | U_ms => 10 ^ 6
  | U_us => 10 ^ 3
  | U_ns | U_generic => 1
  end.

(** The factor [num / denom] by which NumPy scales a count of the unit
    [from] into a count of the unit [to]: the ratio of the units as a
    reduced fraction. *)
Definition conversion_factor (from to : time_unit) : Z * Z :=
  let g := Z.gcd (unit_ns from) (unit_ns to) in
  (unit_ns from / g, unit_ns to / g).

(** NumPy's cast of one [timedelta64] tick count between units: NaT stays
    NaT; any other count [dt] becomes [dt * num / denom] when it is not
    negative and [(dt * num - (denom - 1)) / denom] when it is, which
    rounds toward minus infinity.  The arithmetic is that of C on [int64]:
    the product and the difference wrap around and the division
    truncates.  A generic unit stands for the unit of the other side. *)
Definition td64_cast (from to : time_unit) (z : Z) : Z :=
  if z =? iNaT then iNaT
  else
    match from, to with
    | U_generic, _ | _, U_generic => z
    | _, _ =>
        let '(num, denom) := conversion_factor from to in
        if z <? 0 then
          Z.quot (wrap Signed W64 (wrap Signed W64 (z * num) - (denom - 1)))
            denom
        else Z.quot (wrap Signed W64 (z * num)) denom
    end.

(** The unit of the result of a cast to a [timedelta64] dtype. *)
Definition td64_result_unit (from to : time_unit) : time_unit :=
  match to with U_generic => from | _ => to end.

(** [np.putmask(result, mask, value)] on a list of elements. *)
Fixpoint putmask {A} (result : list A) (mask : list bool) (value : A)
  : list A :=
  match result, mask with
  | x :: xs, m :: ms => (if m then value else x) :: putmask xs ms value
  | _, _ => result
  end.

(** Rounding a float to the nearest integer, ties to even ([np.round]). *)
Definition float_rint (f : float) : float :=
  match dyadic f with
  | Some (m, e) =>
      if 0 <=? e then f
      else
        let d := 2 ^ (- e) in
        let q := m / d in
        let r := m mod d in
        let z := match Z.compare (2 * r) d with
                 | Lt => q
                 | Gt => q + 1
                 | Eq => if Z.even q then q else q + 1
                 end in
        float_of_Z F64 z
  | None => f
  end.

(** Running a conversion over the elements of a buffer. *)
Fixpoint mapM {A B} (f : A -> outcome B) (l : list A) : outcome (list B) :=
  match l with
  | [] => Ok []
  | x :: xs => y <- f x ;; ys <- mapM f xs ;; Ok (y :: ys)
  end.

(** ** Collaborators

    The routines NumPy and the rest of pandas provide to this module and
    that are used here through their contract only. *)

Record Collaborators := {
  (** the array type of the extension dtypes *)
  ExtensionArray : Type;
  (** [dtype.construct_array_type()._from_sequence(arr, dtype, copy)] *)
  _from_sequence :
    ExtensionDtype -> ndarray -> bool -> outcome (ndarray + ExtensionArray);
  (** [reshape] of an extension array *)
  ext_reshape :
    ExtensionArray -> list nat -> bool -> outcome (ndarray + ExtensionArray);
  (** [ensure_wrapped_if_datetimelike(arr).astype(dtype, copy)] *)
  datetimelike_astype : ndarray -> np_dtype -> bool -> outcome ndarray;
  (** [lib.ensure_string_array(arr, skipna, convert_na_value=False)] *)
  ensure_string_array : ndarray -> bool -> outcome ndarray;
  (** [lib.astype_intsafe(arr, dtype)] *)
  astype_intsafe : ndarray -> np_dtype -> outcome ndarray;
  (** [to_datetime(arr).values]: nanosecond counts *)
  to_datetime : ndarray -> outcome (list Z);
  (** [to_timedelta(arr)._values]: nanosecond counts *)
  to_timedelta : ndarray -> outcome (list Z);
  (** [arr.astype(dtype)] where NumPy's conversion is not spelled out
      below *)
  astype_other : ndarray -> np_dtype -> outcome ndarray;
  (** [np.asarray(list)] of a list that is not made of Python numbers *)
  asarray_other : list pyobj -> outcome ndarray;
  (** [(a == b).all()] where NumPy's comparison is not spelled out below *)
  all_equal_other : ndarray -> ndarray -> bool;
  (** [(arr < 0).any()] of an array that is not boolean, integer or
      floating *)
  any_negative_other : ndarray -> outcome bool;
  (** [np.allclose(a, b, rtol=0)] against a complex or temporal array *)
  allclose_other : ndarray -> ndarray -> outcome bool;
  (** [x.round()] of an array that is not integer or floating *)
  round_other : ndarray -> outcome ndarray;
  (** the integer a C cast gives a float outside the target's range *)
  undefined_cast : signedness -> int_width -> float -> Z;
  (** the scalar constructors on other than numbers *)
  scalar_new_other : np_dtype -> pyobj -> outcome pyobj
}.

Definition ArrayLike (env : Collaborators) : Type :=
  (ndarray + ExtensionArray env)%type.

Section Arrays.

Variable env : Collaborators.

(** *** [ndarray.astype] *)

(** A C cast of a float to an integer type. *)
Definition float_to_int (s : signedness) (w : int_width) (f : float) : Z :=
  match float_trunc f with
  | Some z => if in_range s w z then z else undefined_cast env s w f
  | None => undefined_cast env s w f
  end.

Definition int_of_pyobj (s : signedness) (w : int_width) (v : pyobj)
  : outcome Z :=
  r <- integer_new (scalar_new_other env) s w v ;;
  match r with
  | NpInt _ _ z => Ok z
  | _ => Raise (TypeError "int() argument must be a number")
  end.

Definition astype_int (s : signedness) (w : int_width) (a : ndarray)
  : outcome ndarray :=
  match data a with
  | BufBool l =>
      Ok (with_data a (BufInt s w (map (fun b : bool => if b then 1 else 0) l)))
  | BufInt _ _ l | BufDatetime64 _ l | BufTimedelta64 _ l =>
      Ok (with_data a (BufInt s w (map (wrap s w) l)))
  | BufFloat _ l =>
      Ok (with_data a (BufInt s w (map (float_to_int s w) l)))
  | BufComplex _ l =>
      Ok (with_data a
            (BufInt s w (map (fun c => float_to_int s w (fst c)) l)))
  | BufObject l =>
      zs <- mapM (int_of_pyobj s w) l ;;
      Ok (with_data a (BufInt s w zs))
  | BufStr _ => astype_other env a (int_dtype s w)
  end.

Definition astype_bool (a : ndarray) : outcome ndarray :=
  match data a with
  | BufBool l => Ok a
  | BufInt _ _ l => Ok (with_data a (BufBool (map (fun z => negb (z =? 0)) l)))
  | BufFloat _ l =>
      Ok (with_data a
            (BufBool (map (fun f => negb (float_eqb f (S754_zero false))) l)))
  | _ => astype_other env a Bool_
  end.

Definition float_of_pyobj (w : float_width) (v : pyobj) : outcome float :=
  r <- floating_new (scalar_new_other env) w v ;;
  match r with
  | NpFloat _ f => Ok f
  | _ => Raise (TypeError "float() argument must be a number")
  end.

Definition astype_float (w : float_width) (a : ndarray) : outcome ndarray :=
  match data a with
  | BufBool l =>
      Ok (with_data a
            (BufFloat w (map (fun b : bool => float_of_Z w (if b then 1 else 0)) l)))
  | BufInt _ _ l | BufTimedelta64 _ l | BufDatetime64 _ l =>
      Ok (with_data a (BufFloat w (map (float_of_Z w) l)))
  | BufFloat _ l => Ok (with_data a (BufFloat w (map (float_round w) l)))
  | BufObject l =>
      fs <- mapM (float_of_pyobj w) l ;;
      Ok (with_data a (BufFloat w fs))
  | _ => astype_other env a (Float w)
  end.

Definition astype_timedelta64 (u : time_unit) (a : ndarray)
  : outcome ndarray :=
  match data a with
  | BufTimedelta64 u0 l =>
      Ok (with_data a
            (BufTimedelta64 (td64_result_unit u0 u) (map (td64_cast u0 u) l)))
  | _ => astype_other env a (Timedelta64 u)
  end.

(** [arr.astype(dtype)] for a NumPy dtype. *)
Definition astype (a : ndarray) (to : np_dtype) : outcome ndarray :=
  match to with
  | Bool_ => astype_bool a
  | Int w => astype_int Signed w a
  | UInt w => astype_int Unsigned w a
  | Float w => astype_float w a
  | Timedelta64 u => astype_timedelta64 u a
  | _ => astype_other env a to
  end.

(** [arr.view(np.int64)] of a temporal array: the backing counts. *)
Definition view_int64 (a : ndarray) : ndarray :=
  match data a with
  | BufDatetime64 _ l | BufTimedelta64 _ l =>
      with_data a (BufInt Signed W64 l)
  | _ => a
  end.

End Arrays.

(** ** Nan-safe casting *)

Definition unit_name (u : time_unit) : string :=
  match u with
  | U_generic => ""
  | U_Y => "[Y]" | U_M => "[M]" | U_W => "[W]" | U_D => "[D]"
  | U_h => "[h]" | U_m => "[m]" | U_s => "[s]"
  | U_ms => "[ms]" | U_us => "[us]" | U_ns => "[ns]"
  end.

Definition width_name (w : int_width) : string :=
  match w with W8 => "8" | W16 => "16" | W32 => "32" | W64 => "64" end.

(** [dtype.name] *)
Definition dtype_name (d : np_dtype) : string :=
  match d with
  | Bool_ => "bool"
  | Int w => "int" ++ width_name w
  | UInt w => "uint" ++ width_name w
  | Float F16 => "float16"
  | Float F32 => "float32"
  | Float F64 => "float64"
  | Complex C64 => "complex64"
  | Complex C128 => "complex128"
  | Object_ => "object"
  | Datetime64 u => "datetime64" ++ unit_name u
  | Timedelta64 u => "timedelta64" ++ unit_name u
  | Str_ => "str"
  | Bytes_ => "bytes"
  end.

(** [str(dtype)]: the name of the dtype, but for the string dtypes, which
    print as their type string (here without a length, and as on a
    little-endian machine). *)
Definition dtype_str (d : np_dtype) : string :=
  match d with
  | Str_ => "<U0"
  | Bytes_ => "|S0"
  | _ => dtype_name d
  end.

Inductive warning :=
| FutureWarning (msg : string).

(** The deprecation of the cast of temporal values to int64. *)
Definition int64_cast_deprecated (d : np_dtype) : warning :=
  FutureWarning
    ("casting " ++ dtype_str d
     ++ " values to int64 with .astype(...) "
     ++ "is deprecated and will raise in a future version. "
     ++ "Use .view(...) instead.").

Definition missing_unit (d : np_dtype) : exn :=
  ValueError ("The '" ++ dtype_name d ++ "' dtype has no unit. Please pass in '"
              ++ dtype_name d ++ "[ns]' instead.").

Definition nat_to_integer : exn :=
  ValueError "Cannot convert NaT values to integer".

Definition non_finite_to_integer : exn :=
  ValueError "Cannot convert non-finite values (NA or inf) to integer".

Definition cannot_astype (what : string) (from to : np_dtype) : exn :=
  TypeError ("cannot astype a " ++ what ++ " from [" ++ dtype_str from
             ++ "] to [" ++ dtype_str to ++ "]").

(** [np.isfinite(arr).all()] of a floating array *)
Definition isfinite_all (a : ndarray) : bool :=
  match data a with
  | BufFloat _ l => forallb is_finite l
  | _ => true
  end.

Section NanSafe.

Variable env : Collaborators.

(** [astype_td64_unit_conversion(values, dtype, copy)] *)
Definition astype_td64_unit_conversion
  (values : ndarray) (dtype : np_dtype) (copy : bool) : outcome ndarray :=
  if np_dtype_beq (arr_dtype values) dtype then
    if copy then Ok values   (* values.copy(): the same elements *)
    else Ok values
  else
    (* otherwise we are converting to non-nano *)
    result <- astype env values dtype ;;    (* avoid double-copying *)
    result <- astype env result (Float F64) ;;
    let mask := isna_array values in
    match data result with
    | BufFloat w l =>
        Ok (with_data result (BufFloat w (putmask l mask float_nan)))
    | _ => Ok result
    end.

(** A value of this type is a run of [astype_nansafe]: the warnings it
    emitted, then what it returned or raised. *)
Definition run (A : Type) : Type := (list warning * outcome A)%type.

Definition quiet {A} (r : outcome A) : run A := ([], r).

(** The body of [astype_nansafe(arr, dtype, copy, skipna)].  The function
    calls itself on a flattened array and on a re-inferred temporal array;
    the first argument stands for these calls ([None] when the depth of
    calls is used up). *)
Definition astype_nansafe_body
  (astype_nansafe :
     ndarray -> DtypeObj -> bool -> bool -> option (run (ArrayLike env)))
  (arr : ndarray) (dtype : DtypeObj) (copy skipna : bool)
  : option (run (ArrayLike env)) :=
  if (1 <? ndim arr)%nat then
    (* Make sure we are doing non-copy ravel and reshape. *)
    let flat := ravel_K arr in
    match astype_nansafe flat dtype copy skipna with
    | None => None
    | Some (ws, Raise e) => Some (ws, Raise e)
    | Some (ws, Ok (inl result)) =>
        Some (ws, Ok (inl (reshape result (shape arr) (fortran arr))))
    | Some (ws, Ok (inr result)) =>
        Some (ws, ext_reshape env result (shape arr) (fortran arr))
    end
  else
    (* We get here with 0-dim from sparse *)
    let arr := atleast_1d arr in
    match dtype with
    | Ext e =>
        (* dispatch on extension dtype if needed *)
        Some (quiet (_from_sequence env e arr copy))
    | Np dtype =>
        let src := arr_dtype arr in
        if match np.kind_of src with Km | KM => true | _ => false end
           && (np.issubclass_str (np.type_of dtype)
               || np_dtype_beq dtype Object_)
        then
          Some (quiet (r <- datetimelike_astype env arr dtype copy ;;
                       Ok (inl r)))
        else if np.issubclass_str (np.type_of dtype) then
          Some (quiet (r <- ensure_string_array env arr skipna ;;
                       Ok (inl r)))
        else if np.issubclass_datetime64 (np.type_of src) then
          if np_dtype_beq dtype (Int W64) then
            Some ([int64_cast_deprecated src],
                  if any (isna_array arr) then Raise nat_to_integer
                  else Ok (inl (view_int64 arr)))
          (* allow frequency conversions *)
          else
            match np.kind_of dtype with
            | KM => Some (quiet (r <- astype env arr dtype ;; Ok (inl r)))
            | _ => Some (quiet (Raise (cannot_astype "datetimelike"
                                         src dtype)))
            end
        else if np.issubclass_timedelta64 (np.type_of src) then
          if np_dtype_beq dtype (Int W64) then
            Some ([int64_cast_deprecated src],
                  if any (isna_array arr) then Raise nat_to_integer
                  else Ok (inl (view_int64 arr)))
          else
            match np.kind_of dtype with
            | Km =>
                Some (quiet (r <- astype_td64_unit_conversion arr dtype
                                    copy ;;
                             Ok (inl r)))
            | _ => Some (quiet (Raise (cannot_astype "timedelta"
                                         src dtype)))
            end
        else
          let generic :=
            (* the unit check, then NumPy's own cast *)
            if String.eqb (dtype_name dtype) "datetime64"
               || String.eqb (dtype_name dtype) "timedelta64"
            then Some (quiet (Raise (missing_unit dtype)))
            else if copy || np_dtype_beq src Object_
                    || np_dtype_beq dtype Object_
            then
              (* Explicit copy, or required since NumPy can't view
                 from / to object. *)
              Some (quiet (r <- astype env arr dtype ;; Ok (inl r)))
            else
              (* a view has the elements of a copy *)
              Some (quiet (r <- astype env arr dtype ;; Ok (inl r)))
          in
          if np.issubclass_floating (np.type_of src)
             && np.issubclass_integer (np.type_of dtype)
          then
            if negb (isfinite_all arr)
            then Some (quiet (Raise non_finite_to_integer))
            else generic
          else if np_dtype_beq src Object_ then
            (* work around NumPy brokenness, #1987 *)
            if np.issubclass_integer (np.type_of dtype) then
              Some (quiet (r <- astype_intsafe env arr dtype ;;
                           Ok (inl r)))
            (* if we have a datetime/timedelta array of objects
               then coerce to a proper dtype and recall
               astype_nansafe *)
            else if np.issubclass_datetime64 (np.type_of dtype) then
              match to_datetime env arr with
              | Raise e => Some (quiet (Raise e))
              | Ok ns =>
                  astype_nansafe
                    (array1d (BufDatetime64 U_ns ns)) (Np dtype) copy
                    false
              end
            else if np.issubclass_timedelta64 (np.type_of dtype) then
              match to_timedelta env arr with
              | Raise e => Some (quiet (Raise e))
              | Ok ns =>
                  astype_nansafe
                    (array1d (BufTimedelta64 U_ns ns)) (Np dtype) copy
                    false
              end
            else generic
          else generic
    end.

(** [fuel] bounds the depth of the calls of [astype_nansafe] to itself. *)
Fixpoint astype_nansafe_fuel (fuel : nat)
  : ndarray -> DtypeObj -> bool -> bool -> option (run (ArrayLike env)) :=
  match fuel with
  | O => fun _ _ _ _ => None
  | S fuel => astype_nansafe_body (astype_nansafe_fuel fuel)
  end.

(** Three nested calls are the most a cast makes: the flattened array,
    the re-inferred temporal array, and its cast. *)
Definition astype_nansafe (arr : ndarray) (dtype : DtypeObj)
  (copy skipna : bool) : option (run (ArrayLike env)) :=
  astype_nansafe_fuel 3 arr dtype copy skipna.

End NanSafe.

(** ** Comparing an array with its integer conversion *)

(** The elements of a boolean or integer buffer, as integers. *)
Definition int_values (b : buffer) : option (np_dtype * list Z) :=
  match b with
  | BufBool l => Some (Bool_, map (fun x : bool => if x then 1 else 0) l)
  | BufInt s w l => Some (int_dtype s w, l)
  | _ => None
  end.

(** The float format in which NumPy carries out an operation between
    arrays of two dtypes, if it is a floating one. *)
Definition common_float (a b : np_dtype) : option float_width :=
  match np.promote_types a b with
  | Float w => Some w
  | _ => None
  end.

(** [x == y] of NumPy for an integer [x] of dtype [dx] and an element of a
    numeric array of dtype [dy]: both sides are brought to the common
    dtype first. *)
Definition int_eq_int (dx dy : np_dtype) (x y : Z) : bool :=
  match common_float dx dy with
  | Some w => float_eqb (float_of_Z w x) (float_of_Z w y)
  | None => x =? y
  end.

Definition int_eq_float (dx : np_dtype) (wy : float_width) (x : Z) (y : float)
  : bool :=
  match common_float dx (Float wy) with
  | Some w => float_eqb (float_of_Z w x) y
  | None => false
  end.

(** [x == v] for a NumPy integer [x] and a Python object [v]. *)
Definition int_eq_pyobj (x : Z) (v : pyobj) : bool :=
  match to_number v with
  | Some (NumInt z) => x =? z
  | Some (NumFloat f) => float_eqb (float_of_Z F64 x) f
  | Some (NumComplex re im) =>
      float_eqb (float_of_Z F64 x) re && float_eqb im (S754_zero false)
  | None => false
  end.

Fixpoint zip_with {A B C} (f : A -> B -> C) (l : list A) (l' : list B)
  : list C :=
  match l, l' with
  | x :: xs, y :: ys => f x y :: zip_with f xs ys
  | _, _ => []
  end.

Section Comparisons.

Variable env : Collaborators.

(** [(orig == conv).all()] where [conv] is a boolean or integer array
    of the shape of [orig]. *)
Definition all_equal (orig conv : ndarray) : bool :=
  match int_values (data conv) with
  | Some (dc, xs) =>
      match data orig with
      | BufBool l =>
          all (zip_with (fun x (y : bool) => x =? (if y then 1 else 0)) xs l)
      | BufInt s w l =>
          all (zip_with (int_eq_int dc (int_dtype s w)) xs l)
      | BufFloat w l => all (zip_with (int_eq_float dc w) xs l)
      | BufObject l => all (zip_with int_eq_pyobj xs l)
      | _ => all_equal_other env orig conv
      end
  | None => all_equal_other env orig conv
  end.

(** [(arr < 0).any()] *)
Definition any_negative (a : ndarray) : outcome bool :=
  match data a with
  | BufBool _ => Ok false
  | BufInt _ _ l => Ok (existsb (fun z => z <? 0) l)
  | BufFloat _ l => Ok (existsb (fun f => float_ltb f (S754_zero false)) l)
  | _ => any_negative_other env a
  end.

(** The absolute tolerance [atol = 1e-8] of [np.allclose]. *)
Definition atol : float :=
  Eval vm_compute in
    float64_div (float_of_Z F64 1) (float_of_Z F64 (10 ^ 8)).

(** [abs(x - y) <= atol + rtol * abs(y)] with [rtol = 0], for an integer
    [x] of dtype [dx] and a finite float [y] of format [wy]: the
    difference is taken in the common format, the tolerance in the
    format of [y]. *)
Definition within_tol (dx : np_dtype) (wy : float_width) (x : Z) (y : float)
  : bool :=
  match common_float dx (Float wy) with
  | Some w =>
      let diff := SFsub (prec_of w) (emax_of w) (float_of_Z w x) y in
      let tol := SFadd (prec_of wy) (emax_of wy) (float_round wy atol)
                   (SFmul (prec_of wy) (emax_of wy) (S754_zero false)
                      (float_abs y)) in
      float_leb (float_abs diff) tol
  | None => false
  end.

(** One element of [np.isclose(x, y, rtol=0)]: an element that is not
    finite is close only to itself. *)
Definition isclose (dx : np_dtype) (wy : float_width) (x : Z) (y : float)
  : bool :=
  if is_finite y then within_tol dx wy x y
  else
    match common_float dx (Float wy) with
    | Some w => float_eqb (float_of_Z w x) y
    | None => false
    end.

(** [np.allclose(new_result, result, rtol=0)] where [new_result] is a
    boolean or integer array; an integer [result] is compared as
    float64. *)
Definition allclose (new_result result : ndarray) : outcome bool :=
  match int_values (data new_result) with
  | Some (dx, xs) =>
      match data result with
      | BufBool l =>
          Ok (all (zip_with (fun x (y : bool) =>
                               isclose dx F64 x
                                 (float_of_Z F64 (if y then 1 else 0))) xs l))
      | BufInt _ _ l =>
          Ok (all (zip_with (fun x y => isclose dx F64 x (float_of_Z F64 y))
                     xs l))
      | BufFloat w l => Ok (all (zip_with (isclose dx w) xs l))
      | _ => allclose_other env new_result result
      end
  | None => allclose_other env new_result result
  end.

(** [x.round()] *)
Definition round (x : ndarray) : outcome ndarray :=
  match data x with
  | BufInt _ _ _ => Ok x
  | BufFloat w l => Ok (with_data x (BufFloat w (map float_rint l)))
  | _ => round_other env x
  end.

End Comparisons.

(** ** Arrays from Python lists *)

(** All elements through [f], if [f] accepts each one. *)
Fixpoint traverse {A B} (f : A -> option B) (l : list A) : option (list B) :=
  match l with
  | [] => Some []
  | x :: xs =>
      match f x, traverse f xs with
      | Some y, Some ys => Some (y :: ys)
      | _, _ => None
      end
  end.

Definition py_as_bool (v : pyobj) : option bool :=
  match v with PyBool b => Some b | _ => None end.

Definition py_as_int (v : pyobj) : option Z :=
  match v with
  | PyBool b => Some (if b then 1 else 0)
  | PyInt z => Some z
  | _ => None
  end.

Definition py_as_float (v : pyobj) : option float :=
  match v with
  | PyFloat f => Some f
  | _ =>
      match py_as_int v with
      | Some z =>
          let f := float_of_Z F64 z in
          if is_finite f then Some f else None
      | None => None
      end
  end.

Definition py_as_complex (v : pyobj) : option (float * float) :=
  match v with
  | PyComplex re im => Some (re, im)
  | _ =>
      match py_as_float v with
      | Some f => Some (f, S754_zero false)
      | None => None
      end
  end.

Inductive array_like :=
| AL_ndarray (a : ndarray)       (* has an [astype] attribute *)
| AL_list (l : list pyobj).      (* a Python list *)

Section FromLists.

Variable env : Collaborators.

(** [np.asarray(l)] of a Python list: NumPy infers the dtype from the
    elements (an empty list gives a float64 array). *)
Definition asarray_list (l : list pyobj) : outcome ndarray :=
  match l with
  | [] => Ok (array1d (BufFloat F64 []))
  | _ =>
      match traverse py_as_bool l with
      | Some bs => Ok (array1d (BufBool bs))
      | None =>
          match traverse py_as_int l with
          | Some zs =>
              if forallb (in_range Signed W64) zs
              then Ok (array1d (BufInt Signed W64 zs))
              else if forallb (in_range Unsigned W64) zs
              then Ok (array1d (BufInt Unsigned W64 zs))
              else asarray_other env l
          | None =>
              match traverse py_as_float l with
              | Some fs => Ok (array1d (BufFloat F64 fs))
              | None =>
                  match traverse py_as_complex l with
                  | Some cs => Ok (array1d (BufComplex C128 cs))
                  | None => asarray_other env l
                  end
              end
          end
      end
  end.

(** [np.asarray(arr)] *)
Definition asarray (arr : array_like) : outcome ndarray :=
  match arr with
  | AL_ndarray a => Ok a
  | AL_list l => asarray_list l
  end.

(** [np.array(l, dtype=dtype)] for an integer dtype: each element is
    converted on its own. *)
Definition array_int (l : list pyobj) (s : signedness) (w : int_width)
  : outcome ndarray :=
  zs <- mapM (int_of_pyobj env s w) l ;;
  Ok (array1d (BufInt s w zs)).

(** [np.array_equal(a1, a2)] where [a2] is a boolean or integer array *)
Definition array_equal (a1 : array_like) (a2 : ndarray) : bool :=
  match asarray a1 with
  | Raise _ => false
  | Ok a1 =>
      if list_eq_dec Nat.eq_dec (shape a1) (shape a2)
      then all_equal env a1 a2
      else false
  end.

End FromLists.

(** ** Strict integer casting: [maybe_cast_to_integer_array] *)

Definition dtype_repr (d : DtypeObj) : string :=
  match d with Np n => dtype_name n | Ext e => ext_name e end.

Section IntegerCast.

Variable env : Collaborators.

(** The direct conversion of lines 1787-1790. *)
Definition direct_conversion (arr : array_like) (dtype : DtypeObj)
  : outcome ndarray :=
  d <- as_np dtype ;;
  match arr, d with
  | AL_list l, Int w => array_int env l Signed w
  | AL_list l, UInt w => array_int env l Unsigned w
  | AL_list l, _ => a <- asarray env arr ;; astype env a d
  | AL_ndarray a, _ => astype env a d
  end.

(** [maybe_cast_to_integer_array(arr, dtype, copy)]; [Ok None] is the
    [None] of a call that reaches the end of the function. *)
Definition maybe_cast_to_integer_array
  (arr : array_like) (dtype : DtypeObj) (copy : bool)
  : outcome (option ndarray) :=
  if negb (is_integer_dtype dtype) then Raise AssertionError
  else
    match direct_conversion arr dtype with
    | Raise (OverflowError _) =>
        Raise (OverflowError
                 ("The elements provided in the data cannot all be "
                  ++ "casted to the dtype "
                  ++ dtype_repr dtype))
    | Raise e => Raise e
    | Ok casted =>
        if array_equal env arr casted then Ok (Some casted)
        else
          (* We do this casting to allow for proper data and dtype
             checking.  We didn't do this earlier because NumPy doesn't
             handle `uint64` correctly. *)
          arr <- asarray env arr ;;
          negative <-
            (if is_unsigned_integer_dtype dtype then any_negative env arr
             else Ok false) ;;
          if is_unsigned_integer_dtype dtype && negative then
            Raise (OverflowError
                     "Trying to coerce negative values to unsigned integers")
          else if is_float_dtype (Np (arr_dtype arr))
                  || is_object_dtype (Np (arr_dtype arr))
          then Raise (ValueError "Trying to coerce float values to integers")
          else Ok None
    end.

End IntegerCast.

(** ** Numeric downcasting: [maybe_downcast_numeric] *)

(** [dtype.itemsize] in bytes (a string dtype has the size of its longest
    element; no branch below depends on it). *)
Definition itemsize (d : np_dtype) : Z :=
  match d with
  | Bool_ => 1
  | Int w | UInt w => bits w / 8
  | Float F16 => 2
  | Float F32 => 4
  | Float F64 => 8
  | Complex C64 => 8
  | Complex C128 => 16
  | Object_ | Datetime64 _ | Timedelta64 _ => 8
  | Str_ | Bytes_ => 0
  end.

(** [r[0]]: the first element, as a scalar. *)
Definition first_element (a : ndarray) : option pyobj :=
  match data a with
  | BufBool l => option_map NpBool (hd_error l)
  | BufInt s w l => option_map (NpInt s w) (hd_error l)
  | BufFloat w l => option_map (NpFloat w) (hd_error l)
  | BufComplex w l =>
      option_map (fun c => NpComplex w (fst c) (snd c)) (hd_error l)
  | BufDatetime64 u l => option_map (NpDatetime64 u) (hd_error l)
  | BufTimedelta64 u l => option_map (NpTimedelta64 u) (hd_error l)
  | BufObject l => hd_error l
  | BufStr l => option_map NpStr (hd_error l)
  end.

(** [isinstance(v, (np.integer, np.floating, int, float, bool))] *)
Definition plain_numeric (v : pyobj) : bool :=
  match v with
  | PyInt _ | PyFloat _ | PyBool _ | NpInt _ _ _ | NpFloat _ _
  | NpTimedelta64 _ _ => true
  | _ => false
  end.

(** Modelled from the spec: [is_string_dtype] of pandas.core.dtypes.common
    is not under src/; the object, string and bytes kinds. *)
Definition is_string_dtype (d : np_dtype) : bool :=
  match np.kind_of d with KO | KU | KS => true | _ => false end.

Definition is_kind_O (d : np_dtype) : bool :=
  match np.kind_of d with KO => true | _ => false end.

Section Downcast.

Variable env : Collaborators.

(** [trans(x)] *)
Definition trans (do_round : bool) (x : ndarray) : outcome ndarray :=
  if do_round then round env x else Ok x.

(** [maybe_downcast_numeric(result, dtype, do_round)] *)
Definition maybe_downcast_numeric
  (result : ndarray) (dtype : DtypeObj) (do_round : bool)
  : outcome ndarray :=
  match dtype with
  | Ext _ =>
      (* e.g. SparseDtype has no itemsize attr *)
      Ok result
  | Np dtype =>
      let rdtype := arr_dtype result in
      if kind_beq (np.kind_of dtype) (np.kind_of rdtype)
         (* don't allow upcasts here (except if empty) *)
         && (itemsize rdtype <=? itemsize dtype)
         && negb (Nat.eqb (size result) 0)
      then Ok result
      else if is_bool_dtype (Np dtype) || is_integer_dtype (Np dtype) then
        if Nat.eqb (size result) 0 then
          (* if we don't have any elements, just astype it *)
          x <- trans do_round result ;; astype env x dtype
        else
          (* do a test on the first element, if it fails then we are
             done *)
          match first_element result with
          | None => Ok result
          | Some r0 =>
              if isna r0 then
                (* if we have any nulls, then we are done *)
                Ok result
              else if negb (plain_numeric r0) then
                (* a comparable, e.g. a Decimal may slip in here *)
                Ok result
              else if (np.issubclass_object_ (np.type_of rdtype)
                       || np.issubclass_number (np.type_of rdtype))
                      && all (notna_array result)
              then
                x <- trans do_round result ;;
                new_result <- astype env x dtype ;;
                if is_kind_O (arr_dtype new_result) || is_kind_O rdtype
                then
                  (* np.allclose may raise TypeError on object-dtype *)
                  if all_equal env result new_result then Ok new_result
                  else Ok result
                else
                  close <- allclose env new_result result ;;
                  if close then Ok new_result else Ok result
              else Ok result
          end
      else if np.issubclass_floating (np.type_of dtype)
              && negb (is_bool_dtype (Np rdtype))
              && negb (is_string_dtype rdtype)
      then astype env result dtype
      else Ok result
  end.

End Downcast.

(** ** Lists of dtypes for the join *)

(** No dtype of the list is an extension dtype. *)
Definition all_numpy (l : list DtypeObj) : Prop :=
  forall t, In t l -> isinstance_ExtensionDtype t = false.

(** Extension dtypes in the manner of the sparse dtype of pandas: sparse
    arrays of 64-bit integers with a fill value. *)
Definition sparse_int64 (fill : string) : ExtensionDtype :=
  {| ext_name := "Sparse[int64, " ++ fill ++ "]";
     ext_type := T_signed W64;
     ext_kind := Ki;
     ext_na_value := nan;
     ext_tz := None |}.

(** Their capability answers with the sparse dtype that keeps the fill
    value of the first sparse dtype of the list. *)
Definition sparse_common_dtype (e : ExtensionDtype) (types : list DtypeObj)
  : option DtypeObj :=
  find isinstance_ExtensionDtype types.

(** ** Temporal dtypes without a unit *)

(** The bare family names [datetime64] and [timedelta64]. *)
Definition has_no_unit (d : np_dtype) : bool :=
  match d with
  | Datetime64 U_generic | Timedelta64 U_generic => true
  | _ => false
  end.

(** The array whose elements [astype_nansafe] converts: the input
    flattened when it has more than one dimension, and with at least one
    dimension otherwise. *)
Definition flattened (arr : ndarray) : ndarray :=
  if (1 <? ndim arr)%nat then ravel_K arr else atleast_1d arr.

(** The array [astype_nansafe] returns once the flattened input has been
    converted to [r]: [r] in the shape and memory order of the input. *)
Definition unflattened (arr r : ndarray) : ndarray :=
  if (1 <? ndim arr)%nat then reshape r (shape arr) (fortran arr) else r.

(** The run of [astype_nansafe] that hands the input to the conversion
    [f] and returns or raises what [f] does, without a warning. *)
Definition handed_to (env : Collaborators) (arr : ndarray)
  (f : ndarray -> outcome ndarray) : run (ArrayLike env) :=
  quiet (r <- f (flattened arr) ;; Ok (inl (unflattened arr r))).

(** ** An environment without collaborators

    NumPy alone, with no extension arrays and no pandas parsers: every
    collaborator refuses. *)

Definition unavailable {A} : outcome A :=
  Raise (TypeError "collaborator not available").

Definition numpy_alone : Collaborators :=
  {| ExtensionArray := Empty_set;
     _from_sequence := fun _ _ _ => unavailable;
     ext_reshape := fun _ _ _ => unavailable;
     datetimelike_astype := fun _ _ _ => unavailable;
     ensure_string_array := fun _ _ => unavailable;
     astype_intsafe := fun _ _ => unavailable;
     to_datetime := fun _ => unavailable;
     to_timedelta := fun _ => unavailable;
     astype_other := fun _ _ => unavailable;
     asarray_other := fun _ => unavailable;
     all_equal_other := fun _ _ => false;
     any_negative_other := fun _ => unavailable;
     allclose_other := fun _ _ => unavailable;
     round_other := fun _ => unavailable;
     undefined_cast := fun _ w _ => np.int_min w;
     scalar_new_other := fun _ _ => unavailable |}.

(** The units coarser than a nanosecond. *)
Definition coarser_than_ns (u : time_unit) : bool :=
  match u with U_generic | U_ns => false | _ => true end.

(** The float64 element that the conversion of a nanosecond count [z] to
    the unit [u] yields: NaN for NaT, else the whole number of units in
    [z], rounded down. *)
Definition whole_units (u : time_unit) (z : Z) : float :=
  if z =? iNaT then float_nan else float_of_Z F64 (z / unit_ns u).

(** ** Floats of the examples *)

Definition one_and_a_half : float :=
  Eval vm_compute in float64_div (float_of_Z F64 3) (float_of_Z F64 2).

Definition two_and_a_half : float :=
  Eval vm_compute in float64_div (float_of_Z F64 5) (float_of_Z F64 2).

(** ** Scalar constructors as collaborators of promotion *)

(** A constructor call [cls(value)] that returns, returns an instance of
    the class. *)
Definition constructs_instances
  (scalar_new_other : np_dtype -> pyobj -> outcome pyobj) : Prop :=
  forall d v r,
    scalar_new_other d v = Ok r -> isinstance r (np.type_of d) = true.

(** Promotion without the pandas scalar parsers. *)
Definition no_Timestamp (v : pyobj) : outcome Z := unavailable.
Definition no_Timedelta (v : pyobj) : outcome (option Z) := unavailable.
Definition no_scalar_new (d : np_dtype) (v : pyobj) : outcome pyobj :=
  unavailable.

(** ** Value domains of the NumPy dtypes

    What it means for a dtype to represent the values of another without
    loss: every value of the one is, exactly, a value of the other. *)

(** A binary rational [m * 2^e], an infinity or NaN. *)
Inductive xreal :=
| XFin (m e : Z)
| XInf (s : bool)
| XNaN.

(** The two denote the same number. *)
Definition xsame (x y : xreal) : Prop :=
  match x, y with
  | XFin m e, XFin m' e' => dyadic_compare (m, e) (m', e') = Eq
  | XInf s, XInf s' => s = s'
  | XNaN, XNaN => True
  | _, _ => False
  end.

Definition emin_of (w : float_width) : Z := 3 - emax_of w - prec_of w.

(** The numbers of a binary floating-point format: the infinities, NaN and
    the [m * 2^e] with [|m| < 2^prec] and [emin <= e <= emax - prec]. *)
Definition in_format (w : float_width) (x : xreal) : Prop :=
  match x with
  | XFin m e =>
      Z.abs m < 2 ^ prec_of w /\ emin_of w <= e <= emax_of w - prec_of w
  | _ => True
  end.

Inductive value :=
| VNum (x : xreal)         (* a boolean (0 or 1), an integer or a float *)
| VComplex (re im : xreal)
| VDatetime (u : time_unit) (z : Z)
| VTimedelta (u : time_unit) (z : Z)
| VStr (s : string)
| VBytes (s : string)
| VObject (o : pyobj).

(** The values an array of a dtype can hold. *)
Definition in_domain (d : np_dtype) (v : value) : Prop :=
  match d, v with
  | Bool_, VNum (XFin m 0) => m = 0 \/ m = 1
  | Int w, VNum (XFin m 0) => in_range Signed w m = true
  | UInt w, VNum (XFin m 0) => in_range Unsigned w m = true
  | Float w, VNum x => in_format w x
  | Complex w, VComplex re im =>
      in_format (component w) re /\ in_format (component w) im
  | Datetime64 u, VDatetime u' z => u = u' /\ in_range Signed W64 z = true
  | Timedelta64 u, VTimedelta u' z => u = u' /\ in_range Signed W64 z = true
  | Str_, VStr _ => True
  | Bytes_, VBytes _ => True
  | Object_, _ => True
  | _, _ => False
  end.

(** [v'] is the value [v], possibly in another representation: numbers are
    compared as numbers, a real number is the complex number with no
    imaginary part. *)
Definition same_value (v' v : value) : Prop :=
  match v', v with
  | VNum x, VNum y => xsame x y
  | VComplex re im, VComplex re' im' => xsame re re' /\ xsame im im'
  | VComplex re im, VNum y => xsame re y /\ xsame im (XFin 0 0)
  | _, _ => v' = v
  end.

(** A dtype holds a value if one of its own values is that value. *)
Definition holds (d : np_dtype) (v : value) : Prop :=
  exists v', in_domain d v' /\ same_value v' v.

(** [d'] represents every value of [d] without loss. *)
Definition dtype_holds (d' d : np_dtype) : Prop :=
  forall v, in_domain d v -> holds d' v.

(** The pairs where a cast NumPy calls safe loses integers: a 64-bit
    integer dtype into a 53-bit mantissa. *)
Definition loses_integers (d d' : np_dtype) : bool :=
  match d, d' with
  | (Int W64 | UInt W64), (Float F64 | Complex C128) => true
  | _, _ => false
  end.

(** The dtypes with a null value of their own: NaN, NaT or any object. *)
Definition holds_null (d : np_dtype) : bool :=
  match np.kind_of d with
  | Kf | Kc | KM | Km | KO => true
  | _ => false
  end.

(** ** The promotion rules on a NumPy dtype *)

(** What the rules may return for the NumPy dtype [n]: a dtype to which
    [n] casts safely, and with a null fill value only a dtype that has a
    null (or a string dtype, which promotion replaces by object). *)
Definition promoted (n : np_dtype) (r : outcome (DtypeObj * pyobj)) : Prop :=
  forall d1 v1,
    r = Ok (d1, v1) ->
    exists n1,
      d1 = Np n1
      /\ np.can_cast n n1 = true
      /\ (isna v1 = true ->
          holds_null n1 = true
          \/ np.issubclass_bytes_str (np.type_of n1) = true).

(** * Further routines of cast.py *)

(** ** Numeric validation: [validate_numeric_casting] *)

(** [issubclass(t, complex)] for the scalar class of a NumPy dtype: of
    these classes only [complex128] derives from Python's [complex]. *)
Definition issubclass_complex (t : pytype) : bool :=
  match t with T_complexfloating C128 => true | _ => false end.

(** [validate_numeric_casting(dtype, value)]; [Ok tt] is the [None] of a
    call that raises nothing. *)
Definition validate_numeric_casting (dtype : np_dtype) (value : pyobj)
  : outcome unit :=
  let t := np.type_of dtype in
  _ <- (if (np.issubclass_integer t || np.issubclass_bool_ t)
           && (is_float value && np_isnan value)
        then Raise (ValueError "Cannot assign nan to integer series")
        else Ok tt) ;;
  if (np.issubclass_integer t || np.issubclass_floating t
      || issubclass_complex t)
     && negb (np.issubclass_bool_ t)
     && is_bool value
  then Raise (ValueError "Cannot assign bool to float/integer series")
  else Ok tt.

(** ** Codes of a categorical: [coerce_indexer_dtype] *)

Definition _int8_max : Z := np.int_max W8.
Definition _int16_max : Z := np.int_max W16.
Definition _int32_max : Z := np.int_max W32.
Definition _int64_max : Z := np.int_max W64.

Section Indexer.

Variable env : Collaborators.

(** Modelled from the spec: [ensure_int8], [ensure_int16], [ensure_int32]
    and [ensure_int64] of pandas._libs.algos are not under src/; each
    returns an array of its dtype as it is and casts any other with
    [astype]. *)
Definition ensure_int (w : int_width) (arr : ndarray) : outcome ndarray :=
  if np_dtype_beq (arr_dtype arr) (Int w) then Ok arr
  else astype env arr (Int w).

(** [coerce_indexer_dtype(indexer, categories)] *)
Definition coerce_indexer_dtype {A} (indexer : ndarray) (categories : list A)
  : outcome ndarray :=
  let length := Z.of_nat (List.length categories) in
  if length <? _int8_max then ensure_int W8 indexer
  else if length <? _int16_max then ensure_int W16 indexer
  else if length <? _int32_max then ensure_int W32 indexer
  else ensure_int W64 indexer.

End Indexer.

(** The codes of a categorical with [n] categories: the positions below
    [n], and [-1] for a missing value. *)
Definition valid_code (n : nat) (c : Z) : Prop := -1 <= c < Z.of_nat n.

(** ** Upcasting to make room for a fill value *)

Section Upcast.

Variable Timestamp_to_datetime64 : pyobj -> outcome Z.
Variable Timedelta : pyobj -> outcome (option Z).
Variable env : Collaborators.

(** [np.place(arr, mask, np.nan)] on an array that is not floating,
    complex or object. *)
Variable place_other : ndarray -> list bool -> outcome ndarray.

(** [np.place(arr, mask, np.nan)]: NaN, as an element of the array, at
    every position the mask selects.  [mask] lists the elements of the
    mask in the memory order of [arr]. *)
Definition place_nan (arr : ndarray) (mask : list bool) : outcome ndarray :=
  if negb (Nat.eqb (List.length mask) (size arr)) then
    Raise (ValueError "place: mask and data must be the same size")
  else
    match data arr with
    | BufFloat w l =>
        Ok (with_data arr (BufFloat w (putmask l mask float_nan)))
    | BufComplex w l =>
        Ok (with_data arr
              (BufComplex w (putmask l mask (float_nan, S754_zero false))))
    | BufObject l => Ok (with_data arr (BufObject (putmask l mask nan)))
    | _ => place_other arr mask
    end.

(** [maybe_upcast_putmask(result, mask)].  The function writes into the
    array it is given when no upcast is needed: a call yields the array it
    returns and, second, the caller's array as the call leaves it. *)
Definition maybe_upcast_putmask (result : array_like) (mask : list bool)
  : outcome (ndarray * ndarray) :=
  match result with
  | AL_list _ => Raise (ValueError "The result input must be a ndarray.")
  | AL_ndarray result =>
      (* NB: we never get here with result.dtype.kind in ["m", "M"] *)
      if any mask then
        (* we want to decide whether place will work *)
        '(new_dtype, _) <-
          maybe_promote Timestamp_to_datetime64 Timedelta
            (scalar_new_other env) (Np (arr_dtype result)) nan ;;
        if negb match new_dtype with
                | Np n => np_dtype_beq n (arr_dtype result)
                | Ext _ => false
                end
        then
          d <- as_np new_dtype ;;
          upcast <- astype env result d ;;      (* copy=True *)
          placed <- place_nan upcast mask ;;
          Ok (placed, result)
        else
          placed <- place_nan result mask ;;    (* in place *)
          Ok (placed, placed)
      else Ok (result, result)
  end.

(** [values.astype(dtype, copy=copy)]: a cast to the array's own dtype
    gives the array itself or a copy of it, the same elements either
    way. *)
Definition astype_copy (values : ndarray) (dtype : np_dtype) (copy : bool)
  : outcome ndarray :=
  if np_dtype_beq (arr_dtype values) dtype then Ok values
  else astype env values dtype.

(** [maybe_upcast(values, fill_value, copy)] *)
Definition maybe_upcast (values : ndarray) (fill_value : pyobj) (copy : bool)
  : outcome (ndarray * pyobj) :=
  '(new_dtype, fill_value) <-
    maybe_promote Timestamp_to_datetime64 Timedelta (scalar_new_other env)
      (Np (arr_dtype values)) fill_value ;;
  (* We get a copy in all cases _except_ (values.dtype == new_dtype and
     not copy) *)
  d <- as_np new_dtype ;;
  values <- astype_copy values d copy ;;
  Ok (values, fill_value).

End Upcast.

(** ** Dtype inference from a scalar: [infer_dtype_from_scalar] *)

(** Modelled from the spec: [DatetimeTZDtype] of pandas.core.dtypes.dtypes
    is not under src/; the extension dtype of instants in a time zone, at
    nanosecond resolution. *)
Definition DatetimeTZDtype (tz : string) : ExtensionDtype :=
  {| ext_name := "datetime64[ns, " ++ tz ++ "]";
     ext_type := T_Timestamp;
     ext_kind := KM;
     ext_na_value := PdNaT;
     ext_tz := Some tz |}.

Section Inference.

(** [lib.item_from_zerodim(val)] of an ndarray [val]; [None] when
    [val.ndim != 0]. *)
Variable item_from_zerodim : pyobj -> option pyobj.

(** [Timestamp(val)] of pandas._libs.tslibs: [None] is NaT, else the time
    zone and the nanosecond count [value] of the instant, or the exception
    raised. *)
Variable Timestamp : pyobj -> outcome (option (option string * Z)).

(** [Timedelta(val)] of pandas._libs.tslibs: [None] is NaT, else the
    nanosecond count [value], or the exception raised. *)
Variable Timedelta : pyobj -> outcome (option Z).

(** [PeriodDtype(freq=val.freq)] when [lib.is_period(val)]. *)
Variable period_dtype : pyobj -> option ExtensionDtype.

(** [val.left] when [lib.is_interval(val)]. *)
Variable interval_left : pyobj -> option pyobj.

(** [IntervalDtype(subtype=subtype)] *)
Variable IntervalDtype : DtypeObj -> ExtensionDtype.

(** The body of [infer_dtype_from_scalar(val, pandas_dtype)].  The
    function calls itself on the left end of an interval; the first
    argument stands for this call ([None] when the depth of calls is used
    up). *)
Definition infer_dtype_from_scalar_body
  (infer_dtype_from_scalar :
     pyobj -> bool -> option (outcome (DtypeObj * pyobj)))
  (val : pyobj) (pandas_dtype : bool)
  : option (outcome (DtypeObj * pyobj)) :=
  match val with
  | NdArray dt =>
      match item_from_zerodim val with
      | None =>
          Some (Raise (ValueError
                         "invalid ndarray passed to infer_dtype_from_scalar"))
      | Some item => Some (Ok (Np dt, item))
      end
  | PyStr _ | NpStr _ =>
      (* If we create an empty array using a string to infer the dtype,
         NumPy will only allocate one character per entry so this is kind
         of bad. *)
      Some (Ok (Np Object_, val))
  | NpDatetime64 _ _ | PyDatetime _ _ | PdNaT =>
      match Timestamp val with
      | Raise e => Some (Raise e)
      | Ok None => Some (Ok (Np (Datetime64 U_ns), PyInt iNaT))
      | Ok (Some (None, value)) =>
          Some (Ok (Np (Datetime64 U_ns), PyInt value))
      | Ok (Some (Some tz, value)) =>
          if pandas_dtype then
            Some (Ok (Ext (DatetimeTZDtype tz), PyInt value))
          else
            (* return datetimetz as object *)
            Some (Ok (Np Object_, PyDatetime (Some tz) value))
      end
  | NpTimedelta64 _ _ | PyTimedelta _ =>
      match Timedelta val with
      | Raise e => Some (Raise e)
      | Ok None => Some (Ok (Np (Timedelta64 U_ns), PyInt iNaT))
      | Ok (Some value) => Some (Ok (Np (Timedelta64 U_ns), PyInt value))
      end
  | _ =>
      if is_bool val then Some (Ok (Np Bool_, val))
      else if is_integer val then
        let dtype :=
          match val with
          | NpInt s w _ => int_dtype s w
          | _ => Int W64
          end in
        let dtype :=
          match val with
          | PyInt z =>
              (* np.array(val, dtype=dtype) *)
              match int_new Signed W64 z with
              | Raise (OverflowError _) => np.dtype_of val
              | _ => dtype
              end
          | _ => dtype
          end in
        Some (Ok (Np dtype, val))
      else if is_float val then
        Some (Ok (Np match val with
                     | NpFloat w _ => Float w
                     | _ => Float F64
                     end, val))
      else if is_complex val then Some (Ok (Np (Complex C128), val))
      else if pandas_dtype then
        match period_dtype val with
        | Some dtype => Some (Ok (Ext dtype, val))
        | None =>
            match interval_left val with
            | Some left_ =>
                match infer_dtype_from_scalar left_ true with
                | None => None
                | Some (Raise e) => Some (Raise e)
                | Some (Ok (subtype, _)) =>
                    Some (Ok (Ext (IntervalDtype subtype), val))
                end
            | None => Some (Ok (Np Object_, val))
            end
        end
      else Some (Ok (Np Object_, val))
  end.

(** [fuel] bounds the depth of the calls of the function to itself. *)
Fixpoint infer_dtype_from_scalar_fuel (fuel : nat)
  : pyobj -> bool -> option (outcome (DtypeObj * pyobj)) :=
  match fuel with
  | O => fun _ _ => None
  | S fuel => infer_dtype_from_scalar_body (infer_dtype_from_scalar_fuel fuel)
  end.

(** The ends of an interval are numbers, instants or durations, never
    intervals: one nested call is the most an inference makes. *)
Definition infer_dtype_from_scalar (val : pyobj) (pandas_dtype : bool)
  : option (outcome (DtypeObj * pyobj)) :=
  infer_dtype_from_scalar_fuel 2 val pandas_dtype.

End Inference.

(** The numbers among the scalars: booleans, integers, floats and complex
    numbers, of Python or of NumPy. *)
Definition is_number (v : pyobj) : bool :=
  is_bool v || is_integer v || is_float v || is_complex v.

(** ** Nanosecond resolution: [sanitize_to_nanoseconds] *)

Section Sanitize.

Variable env : Collaborators.

(** [conversion.ensure_datetime64ns(values)] of pandas._libs.tslibs *)
Variable ensure_datetime64ns : ndarray -> outcome ndarray.

(** Modelled from the spec: [conversion.ensure_timedelta64ns] of
    pandas._libs.tslibs is not under src/; it is the cast
    [arr.astype("m8[ns]")]. *)
Definition ensure_timedelta64ns (arr : ndarray) : outcome ndarray :=
  astype env arr (Timedelta64 U_ns).

(** [sanitize_to_nanoseconds(values)] *)
Definition sanitize_to_nanoseconds (values : ndarray) : outcome ndarray :=
  let dtype := arr_dtype values in
  if kind_beq (np.kind_of dtype) KM
     && negb (np_dtype_beq dtype (Datetime64 U_ns))
  then ensure_datetime64ns values
  else if kind_beq (np.kind_of dtype) Km
          && negb (np_dtype_beq dtype (Timedelta64 U_ns))
  then ensure_timedelta64ns values
  else Ok values.

End Sanitize.

(** ** Kinds of dtype *)

(** The dtypes of numbers and objects: neither temporal nor string. *)
Definition is_plain (d : np_dtype) : bool :=
  match np.kind_of d with
  | KM | Km | KU | KS => false
  | _ => true
  end.

(** The boolean and numeric dtypes. *)
Definition is_numeric (d : np_dtype) : bool :=
  match np.kind_of d with
  | Kb | Ki | Ku | Kf | Kc => true
  | _ => false
  end.

(** The integer [z] is a value of the dtype: within the range of an
    integer dtype, or any integer for the object dtype. *)
Definition holds_int (d : np_dtype) (z : Z) : bool :=
  match d with
  | Int w => in_range Signed w z
  | UInt w => in_range Unsigned w z
  | Object_ => true
  | _ => false
  end.

(** ** Promotion a second time *)

(** The pair of a dtype and a fill value is settled when promoting the
    dtype by that fill value, once [_ensure_dtype_type] has seen it, keeps
    the dtype. *)
Definition settled (Timestamp_to_datetime64 : pyobj -> outcome Z)
  (Timedelta : pyobj -> outcome (option Z)) (d : DtypeObj) (v : pyobj)
  : Prop :=
  forall scalar_new_other v',
    _ensure_dtype_type scalar_new_other v d = Ok v' ->
    exists v'',
      maybe_promote Timestamp_to_datetime64 Timedelta scalar_new_other d v'
      = Ok (d, v'').

(** The temporal dtypes. *)
Definition is_temporal (d : np_dtype) : bool :=
  match np.kind_of d with KM | Km => true | _ => false end.

(** The calls of [maybe_promote] that return the scalar class
    [np.float64] in the place of a dtype: an integer dtype with [None] or
    [pd.NA].  What they return is no argument for a second call, which
    reads [dtype.type]. *)
Definition returns_scalar_class (d : np_dtype) (v : pyobj) : bool :=
  is_integer_dtype (Np d)
  && match v with PyNone | PdNA => true | _ => false end.

(** ** The dtype of an aggregation: [maybe_cast_result_dtype] *)

Section ResultDtype.

(** [isinstance(dtype, (BooleanDtype, _IntegerDtype))] of
    pandas.core.arrays, for an extension dtype. *)
Variable is_masked_bool_or_int : ExtensionDtype -> bool.

(** [Int64Dtype()] and [Float64Dtype()] of pandas.core.arrays. *)
Variable Int64Dtype : ExtensionDtype.
Variable Float64Dtype : ExtensionDtype.

(** [how in [...]] *)
Definition how_in (how : string) (names : list string) : bool :=
  existsb (String.eqb how) names.

(** [maybe_cast_result_dtype(dtype, how)] *)
Definition maybe_cast_result_dtype (dtype : DtypeObj) (how : string)
  : DtypeObj :=
  let masked :=
    match dtype with
    | Ext e => is_masked_bool_or_int e
    | Np _ => false
    end in
  if how_in how ["add"; "cumsum"; "sum"; "prod"] then
    if match dtype with Np Bool_ => true | _ => false end
    then Np (Int W64)
    else if masked then Ext Int64Dtype
    else dtype
  else if how_in how ["mean"; "median"; "var"] && masked
  then Ext Float64Dtype
  else dtype.

End ResultDtype.

(** * Properties *)

(** ** Equality of dtypes *)

Lemma np_dtype_beq_eq (a b : np_dtype) : np_dtype_beq a b = true <-> a = b.
Proof.
  split.
  - apply internal_np_dtype_dec_bl.
  - apply internal_np_dtype_dec_lb.
Qed.

Lemma np_dtype_beq_refl (a : np_dtype) : np_dtype_beq a a = true.
Proof. now apply np_dtype_beq_eq. Qed.

(** ** Promotion of an integer dtype by an integer *)

(** C1: the pairwise promotion of the signed 32-bit integer dtype with the
    integer fill value 2^40 does not return the signed 64-bit dtype: the
    smallest type of 2^40 is the unsigned 64-bit one, the join of int32
    and uint64 is float64, and a floating join of integers is replaced by
    object.  The signed 64-bit dtype would hold both the int32 values and
    2^40. *)
Theorem maybe_promote_int32_2pow40 :
  forall Timestamp_to_datetime64 Timedelta scalar_new_other,
    maybe_promote Timestamp_to_datetime64 Timedelta scalar_new_other
      (Np (Int W32)) (PyInt (2 ^ 40))
    = Ok (Np Object_, PyInt (2 ^ 40))
    /\ np.min_scalar_type (PyInt (2 ^ 40)) = UInt W64
    /\ np.promote_types (Int W32) (UInt W64) = Float F64
    /\ np.can_cast (Int W32) (Int W64) = true
    /\ np.can_cast_scalar (PyInt (2 ^ 40)) (Int W64) = true.
Proof.
  intros. repeat split; vm_compute; reflexivity.
Qed.

(** ** The n-ary join *)

Section PermutationFacts.

Context {A : Type}.

Lemma existsb_Permutation (f : A -> bool) (l l' : list A) :
  Permutation l l' -> existsb f l = existsb f l'.
Proof.
  induction 1 as [|x l l' P IH|x y l|l l' l'' P1 IH1 P2 IH2]; simpl.
  - reflexivity.
  - now rewrite IH.
  - now destruct (f x), (f y).
  - congruence.
Qed.

Lemma forallb_Permutation (f : A -> bool) (l l' : list A) :
  Permutation l l' -> forallb f l = forallb f l'.
Proof.
  induction 1 as [|x l l' P IH|x y l|l l' l'' P1 IH1 P2 IH2]; simpl.
  - reflexivity.
  - now rewrite IH.
  - now destruct (f x), (f y).
  - congruence.
Qed.

Lemma filter_length_Permutation (f : A -> bool) (l l' : list A) :
  Permutation l l' ->
  List.length (filter f l) = List.length (filter f l').
Proof.
  induction 1 as [|x l l' P IH|x y l|l l' l'' P1 IH1 P2 IH2]; simpl.
  - reflexivity.
  - destruct (f x); simpl; congruence.
  - destruct (f x), (f y); reflexivity.
  - congruence.
Qed.

Lemma find_ext (f g : A -> bool) (l : list A) :
  (forall x, f x = g x) -> find f l = find g l.
Proof.
  intros E. induction l as [|x l IH]; simpl; [reflexivity|].
  now rewrite E, IH.
Qed.

End PermutationFacts.

(** NumPy's search for a common type looks at the list as a set. *)
Lemma _can_coerce_all_Permutation (l l' : list np_dtype) :
  Permutation l l' -> np._can_coerce_all l = np._can_coerce_all l'.
Proof.
  intros P. unfold np._can_coerce_all.
  pose proof (Permutation_length P) as L.
  destruct l as [|a [|b l]].
  - apply Permutation_nil in P. now subst.
  - apply Permutation_length_1_inv in P. now subst.
  - destruct l' as [|a' [|b' l']]; try discriminate L.
    apply find_ext. intros k. simpl in L.
    rewrite (filter_length_Permutation _ _ _ P). simpl. now rewrite L.
Qed.

Lemma is_dtype_equal_Np (x : np_dtype) (t : DtypeObj) :
  is_dtype_equal (Np x) t = true <-> Np x = t.
Proof.
  destruct t as [y|e]; simpl.
  - rewrite np_dtype_beq_eq. split; congruence.
  - split; discriminate.
Qed.

Lemma all_numpy_cons t l : all_numpy (t :: l) -> all_numpy l.
Proof. intros H x Hx. apply H. now right. Qed.

Lemma seen_spec (t : DtypeObj) (seen : list DtypeObj) :
  isinstance_ExtensionDtype t = false ->
  existsb (is_dtype_equal t) seen = true <-> In t seen.
Proof.
  intros Ht. destruct t as [x|e]; [|discriminate].
  rewrite existsb_exists. split.
  - intros [y [Hy E]]. apply is_dtype_equal_Np in E. now subst.
  - intros H. exists (Np x). split; [assumption|]. now apply is_dtype_equal_Np.
Qed.

Lemma numpy_eq_dec (x t : DtypeObj) :
  isinstance_ExtensionDtype x = false -> {x = t} + {x <> t}.
Proof.
  intros Hx. destruct x as [n|e]; [|discriminate].
  destruct (is_dtype_equal (Np n) t) eqn:Q.
  - left. now apply is_dtype_equal_Np.
  - right. intros E. apply is_dtype_equal_Np in E. congruence.
Qed.

(** [dict.fromkeys] keeps exactly the elements not seen before ... *)
Lemma fromkeys_from_In (l seen : list DtypeObj) (t : DtypeObj) :
  all_numpy l ->
  In t (fromkeys_from seen l) <-> In t l /\ ~ In t seen.
Proof.
  revert seen. induction l as [|x l IH]; intros seen Hl; simpl.
  - tauto.
  - assert (Hx : isinstance_ExtensionDtype x = false) by (apply Hl; now left).
    pose proof (seen_spec x seen Hx) as S.
    destruct (existsb (is_dtype_equal x) seen) eqn:E.
    + rewrite IH by (eapply all_numpy_cons; eassumption).
      assert (In x seen) by now apply S.
      split; [tauto|]. intros [[->|H1] H2]; tauto.
    + assert (~ In x seen) by (intros H; apply S in H; discriminate).
      simpl. rewrite IH by (eapply all_numpy_cons; eassumption). simpl.
      split.
      * intros [->|[H1 H2]]; tauto.
      * intros [[->|H1] H2]; [now left|].
        destruct (numpy_eq_dec x t Hx) as [->|N]; [now left|].
        right. split; [assumption|]. intros [?|?]; tauto.
Qed.

(** ... each of them once. *)
Lemma fromkeys_from_NoDup (l seen : list DtypeObj) :
  all_numpy l -> NoDup (fromkeys_from seen l).
Proof.
  revert seen. induction l as [|x l IH]; intros seen Hl; simpl.
  - constructor.
  - destruct (existsb (is_dtype_equal x) seen) eqn:E.
    + apply IH. eapply all_numpy_cons; eassumption.
    + constructor.
      * rewrite fromkeys_from_In by (eapply all_numpy_cons; eassumption).
        intros [_ H]. apply H. now left.
      * apply IH. eapply all_numpy_cons; eassumption.
Qed.

Lemma all_numpy_Permutation (l l' : list DtypeObj) :
  Permutation l l' -> all_numpy l -> all_numpy l'.
Proof.
  intros P H t Ht. apply H. eapply Permutation_in; [|eassumption].
  now apply Permutation_sym.
Qed.

Lemma dict_fromkeys_Permutation (l l' : list DtypeObj) :
  all_numpy l -> Permutation l l' ->
  Permutation (dict_fromkeys l) (dict_fromkeys l').
Proof.
  intros H P. pose proof (all_numpy_Permutation _ _ P H) as H'.
  unfold dict_fromkeys. apply NoDup_Permutation.
  - now apply fromkeys_from_NoDup.
  - now apply fromkeys_from_NoDup.
  - intros t. rewrite !fromkeys_from_In by assumption. simpl. split.
    + intros [Ht _]. split; [|tauto]. eapply Permutation_in; eassumption.
    + intros [Ht _]. split; [|tauto].
      eapply Permutation_in; [apply Permutation_sym|]; eassumption.
Qed.

Lemma as_np_list_Permutation (l l' : list DtypeObj) :
  Permutation l l' -> Permutation (as_np_list l) (as_np_list l').
Proof.
  unfold as_np_list. induction 1; simpl.
  - constructor.
  - now apply Permutation_app_head.
  - rewrite !app_assoc. apply Permutation_app_tail, Permutation_app_comm.
  - eapply Permutation_trans; eassumption.
Qed.

(** The early exit of [find_common_type]: every element equals the first. *)
Lemma all_equal_first (first : DtypeObj) (rest : list DtypeObj) :
  all_numpy (first :: rest) ->
  forallb (is_dtype_equal first) rest = true <->
  (forall t, In t (first :: rest) -> t = first).
Proof.
  intros H.
  assert (Hf : isinstance_ExtensionDtype first = false) by (apply H; now left).
  destruct first as [n|e]; [|discriminate].
  rewrite forallb_forall. split.
  - intros F t [<-|Ht]; [reflexivity|].
    symmetry. apply is_dtype_equal_Np. now apply F.
  - intros F t Ht. apply is_dtype_equal_Np. symmetry. apply F. now right.
Qed.

Section JoinFacts.

Variable _get_common_dtype :
  ExtensionDtype -> list DtypeObj -> option DtypeObj.

Lemma find_common_type_repeat (A : DtypeObj) (n : nat) :
  find_common_type _get_common_dtype (repeat A (S n)) = Ok (Some A).
Proof.
  simpl.
  assert (R : is_dtype_equal A A = true).
  { destruct A as [x|e]; simpl.
    - apply np_dtype_beq_refl.
    - apply String.eqb_refl. }
  assert (F : forallb (is_dtype_equal A) (repeat A n) = true).
  { apply forallb_forall. intros t Ht. apply repeat_spec in Ht. now subst. }
  now rewrite F.
Qed.

Lemma find_common_type_Permutation (l l' : list DtypeObj) :
  all_numpy l -> Permutation l l' ->
  find_common_type _get_common_dtype l
  = find_common_type _get_common_dtype l'.
Proof.
  intros H P. pose proof (all_numpy_Permutation _ _ P H) as H'.
  destruct l as [|first rest].
  { apply Permutation_nil in P. now subst. }
  destruct l' as [|first' rest'].
  { apply Permutation_sym, Permutation_nil in P. discriminate. }
  unfold find_common_type.
  pose proof (all_equal_first first rest H) as E.
  pose proof (all_equal_first first' rest' H') as E'.
  destruct (forallb (is_dtype_equal first) rest) eqn:F;
    destruct (forallb (is_dtype_equal first') rest') eqn:F'.
  - assert (first' = first).
    { apply E; [reflexivity|]. eapply Permutation_in;
        [apply Permutation_sym; eassumption|now left]. }
    now subst.
  - exfalso. assert (T : false = true); [|discriminate T].
    apply E'. intros t Ht.
    assert (Q : forall x, In x (first :: rest) -> x = first)
      by (now apply E).
    rewrite (Q t), (Q first'); try reflexivity;
      (eapply Permutation_in; [apply Permutation_sym; eassumption|]);
      [now left | assumption].
  - exfalso. assert (T : false = true); [|discriminate T].
    apply E. intros t Ht.
    assert (Q : forall x, In x (first' :: rest') -> x = first')
      by (now apply E').
    rewrite (Q t), (Q first); try reflexivity;
      (eapply Permutation_in; [eassumption|]); [now left | assumption].
  - pose proof (dict_fromkeys_Permutation _ _ H P) as D.
    rewrite (existsb_Permutation isinstance_ExtensionDtype _ _ D).
    rewrite (forallb_Permutation is_datetime64_dtype _ _ D).
    rewrite (forallb_Permutation is_timedelta64_dtype _ _ D).
    rewrite (existsb_Permutation is_bool_dtype _ _ D).
    rewrite (existsb_Permutation
               (fun t => is_integer_dtype t || is_float_dtype t
                         || is_complex_dtype t) _ _ D).
    unfold np.find_common_type.
    rewrite (_can_coerce_all_Permutation _ _
               (as_np_list_Permutation _ _ D)).
    destruct (existsb isinstance_ExtensionDtype
                (dict_fromkeys (first' :: rest'))) eqn:X; [|reflexivity].
    exfalso. apply existsb_exists in X. destruct X as [t [Ht Xt]].
    unfold dict_fromkeys in Ht. apply fromkeys_from_In in Ht; [|assumption].
    destruct Ht as [Ht _]. rewrite (H' t Ht) in Xt. discriminate.
Qed.

End JoinFacts.

Lemma _can_coerce_all_Some (l : list np_dtype) :
  l <> [] -> exists d, np._can_coerce_all l = Some d.
Proof.
  intros N. unfold np._can_coerce_all.
  destruct l as [|a [|b l]]; [congruence|eauto|].
  match goal with |- exists d, find ?f ?ts = Some d =>
    destruct (find f ts) as [d|] eqn:E; [eauto|];
    pose proof (find_none f ts E Object_) as Q
  end.
  exfalso.
  assert (T : forall m : list np_dtype,
             filter (fun x => np.can_cast x Object_) m = m).
  { induction m as [|x m IH]; simpl; [reflexivity|].
    replace (np.can_cast x Object_) with true by (now destruct x).
    now rewrite IH. }
  cbv beta zeta in Q. rewrite T, Nat.eqb_refl in Q.
  assert (true = false); [|discriminate]. apply Q.
  unfold np.__test_types. simpl. tauto.
Qed.

(** C4 (amended): the join of a list whose elements all equal [A] is [A]
    (for every dtype, extension dtypes included); and for every non-empty
    list of NumPy dtypes (no extension dtype) the join is a dtype that is
    the same for every permutation of the list.  With extension dtypes
    the join is the first answer of their capabilities, asked in the
    order of first occurrence, and may depend on the order. *)
Theorem find_common_type_join :
  forall _get_common_dtype,
    (forall A n,
        find_common_type _get_common_dtype (repeat A (S n)) = Ok (Some A))
    /\ (forall l l',
           l <> [] -> all_numpy l -> Permutation l l' ->
           find_common_type _get_common_dtype l
           = find_common_type _get_common_dtype l'
           /\ exists d, find_common_type _get_common_dtype l = Ok (Some d)).
Proof.
  intros g. split.
  - apply find_common_type_repeat.
  - intros l l' N H P. split.
    + now apply find_common_type_Permutation.
    + destruct l as [|first rest]; [congruence|].
      unfold find_common_type.
      destruct (forallb (is_dtype_equal first) rest); [eauto|].
      destruct (existsb isinstance_ExtensionDtype _); [eauto|].
      destruct (forallb is_datetime64_dtype _); [eauto|].
      destruct (forallb is_timedelta64_dtype _); [eauto|].
      destruct (_ && _); [eauto|].
      destruct (_can_coerce_all_Some
                  (as_np_list (dict_fromkeys (first :: rest)))) as [d E].
      * assert (I : isinstance_ExtensionDtype first = false)
          by (apply H; now left).
        destruct first as [n|e]; [|discriminate]. discriminate.
      * unfold np.find_common_type. rewrite E. simpl. eauto.
Qed.

Lemma find_common_type_join_witness :
  find_common_type sparse_common_dtype [Np Bool_; Np (Int W64)]
  = find_common_type sparse_common_dtype [Np (Int W64); Np Bool_]
  /\ exists d,
      find_common_type sparse_common_dtype [Np Bool_; Np (Int W64)]
      = Ok (Some d).
Proof.
  apply (proj2 (find_common_type_join sparse_common_dtype)).
  - discriminate.
  - intros t [<-|[<-|[]]]; reflexivity.
  - apply perm_swap.
Defined.

(** C4 (as stated) fails: two sparse dtypes that differ in their fill
    value join to the first of them, in either order. *)
Lemma find_common_type_order_dependent :
  Permutation [Ext (sparse_int64 "0"); Ext (sparse_int64 "1")]
              [Ext (sparse_int64 "1"); Ext (sparse_int64 "0")]
  /\ find_common_type sparse_common_dtype
       [Ext (sparse_int64 "0"); Ext (sparse_int64 "1")]
     = Ok (Some (Ext (sparse_int64 "0")))
  /\ find_common_type sparse_common_dtype
       [Ext (sparse_int64 "1"); Ext (sparse_int64 "0")]
     = Ok (Some (Ext (sparse_int64 "1")))
  /\ Ext (sparse_int64 "0") <> Ext (sparse_int64 "1").
Proof.
  repeat split; try reflexivity.
  - apply perm_swap.
  - discriminate.
Qed.

(** ** Rounding never produces NaN *)

Section RoundFacts.

Variables prec emax : Z.

Lemma shr_1_nonneg (mrs : shr_record) :
  0 <= shr_m mrs -> 0 <= shr_m (shr_1 mrs).
Proof.
  destruct mrs as [m r s]. simpl.
  destruct m as [|[p|p|]|[p|p|]]; simpl; lia.
Qed.

Lemma iter_pos_invariant {A} (P : A -> Prop) (f : A -> A) :
  (forall x, P x -> P (f x)) ->
  forall p x, P x -> P (iter_pos f p x).
Proof.
  intros H. induction p as [p IH|p IH|]; intros x Hx; simpl; auto.
Qed.

Lemma shr_fexp_nonneg (m e : Z) (l : location) :
  0 <= m -> 0 <= shr_m (fst (shr_fexp prec emax m e l)).
Proof.
  intros Hm. unfold shr_fexp, shr.
  assert (H0 : 0 <= shr_m (shr_record_of_loc m l))
    by (destruct l as [|[| |]]; simpl; assumption).
  destruct (fexp prec emax (Zdigits2 m + e) - e); simpl; try assumption.
  apply (iter_pos_invariant (fun r => 0 <= shr_m r)); [|assumption].
  apply shr_1_nonneg.
Qed.

Lemma round_nearest_even_nonneg (m : Z) (l : location) :
  0 <= m -> 0 <= round_nearest_even m l.
Proof.
  intros Hm. destruct l as [|[| |]]; simpl; try lia.
  destruct (Z.even m); lia.
Qed.

Lemma binary_round_aux_not_nan (s : bool) (m e : Z) (l : location) :
  0 <= m -> binary_round_aux prec emax s m e l <> S754_nan.
Proof.
  intros Hm. unfold binary_round_aux.
  pose proof (shr_fexp_nonneg m e l Hm) as H1.
  destruct (shr_fexp prec emax m e l) as [mrs' e']. simpl in H1.
  pose proof (shr_fexp_nonneg
                (round_nearest_even (shr_m mrs') (loc_of_shr_record mrs'))
                e' loc_Exact (round_nearest_even_nonneg _ _ H1)) as H2.
  destruct (shr_fexp prec emax _ e' loc_Exact) as [mrs'' e'']. simpl in H2.
  destruct (shr_m mrs'') as [|p|p]; try discriminate; [|lia].
  destruct (e'' <=? emax - prec); discriminate.
Qed.

Lemma binary_normalize_not_nan (m e : Z) (szero : bool) :
  binary_normalize prec emax m e szero <> S754_nan.
Proof.
  unfold binary_normalize, binary_round.
  destruct m as [|p|p]; try discriminate;
    destruct (shl_align _ _ _) as [mz ez];
    apply binary_round_aux_not_nan; lia.
Qed.

End RoundFacts.

Lemma float_of_Z_not_nan (w : float_width) (z : Z) :
  is_nan (float_of_Z w z) = false.
Proof.
  unfold float_of_Z.
  pose proof (binary_normalize_not_nan (prec_of w) (emax_of w) z 0 false) as H.
  destruct (binary_normalize _ _ z 0 false); try reflexivity. congruence.
Qed.

(** ** Nan-safe casts of temporal arrays *)

Lemma any_isna_iNaT (l : list Z) :
  any (map (fun z => z =? iNaT) l) = true <-> In iNaT l.
Proof.
  unfold any. rewrite existsb_exists. split.
  - intros [b [Hb ->]]. apply in_map_iff in Hb.
    destruct Hb as [z [Hz Hin]]. apply Z.eqb_eq in Hz. now subst.
  - intros H. exists true. split; [|reflexivity].
    apply in_map_iff. exists iNaT. split; [apply Z.eqb_refl|assumption].
Qed.

Lemma ndim_ravel_K (a : ndarray) : (1 <? ndim (ravel_K a))%nat = false.
Proof. reflexivity. Qed.

Lemma atleast_1d_array1d (b : buffer) : atleast_1d (array1d b) = array1d b.
Proof. reflexivity. Qed.

Lemma atleast_1d_data (a : ndarray) : data (atleast_1d a) = data a.
Proof. unfold atleast_1d. now destruct (shape a). Qed.

Lemma atleast_1d_dtype (a : ndarray) : arr_dtype (atleast_1d a) = arr_dtype a.
Proof. unfold arr_dtype. now rewrite atleast_1d_data. Qed.

(** An array of more than one dimension is cast flat and reshaped. *)
Lemma astype_nansafe_fuel_nd env fuel (arr : ndarray) dtype copy skipna :
  (1 <? ndim arr)%nat = true ->
  astype_nansafe_fuel env (S fuel) arr dtype copy skipna
  = match astype_nansafe_fuel env fuel (ravel_K arr) dtype copy skipna with
    | None => None
    | Some (ws, Raise e) => Some (ws, Raise e)
    | Some (ws, Ok (inl result)) =>
        Some (ws, Ok (inl (reshape result (shape arr) (fortran arr))))
    | Some (ws, Ok (inr result)) =>
        Some (ws, ext_reshape env result (shape arr) (fortran arr))
    end.
Proof.
  intros D. cbn [astype_nansafe_fuel]. unfold astype_nansafe_body.
  rewrite D. reflexivity.
Qed.

(** The cast of a datetime64 array of at most one dimension to int64. *)
Lemma astype_nansafe_dt64_int64_1d env fuel (a : ndarray) u l copy skipna :
  (1 <? ndim a)%nat = false ->
  data a = BufDatetime64 u l ->
  astype_nansafe_fuel env (S fuel) a (Np (Int W64)) copy skipna
  = Some ([int64_cast_deprecated (Datetime64 u)],
          if any (map (fun z => z =? iNaT) l) then Raise nat_to_integer
          else Ok (inl (with_data (atleast_1d a) (BufInt Signed W64 l)))).
Proof.
  intros D Hd. cbn [astype_nansafe_fuel]. unfold astype_nansafe_body. rewrite D.
  assert (Hd' : data (atleast_1d a) = BufDatetime64 u l)
    by (now rewrite atleast_1d_data).
  unfold arr_dtype, isna_array, view_int64. rewrite Hd'. reflexivity.
Qed.

(** C5: casting a datetime64 array to int64 always emits the deprecation
    warning; it raises the "Cannot convert NaT values to integer" error if
    and only if the array holds a NaT, and otherwise returns an array of
    the same shape whose elements are the backing counts, unchanged, as
    int64. *)
Theorem astype_nansafe_datetime64_to_int64 :
  forall env shp fo u l copy skipna,
    let arr := {| shape := shp; fortran := fo; data := BufDatetime64 u l |} in
    exists r,
      astype_nansafe env arr (Np (Int W64)) copy skipna
      = Some ([int64_cast_deprecated (Datetime64 u)], r)
      /\ (r = Raise nat_to_integer <-> In iNaT l)
      /\ (~ In iNaT l ->
          exists res,
            r = Ok (inl res)
            /\ data res = BufInt Signed W64 l
            /\ shape res = shape (atleast_1d arr)).
Proof.
  intros env shp fo u l copy skipna arr.
  unfold astype_nansafe.
  pose proof (any_isna_iNaT l) as N.
  assert (R : forall a : ndarray,
             exists r : outcome (ArrayLike env),
               (if any (map (fun z => z =? iNaT) l) then Raise nat_to_integer
                else Ok (inl a)) = r
               /\ (r = Raise nat_to_integer <-> In iNaT l)
               /\ (~ In iNaT l -> r = Ok (inl a))).
  { intros a. eexists. split; [reflexivity|].
    destruct (any (map (fun z => z =? iNaT) l)) eqn:E.
    - split; [split; [intros _; now apply N | reflexivity]|].
      intros H. exfalso. apply H. now apply N.
    - split; [|reflexivity].
      split; [discriminate|]. intros H. apply N in H. discriminate. }
  destruct (1 <? ndim arr)%nat eqn:D.
  - (* more than one dimension: flatten, cast, reshape *)
    rewrite astype_nansafe_fuel_nd by assumption.
    rewrite (astype_nansafe_dt64_int64_1d env 1 (ravel_K arr) u l)
      by reflexivity.
    destruct (any (map (fun z => z =? iNaT) l)) eqn:E.
    + eexists. split; [reflexivity|]. split.
      * split; [intros _; now apply N | reflexivity].
      * intros H. exfalso. apply H. now apply N.
    + eexists. split; [reflexivity|]. split.
      * split; [discriminate|]. intros H. apply N in H. discriminate.
      * intros _. eexists. split; [reflexivity|]. split; [reflexivity|].
        unfold atleast_1d. subst arr. simpl.
        destruct shp; [discriminate D|reflexivity].
  - rewrite (astype_nansafe_dt64_int64_1d env 2 arr u l) by auto.
    destruct (R (with_data (atleast_1d arr) (BufInt Signed W64 l)))
      as [r [<- [R1 R2]]].
    eexists. split; [reflexivity|]. split; [assumption|].
    intros H. eexists. split; [now apply R2|]. split; reflexivity.
Qed.

(** ** [astype_nansafe] always comes to an end *)

Ltac run_branches :=
  repeat match goal with
    | |- exists r, Some _ = Some r => eexists; reflexivity
    | H : forall b, _ -> exists r, ?f (array1d b) _ _ _ = Some r
      |- exists r, ?f (array1d ?b) _ _ _ = Some r => apply (H b); exact I
    | |- context [if ?c then _ else _] => destruct c
    | |- context [match np.kind_of ?d with _ => _ end] =>
        destruct (np.kind_of d)
    | |- context [match to_datetime ?e ?a with _ => _ end] =>
        destruct (to_datetime e a)
    | |- context [match to_timedelta ?e ?a with _ => _ end] =>
        destruct (to_timedelta e a)
    end.

(** A temporal array of at most one dimension is cast without a further
    call. *)
Lemma astype_nansafe_body_temporal env recur (a : ndarray) dtype copy skipna :
  (1 <? ndim a)%nat = false ->
  match np.kind_of (arr_dtype a) with KM | Km => True | _ => False end ->
  exists r, astype_nansafe_body env recur a dtype copy skipna = Some r.
Proof.
  intros D K. unfold astype_nansafe_body. rewrite D.
  destruct dtype as [d|e]; [|eexists; reflexivity].
  cbv zeta. rewrite atleast_1d_dtype.
  destruct (arr_dtype a); try contradiction;
    cbn [np.kind_of np.type_of np.issubclass_datetime64
           np.issubclass_timedelta64 andb];
    run_branches.
Qed.

(** An array of at most one dimension is cast with at most one further
    call, on a temporal array. *)
Lemma astype_nansafe_body_1d env recur (a : ndarray) dtype copy skipna :
  (1 <? ndim a)%nat = false ->
  exists r,
    astype_nansafe_body env (astype_nansafe_body env recur) a dtype copy skipna
    = Some r.
Proof.
  intros D.
  assert (T : forall b,
             match b with
             | BufDatetime64 _ _ | BufTimedelta64 _ _ => True
             | _ => False
             end ->
             exists r,
               astype_nansafe_body env recur (array1d b) dtype copy false
               = Some r).
  { intros b Hb. apply astype_nansafe_body_temporal; [reflexivity|].
    destruct b; try contradiction; exact I. }
  unfold astype_nansafe_body at 1. rewrite D.
  destruct dtype as [d|e]; [|eexists; reflexivity].
  cbv zeta. run_branches.
Qed.

(** The fuel of [astype_nansafe] is enough for every cast: the call
    returns or raises. *)
Lemma astype_nansafe_total env (arr : ndarray) dtype copy skipna :
  exists r, astype_nansafe env arr dtype copy skipna = Some r.
Proof.
  unfold astype_nansafe. cbn [astype_nansafe_fuel].
  destruct (1 <? ndim arr)%nat eqn:D.
  - unfold astype_nansafe_body at 1. rewrite D. cbv zeta.
    destruct (astype_nansafe_body_1d env (fun _ _ _ _ => None) (ravel_K arr)
                dtype copy skipna eq_refl) as [[ws [[r|r]|e]] ->];
      eexists; reflexivity.
  - now apply astype_nansafe_body_1d.
Qed.

(** ** Casts to a temporal dtype without a unit *)

(** A cast that raises on the flat array raises on every shape. *)
Lemma astype_nansafe_raise_any_shape env (arr : ndarray) dtype copy skipna
  ws e :
  (forall fuel a,
      (1 <? ndim a)%nat = false -> data a = data arr ->
      astype_nansafe_fuel env (S fuel) a dtype copy skipna
      = Some (ws, Raise e)) ->
  astype_nansafe env arr dtype copy skipna = Some (ws, Raise e).
Proof.
  intros H. unfold astype_nansafe.
  destruct (1 <? ndim arr)%nat eqn:D.
  - rewrite astype_nansafe_fuel_nd by assumption.
    now rewrite (H 1%nat (ravel_K arr)).
  - now apply H.
Qed.

Lemma isfinite_all_atleast_1d (a : ndarray) :
  isfinite_all (atleast_1d a) = isfinite_all a.
Proof. unfold isfinite_all. now rewrite atleast_1d_data. Qed.

Lemma isfinite_all_data (a b : ndarray) :
  data a = data b -> isfinite_all a = isfinite_all b.
Proof. unfold isfinite_all. now intros ->. Qed.

Lemma has_no_unit_inv (d : np_dtype) :
  has_no_unit d = true ->
  d = Datetime64 U_generic \/ d = Timedelta64 U_generic.
Proof. destruct d as [| | | | | |[]|[]| |]; simpl; auto; discriminate. Qed.

(** A cast that hands the flat array to a conversion does so on every
    shape. *)
Lemma astype_nansafe_handed env (arr : ndarray) dtype copy skipna f :
  (forall fuel a,
      (1 <? ndim a)%nat = false -> data a = data arr ->
      astype_nansafe_fuel env (S (S fuel)) a dtype copy skipna
      = Some (quiet (r <- f (atleast_1d a) ;; Ok (inl r)))) ->
  astype_nansafe env arr dtype copy skipna = Some (handed_to env arr f).
Proof.
  intros H. unfold astype_nansafe, handed_to, flattened, unflattened.
  destruct (1 <? ndim arr)%nat eqn:D.
  - rewrite astype_nansafe_fuel_nd by assumption.
    rewrite (H 0%nat (ravel_K arr)) by reflexivity.
    unfold ravel_K. rewrite atleast_1d_array1d.
    destruct (f (array1d (data arr))); reflexivity.
  - now rewrite (H 1%nat arr).
Qed.

(** C8 (amended): for a target that is a bare temporal family,
    [astype_nansafe] raises the missing-unit error when the source dtype
    is boolean, integer, floating, complex or string -- for a floating
    source cast to bare timedelta64 only if every value is finite, since
    the non-finite check comes first.  A temporal source is dispatched
    before the unit check: across the two families the cast raises the
    incompatible-cast TypeError; within a family a datetime64 array is
    handed to NumPy's frequency conversion and a timedelta64 array to the
    unit conversion.  An object array is dispatched before the unit check
    too: cast to bare timedelta64 it is handed to the integer-safe cast,
    and cast to bare datetime64 it is re-inferred by [to_datetime] and the
    nanosecond array that gives is handed to the frequency conversion. *)
Theorem astype_nansafe_missing_unit :
  forall env arr dtype copy skipna,
    has_no_unit dtype = true ->
    let src := arr_dtype arr in
    (match np.kind_of src with KM | Km | KO => False | _ => True end ->
     (np.kind_of src = Kf -> dtype = Timedelta64 U_generic ->
      isfinite_all arr = true) ->
     astype_nansafe env arr (Np dtype) copy skipna
     = Some ([], Raise (missing_unit dtype)))
    /\ (np.kind_of src = Kf -> dtype = Timedelta64 U_generic ->
        isfinite_all arr = false ->
        astype_nansafe env arr (Np dtype) copy skipna
        = Some ([], Raise non_finite_to_integer))
    /\ (np.kind_of src = KM -> dtype = Timedelta64 U_generic ->
        astype_nansafe env arr (Np dtype) copy skipna
        = Some ([], Raise (cannot_astype "datetimelike" src dtype)))
    /\ (np.kind_of src = Km -> dtype = Datetime64 U_generic ->
        astype_nansafe env arr (Np dtype) copy skipna
        = Some ([], Raise (cannot_astype "timedelta" src dtype)))
    /\ (np.kind_of src = KM -> dtype = Datetime64 U_generic ->
        astype_nansafe env arr (Np dtype) copy skipna
        = Some (handed_to env arr (fun a => astype env a dtype)))
    /\ (np.kind_of src = Km -> dtype = Timedelta64 U_generic ->
        astype_nansafe env arr (Np dtype) copy skipna
        = Some (handed_to env arr
                  (fun a => astype_td64_unit_conversion env a dtype copy)))
    /\ (np.kind_of src = KO -> dtype = Timedelta64 U_generic ->
        astype_nansafe env arr (Np dtype) copy skipna
        = Some (handed_to env arr (fun a => astype_intsafe env a dtype)))
    /\ (np.kind_of src = KO -> dtype = Datetime64 U_generic ->
        astype_nansafe env arr (Np dtype) copy skipna
        = Some (handed_to env arr
                  (fun a =>
                     ns <- to_datetime env a ;;
                     astype env (array1d (BufDatetime64 U_ns ns)) dtype))).
Proof.
  intros env arr dtype copy skipna U src.
  repeat split.
  - intros K F. apply astype_nansafe_raise_any_shape. intros fuel a D Hd.
    cbn [astype_nansafe_fuel]. unfold astype_nansafe_body.
    rewrite D, atleast_1d_dtype.
    rewrite isfinite_all_atleast_1d, (isfinite_all_data a arr Hd).
    unfold arr_dtype in *. subst src. rewrite Hd.
    destruct (has_no_unit_inv dtype U) as [-> | ->];
      destruct (data arr) as [?|[] ? ?|? ?|? ?|? ?|? ?|?|?]; simpl in K;
        try contradiction; try reflexivity.
    simpl in F. simpl. now rewrite F.
  - intros K -> F. apply astype_nansafe_raise_any_shape. intros fuel a D Hd.
    cbn [astype_nansafe_fuel]. unfold astype_nansafe_body.
    rewrite D, atleast_1d_dtype.
    rewrite isfinite_all_atleast_1d, (isfinite_all_data a arr Hd).
    unfold arr_dtype in *. subst src. rewrite Hd.
    destruct (data arr) as [?|[] ? ?|? ?|? ?|? ?|? ?|?|?];
      try discriminate K. simpl. now rewrite F.
  - intros K ->. apply astype_nansafe_raise_any_shape. intros fuel a D Hd.
    cbn [astype_nansafe_fuel]. unfold astype_nansafe_body.
    rewrite D, atleast_1d_dtype.
    unfold arr_dtype in *. subst src. rewrite Hd.
    destruct (data arr) as [?|[] ? ?|? ?|? ?|? ?|? ?|?|?];
      try discriminate K. reflexivity.
  - intros K ->. apply astype_nansafe_raise_any_shape. intros fuel a D Hd.
    cbn [astype_nansafe_fuel]. unfold astype_nansafe_body.
    rewrite D, atleast_1d_dtype.
    unfold arr_dtype in *. subst src. rewrite Hd.
    destruct (data arr) as [?|[] ? ?|? ?|? ?|? ?|? ?|?|?];
      try discriminate K. reflexivity.
  - intros K ->. apply astype_nansafe_handed. intros fuel a D Hd.
    cbn [astype_nansafe_fuel]. unfold astype_nansafe_body at 1.
    rewrite D, atleast_1d_dtype.
    unfold arr_dtype in *. subst src. rewrite Hd.
    destruct (data arr) as [?|[] ? ?|? ?|? ?|? ?|? ?|?|?];
      try discriminate K. reflexivity.
  - intros K ->. apply astype_nansafe_handed. intros fuel a D Hd.
    cbn [astype_nansafe_fuel]. unfold astype_nansafe_body at 1.
    rewrite D, atleast_1d_dtype.
    unfold arr_dtype in *. subst src. rewrite Hd.
    destruct (data arr) as [?|[] ? ?|? ?|? ?|? ?|? ?|?|?];
      try discriminate K. reflexivity.
  - intros K ->. apply astype_nansafe_handed. intros fuel a D Hd.
    cbn [astype_nansafe_fuel]. unfold astype_nansafe_body at 1.
    rewrite D, atleast_1d_dtype.
    unfold arr_dtype in *. subst src. rewrite Hd.
    destruct (data arr) as [?|[] ? ?|? ?|? ?|? ?|? ?|?|?];
      try discriminate K. reflexivity.
  - intros K ->. apply astype_nansafe_handed. intros fuel a D Hd.
    cbn [astype_nansafe_fuel]. unfold astype_nansafe_body at 1.
    rewrite D, atleast_1d_dtype.
    unfold arr_dtype in *. subst src. rewrite Hd.
    destruct (data arr) as [?|[] ? ?|? ?|? ?|? ?|? ?|?|?];
      try discriminate K.
    cbn -[atleast_1d astype_nansafe_body].
    destruct (to_datetime env (atleast_1d a)) as [ns|e]; reflexivity.
Qed.

Lemma astype_nansafe_missing_unit_witness :
  astype_nansafe numpy_alone (array1d (BufInt Signed W64 [1]))
    (Np (Datetime64 U_generic)) true false
  = Some ([], Raise (missing_unit (Datetime64 U_generic))).
Proof.
  apply (proj1 (astype_nansafe_missing_unit numpy_alone
                  (array1d (BufInt Signed W64 [1])) (Datetime64 U_generic)
                  true false eq_refl)).
  - simpl. exact I.
  - simpl. discriminate.
Defined.

(** C8 (as stated) fails: the cast of a datetime64[ns] array to bare
    timedelta64 raises the incompatible-cast TypeError, not the
    missing-unit error. *)
Lemma astype_nansafe_bare_target_other_error :
  astype_nansafe numpy_alone (array1d (BufDatetime64 U_ns [0]))
    (Np (Timedelta64 U_generic)) true false
  = Some ([], Raise (cannot_astype "datetimelike" (Datetime64 U_ns)
                       (Timedelta64 U_generic)))
  /\ cannot_astype "datetimelike" (Datetime64 U_ns) (Timedelta64 U_generic)
     <> missing_unit (Timedelta64 U_generic).
Proof.
  split; [reflexivity|discriminate].
Qed.

(** ** Conversion of timedelta64[ns] to a coarser unit *)

Lemma putmask_map {A B} (f : A -> B) (g : A -> bool) (v : B) (l : list A) :
  putmask (map f l) (map g l) v = map (fun z => if g z then v else f z) l.
Proof.
  induction l as [|x l IH]; simpl; [reflexivity|]. now rewrite IH.
Qed.

Lemma wrap_in_range (z : Z) :
  in_range Signed W64 z = true -> wrap Signed W64 z = z.
Proof.
  unfold in_range, wrap, np.int_min, np.int_max. simpl bits.
  intros H. apply andb_prop in H. destruct H as [H1 H2].
  apply Z.leb_le in H1, H2.
  rewrite Z.mod_small; lia.
Qed.

Lemma unit_ns_coarser (u : time_unit) :
  coarser_than_ns u = true -> 1000 <= unit_ns u.
Proof. destruct u; simpl; intros H; try discriminate H; lia. Qed.

Lemma div_in_range (z r : Z) :
  0 < r -> in_range Signed W64 z = true -> in_range Signed W64 (z / r) = true.
Proof.
  unfold in_range, np.int_min, np.int_max. simpl bits.
  intros Hr H. apply andb_prop in H. destruct H as [H1 H2].
  apply Z.leb_le in H1, H2.
  pose proof (Z.div_mod z r ltac:(lia)) as E.
  pose proof (Z.mod_pos_bound z r Hr) as B.
  apply andb_true_intro. split; apply Z.leb_le; nia.
Qed.

Lemma conversion_factor_from_ns (u : time_unit) :
  conversion_factor U_ns u = (1, unit_ns u).
Proof. destruct u; vm_compute; reflexivity. Qed.

(** Truncating a negative count lowered by [d - 1] rounds it down. *)
Lemma quot_round_down (z d : Z) :
  0 < d -> z < 0 -> Z.quot (z - (d - 1)) d = z / d.
Proof.
  intros Hd Hz.
  pose proof (Z.div_mod z d ltac:(lia)) as E.
  pose proof (Z.mod_pos_bound z d Hd) as B.
  replace (z - (d - 1)) with (- (d - 1 - z)) by lia.
  rewrite Z.quot_opp_l by lia.
  rewrite Z.quot_div_nonneg by lia.
  assert (Q : (d - 1 - z) / d = - (z / d)).
  { symmetry. apply Z.div_unique with (r := d - 1 - z mod d); [lia|nia]. }
  rewrite Q. lia.
Qed.

(** The conversion of a nanosecond count to a coarser unit, where the
    [int64] arithmetic does not wrap around. *)
Lemma td64_cast_from_ns (u : time_unit) (z : Z) :
  coarser_than_ns u = true -> in_range Signed W64 z = true ->
  iNaT + (unit_ns u - 1) <= z ->
  z <> iNaT ->
  td64_cast U_ns u z = z / unit_ns u.
Proof.
  intros Hu Hz Hlow N. unfold td64_cast.
  apply Z.eqb_neq in N. rewrite N.
  pose proof (unit_ns_coarser u Hu) as R.
  assert (E : (let '(num, denom) := conversion_factor U_ns u in
               if z <? 0
               then Z.quot (wrap Signed W64
                              (wrap Signed W64 (z * num) - (denom - 1))) denom
               else Z.quot (wrap Signed W64 (z * num)) denom)
              = z / unit_ns u).
  { rewrite conversion_factor_from_ns, Z.mul_1_r.
    rewrite (wrap_in_range z Hz).
    pose proof Hz as B. unfold in_range, np.int_min, np.int_max in B.
    simpl bits in B. apply andb_prop in B. destruct B as [B1 B2].
    apply Z.leb_le in B1, B2. unfold iNaT in Hlow.
    destruct (z <? 0) eqn:S.
    - apply Z.ltb_lt in S.
      rewrite wrap_in_range.
      + apply quot_round_down; lia.
      + unfold in_range, np.int_min, np.int_max. simpl bits.
        apply andb_true_intro. split; apply Z.leb_le; lia.
    - apply Z.ltb_ge in S. apply Z.quot_div_nonneg; lia. }
  destruct u; try discriminate Hu; exact E.
Qed.

Lemma td64_cast_coarser (u : time_unit) (z : Z) :
  coarser_than_ns u = true -> in_range Signed W64 z = true ->
  z = iNaT \/ iNaT + (unit_ns u - 1) <= z ->
  (if z =? iNaT then float_nan else float_of_Z F64 (td64_cast U_ns u z))
  = whole_units u z.
Proof.
  intros Hu Hz Hlow. unfold whole_units.
  destruct (z =? iNaT) eqn:N; [reflexivity|].
  apply Z.eqb_neq in N.
  destruct Hlow as [->|Hlow]; [contradiction|].
  now rewrite td64_cast_from_ns.
Qed.

(** A count less than one unit, less a nanosecond, above the least
    [int64]: the subtraction wraps around and the count, though negative,
    converts to a positive number of units. *)
Lemma td64_cast_from_ns_wraps (u : time_unit) (z : Z) :
  coarser_than_ns u = true ->
  iNaT < z < iNaT + (unit_ns u - 1) ->
  td64_cast U_ns u z = Z.quot (z - (unit_ns u - 1) + 2 ^ 64) (unit_ns u)
  /\ 0 < td64_cast U_ns u z.
Proof.
  intros Hu Hz. unfold td64_cast.
  replace (z =? iNaT) with false by (symmetry; apply Z.eqb_neq; lia).
  pose proof (unit_ns_coarser u Hu) as R.
  assert (U : unit_ns u < 2 ^ 62) by (destruct u; vm_compute; reflexivity).
  unfold iNaT in Hz.
  assert (E : (let '(num, denom) := conversion_factor U_ns u in
               if z <? 0
               then Z.quot (wrap Signed W64
                              (wrap Signed W64 (z * num) - (denom - 1))) denom
               else Z.quot (wrap Signed W64 (z * num)) denom)
              = Z.quot (z - (unit_ns u - 1) + 2 ^ 64) (unit_ns u)).
  { rewrite conversion_factor_from_ns, Z.mul_1_r.
    replace (z <? 0) with true by (symmetry; apply Z.ltb_lt; lia).
    rewrite (wrap_in_range z).
    - f_equal. unfold wrap. simpl bits.
      replace (z - (unit_ns u - 1) + 2 ^ (64 - 1))
        with (z - (unit_ns u - 1) + 2 ^ 63 + 2 ^ 64 + -1 * 2 ^ 64) by lia.
      rewrite Z.mod_add by lia.
      rewrite Z.mod_small; lia.
    - unfold in_range, np.int_min, np.int_max. simpl bits.
      apply andb_true_intro. split; apply Z.leb_le; lia. }
  assert (P : 0 < Z.quot (z - (unit_ns u - 1) + 2 ^ 64) (unit_ns u)).
  { rewrite Z.quot_div_nonneg by lia.
    apply Z.div_str_pos. lia. }
  destruct u; try discriminate Hu;
    (split; [exact E | rewrite E; exact P]).
Qed.

(** The count next to NaT, as nanoseconds, converts to 9223372035
    seconds. *)
Example td64_cast_next_to_NaT :
  td64_cast U_ns U_s (iNaT + 1) = 9223372035.
Proof. reflexivity. Qed.

Lemma whole_units_null (u : time_unit) (z : Z) :
  is_nan (whole_units u z) = (z =? iNaT).
Proof.
  unfold whole_units. destruct (z =? iNaT); [reflexivity|].
  apply float_of_Z_not_nan.
Qed.

Lemma map_ext_Forall {A B} (f g : A -> B) (P : A -> Prop) (l : list A) :
  Forall P l -> (forall x, P x -> f x = g x) -> map f l = map g l.
Proof.
  intros H E. induction H as [|x l Hx H IH]; simpl; [reflexivity|].
  now rewrite E, IH.
Qed.

(** The cast of a timedelta64 array of at most one dimension to another
    timedelta64 dtype is the unit conversion. *)
Lemma astype_nansafe_td64_1d env fuel (a : ndarray) u0 l u copy skipna :
  (1 <? ndim a)%nat = false ->
  data a = BufTimedelta64 u0 l ->
  astype_nansafe_fuel env (S fuel) a (Np (Timedelta64 u)) copy skipna
  = Some (quiet (r <- astype_td64_unit_conversion env (atleast_1d a)
                        (Timedelta64 u) copy ;;
                 Ok (inl r))).
Proof.
  intros D Hd. cbn [astype_nansafe_fuel]. unfold astype_nansafe_body. rewrite D.
  unfold arr_dtype. rewrite atleast_1d_data, Hd. reflexivity.
Qed.

(** C6 (amended): converting a timedelta64[ns] array to a coarser unit
    gives a float64 array of the same shape whose null positions are those
    of the source and whose every other element is the whole number of
    target units in the source count -- the quotient rounded toward minus
    infinity, not the fractional quotient -- as a float64.  This holds for
    the counts that are NaT or lie at least one target unit, less a
    nanosecond, above the least int64; below, NumPy's int64 arithmetic
    wraps around. *)
Theorem astype_td64_unit_conversion_coarser :
  forall env shp fo l u copy skipna,
    coarser_than_ns u = true ->
    Forall (fun z => in_range Signed W64 z = true
                     /\ (z = iNaT \/ iNaT + (unit_ns u - 1) <= z)) l ->
    let values :=
      {| shape := shp; fortran := fo; data := BufTimedelta64 U_ns l |} in
    let quotients := BufFloat F64 (map (whole_units u) l) in
    astype_td64_unit_conversion env values (Timedelta64 u) copy
    = Ok (with_data values quotients)
    /\ isna_array (with_data values quotients) = isna_array values
    /\ astype_nansafe env values (Np (Timedelta64 u)) copy skipna
       = Some ([], Ok (inl (with_data (atleast_1d values) quotients))).
Proof.
  intros env shp fo l u copy skipna Hu Hl values quotients.
  assert (C : forall s f,
             astype_td64_unit_conversion env
               {| shape := s; fortran := f; data := BufTimedelta64 U_ns l |}
               (Timedelta64 u) copy
             = Ok {| shape := s; fortran := f; data := quotients |}).
  { intros s f. unfold astype_td64_unit_conversion.
    replace (np_dtype_beq _ (Timedelta64 u)) with false
      by (destruct u; try discriminate Hu; reflexivity).
    cbn -[td64_cast float_of_Z putmask float_nan].
    rewrite map_map, (putmask_map _ (fun z => z =? iNaT)).
    unfold with_data, quotients. cbn [shape fortran].
    do 2 f_equal. f_equal.
    apply (map_ext_Forall _ _ _ _ Hl). intros z [Hz Hlow].
    now apply td64_cast_coarser. }
  split; [apply C|]. split.
  - unfold isna_array, values, with_data, quotients. cbn [data].
    rewrite map_map. apply map_ext. intros z. apply whole_units_null.
  - unfold astype_nansafe.
    destruct (1 <? ndim values)%nat eqn:D.
    + rewrite astype_nansafe_fuel_nd by assumption.
      rewrite (astype_nansafe_td64_1d env 1 (ravel_K values) U_ns l)
        by reflexivity.
      change (atleast_1d (ravel_K values))
        with {| shape := [List.length l]; fortran := true;
                data := BufTimedelta64 U_ns l |}.
      rewrite C. cbn [bind quiet reshape data shape fortran].
      unfold with_data, atleast_1d, values. cbn [shape fortran data].
      destruct shp; [discriminate D|reflexivity].
    + rewrite (astype_nansafe_td64_1d env 2 values U_ns l) by auto.
      unfold atleast_1d, values. cbn [shape].
      destruct shp; rewrite C; reflexivity.
Qed.

Lemma astype_td64_unit_conversion_coarser_witness :
  astype_td64_unit_conversion numpy_alone
    (array1d (BufTimedelta64 U_ns [1500000000; -1; iNaT])) (Timedelta64 U_s)
    false
  = Ok (array1d (BufFloat F64 [float_of_Z F64 1; float_of_Z F64 (-1);
                               float_nan])).
Proof.
  apply (astype_td64_unit_conversion_coarser numpy_alone [3%nat] true
           [1500000000; -1; iNaT] U_s false false eq_refl).
  apply Forall_cons;
    [split; [reflexivity | right; vm_compute; discriminate]|].
  apply Forall_cons;
    [split; [reflexivity | right; vm_compute; discriminate]|].
  apply Forall_cons; [split; [reflexivity | left; reflexivity]|].
  apply Forall_nil.
Defined.

(** C6 (as stated) fails: one and a half seconds, as nanoseconds, convert
    to 1.0 second, which is not the float64 quotient 1.5 of the count and the
    unit ratio. *)
Lemma astype_td64_unit_conversion_floors :
  astype_td64_unit_conversion numpy_alone
    (array1d (BufTimedelta64 U_ns [1500000000])) (Timedelta64 U_s) false
  = Ok (array1d (BufFloat F64 [float_of_Z F64 1]))
  /\ float_eqb (float_of_Z F64 1)
       (float64_div (float_of_Z F64 1500000000)
          (float_of_Z F64 (unit_ns U_s)))
     = false.
Proof.
  split; vm_compute; reflexivity.
Qed.

(** ** Strict integer casting *)

(** What [maybe_cast_to_integer_array] does once the direct conversion
    has given values that differ from the originals. *)
Lemma maybe_cast_to_integer_array_unequal env arr dtype copy casted a :
  is_integer_dtype dtype = true ->
  direct_conversion env arr dtype = Ok casted ->
  array_equal env arr casted = false ->
  asarray env arr = Ok a ->
  maybe_cast_to_integer_array env arr dtype copy
  = (negative <-
       (if is_unsigned_integer_dtype dtype then any_negative env a
        else Ok false) ;;
     if is_unsigned_integer_dtype dtype && negative then
       Raise (OverflowError
                "Trying to coerce negative values to unsigned integers")
     else if is_float_dtype (Np (arr_dtype a))
             || is_object_dtype (Np (arr_dtype a))
     then Raise (ValueError "Trying to coerce float values to integers")
     else Ok None).
Proof.
  intros I C E A. unfold maybe_cast_to_integer_array.
  rewrite I, C, E, A. reflexivity.
Qed.

(** C7: once the direct conversion has given values unequal to the
    originals, [maybe_cast_to_integer_array] raises OverflowError if the
    target is unsigned and some original value is negative, and otherwise
    raises the precision-loss ValueError if the original array is of
    floating or object dtype; so [-1] to uint64 raises OverflowError and
    [1.5, 2.0] to int64 raises the ValueError. *)
Theorem maybe_cast_to_integer_array_errors :
  forall env,
    (forall arr dtype copy casted a,
        is_integer_dtype dtype = true ->
        direct_conversion env arr dtype = Ok casted ->
        array_equal env arr casted = false ->
        asarray env arr = Ok a ->
        (is_unsigned_integer_dtype dtype = true ->
         any_negative env a = Ok true ->
         maybe_cast_to_integer_array env arr dtype copy
         = Raise (OverflowError
                    "Trying to coerce negative values to unsigned integers"))
        /\ (is_unsigned_integer_dtype dtype = false
            \/ any_negative env a = Ok false ->
            is_float_dtype (Np (arr_dtype a))
            || is_object_dtype (Np (arr_dtype a)) = true ->
            maybe_cast_to_integer_array env arr dtype copy
            = Raise (ValueError "Trying to coerce float values to integers")))
    /\ maybe_cast_to_integer_array env (AL_list [PyInt (-1)]) (Np (UInt W64))
         false
       = Raise (OverflowError
                  "Trying to coerce negative values to unsigned integers")
    /\ maybe_cast_to_integer_array env
         (AL_list [PyFloat one_and_a_half; PyFloat (float_of_Z F64 2)])
         (Np (Int W64)) false
       = Raise (ValueError "Trying to coerce float values to integers").
Proof.
  intros env. split; [|split; vm_compute; reflexivity].
  intros arr dtype copy casted a I C E A.
  rewrite (maybe_cast_to_integer_array_unequal env arr dtype copy casted a)
    by assumption.
  split.
  - intros U N. rewrite U, N. reflexivity.
  - intros [U|N] F.
    + rewrite U. simpl. now rewrite F.
    + rewrite N. destruct (is_unsigned_integer_dtype dtype); simpl;
        now rewrite F.
Qed.

Lemma maybe_cast_to_integer_array_errors_witness :
  maybe_cast_to_integer_array numpy_alone (AL_list [PyInt (-1)])
    (Np (UInt W64)) false
  = Raise (OverflowError
             "Trying to coerce negative values to unsigned integers").
Proof.
  apply (proj1 (proj1 (maybe_cast_to_integer_array_errors numpy_alone)
                  (AL_list [PyInt (-1)]) (Np (UInt W64)) false
                  (array1d (BufInt Unsigned W64 [2 ^ 64 - 1]))
                  (array1d (BufInt Signed W64 [-1]))
                  eq_refl eq_refl eq_refl eq_refl));
    reflexivity.
Defined.

(** C10: when the converted values differ from the originals, the original
    array is neither floating nor object, and (for an unsigned target) no
    value is negative, [maybe_cast_to_integer_array] reaches the end of
    the function: it returns [None] and raises nothing.  So does the cast
    to int8 of the int64 array [300], which wraps to 44. *)
Theorem maybe_cast_to_integer_array_falls_through :
  forall env,
    (forall arr dtype copy casted a,
        is_integer_dtype dtype = true ->
        direct_conversion env arr dtype = Ok casted ->
        array_equal env arr casted = false ->
        asarray env arr = Ok a ->
        (is_unsigned_integer_dtype dtype = true ->
         any_negative env a = Ok false) ->
        is_float_dtype (Np (arr_dtype a)) = false ->
        is_object_dtype (Np (arr_dtype a)) = false ->
        maybe_cast_to_integer_array env arr dtype copy = Ok None)
    /\ direct_conversion env (AL_ndarray (array1d (BufInt Signed W64 [300])))
         (Np (Int W8))
       = Ok (array1d (BufInt Signed W8 [44]))
    /\ maybe_cast_to_integer_array env
         (AL_ndarray (array1d (BufInt Signed W64 [300]))) (Np (Int W8)) false
       = Ok None.
Proof.
  intros env. split; [|split; vm_compute; reflexivity].
  intros arr dtype copy casted a I C E A U F O.
  rewrite (maybe_cast_to_integer_array_unequal env arr dtype copy casted a)
    by assumption.
  rewrite F, O.
  destruct (is_unsigned_integer_dtype dtype).
  - now rewrite U.
  - reflexivity.
Qed.

Lemma maybe_cast_to_integer_array_falls_through_witness :
  maybe_cast_to_integer_array numpy_alone
    (AL_ndarray (array1d (BufInt Signed W64 [300]))) (Np (Int W8)) false
  = Ok None.
Proof.
  apply (proj1 (maybe_cast_to_integer_array_falls_through numpy_alone)
           (AL_ndarray (array1d (BufInt Signed W64 [300]))) (Np (Int W8))
           false (array1d (BufInt Signed W8 [44]))
           (array1d (BufInt Signed W64 [300])));
    reflexivity.
Defined.

(** ** Numeric downcasting *)

(** C9 (amended): in downcasting to a boolean or integer dtype, the array
    that [maybe_downcast_numeric] returns is either its input, unchanged,
    or the converted array; the converted array is returned only for an
    empty input or when it compares equal to the input -- element-wise
    equality when either side is of object kind, closeness with zero
    relative tolerance otherwise.  So [1.0, 2.0, 3.0] to int64 gives
    [1, 2, 3] and [1.0, 2.5] to int64 gives the input.  Downcasting to a
    floating dtype makes no such comparison: an array that is neither
    boolean nor of string kind is cast as it is. *)
Theorem maybe_downcast_numeric_roundtrip :
  forall env,
    (forall result dtype do_round out,
        is_bool_dtype (Np dtype) || is_integer_dtype (Np dtype) = true ->
        maybe_downcast_numeric env result (Np dtype) do_round = Ok out ->
        out = result
        \/ exists x new_result,
            trans env do_round result = Ok x
            /\ astype env x dtype = Ok new_result
            /\ out = new_result
            /\ (size result = 0%nat
                \/ (if is_kind_O (arr_dtype new_result)
                       || is_kind_O (arr_dtype result)
                    then all_equal env result new_result = true
                    else allclose env new_result result = Ok true)))
    /\ (forall result w do_round,
           (kind_beq Kf (np.kind_of (arr_dtype result))
            && (itemsize (arr_dtype result) <=? itemsize (Float w))
            && negb (Nat.eqb (size result) 0)) = false ->
           is_bool_dtype (Np (arr_dtype result)) = false ->
           is_string_dtype (arr_dtype result) = false ->
           maybe_downcast_numeric env result (Np (Float w)) do_round
           = astype env result (Float w))
    /\ maybe_downcast_numeric env
         (array1d (BufFloat F64
                     [float_of_Z F64 1; float_of_Z F64 2; float_of_Z F64 3]))
         (Np (Int W64)) false
       = Ok (array1d (BufInt Signed W64 [1; 2; 3]))
    /\ maybe_downcast_numeric env
         (array1d (BufFloat F64 [float_of_Z F64 1; two_and_a_half]))
         (Np (Int W64)) false
       = Ok (array1d (BufFloat F64 [float_of_Z F64 1; two_and_a_half])).
Proof.
  intros env. split; [|split; [|split; vm_compute; reflexivity]].
  - intros result dtype do_round out T. unfold maybe_downcast_numeric.
    rewrite T.
    destruct (kind_beq _ _ && _ && _).
    { intros H. injection H as <-. now left. }
    destruct (Nat.eqb (size result) 0) eqn:Z.
    { intros H. right. apply Nat.eqb_eq in Z.
      destruct (trans env do_round result) as [x|e] eqn:X;
        [|discriminate H]. simpl in H.
      exists x, out. auto. }
    destruct (first_element result) as [r0|].
    2:{ intros H. injection H as <-. now left. }
    destruct (isna r0).
    { intros H. injection H as <-. now left. }
    destruct (negb (plain_numeric r0)).
    { intros H. injection H as <-. now left. }
    destruct (_ && all (notna_array result)).
    2:{ intros H. injection H as <-. now left. }
    destruct (trans env do_round result) as [x|e] eqn:X;
      [|discriminate]. simpl.
    destruct (astype env x dtype) as [new_result|e] eqn:N;
      [|discriminate]. simpl.
    destruct (is_kind_O (arr_dtype new_result)
              || is_kind_O (arr_dtype result)) eqn:K.
    + destruct (all_equal env result new_result) eqn:Q;
        intros H; injection H as <-; [|now left].
      right. exists x, new_result. rewrite K. auto.
    + destruct (allclose env new_result result) as [[|]|e] eqn:Q;
        simpl; intros H; try discriminate H; injection H as <-; [|now left].
      right. exists x, new_result. rewrite K. auto.
  - intros result w do_round G B S. unfold maybe_downcast_numeric.
    cbn [np.kind_of]. rewrite G, B, S. reflexivity.
Qed.

Lemma maybe_downcast_numeric_roundtrip_witness :
  array1d (BufInt Signed W64 [1; 2; 3])
  = array1d (BufFloat F64
               [float_of_Z F64 1; float_of_Z F64 2; float_of_Z F64 3])
  \/ exists x new_result,
      trans numpy_alone false
        (array1d (BufFloat F64
                    [float_of_Z F64 1; float_of_Z F64 2; float_of_Z F64 3]))
      = Ok x
      /\ astype numpy_alone x (Int W64) = Ok new_result
      /\ array1d (BufInt Signed W64 [1; 2; 3]) = new_result
      /\ (size (array1d (BufFloat F64
                           [float_of_Z F64 1; float_of_Z F64 2;
                            float_of_Z F64 3])) = 0%nat
          \/ (if is_kind_O (arr_dtype new_result)
                 || is_kind_O (arr_dtype
                                 (array1d (BufFloat F64
                                             [float_of_Z F64 1;
                                              float_of_Z F64 2;
                                              float_of_Z F64 3])))
              then all_equal numpy_alone
                     (array1d (BufFloat F64
                                 [float_of_Z F64 1; float_of_Z F64 2;
                                  float_of_Z F64 3])) new_result = true
              else allclose numpy_alone new_result
                     (array1d (BufFloat F64
                                 [float_of_Z F64 1; float_of_Z F64 2;
                                  float_of_Z F64 3])) = Ok true)).
Proof.
  apply (proj1 (maybe_downcast_numeric_roundtrip numpy_alone)
           (array1d (BufFloat F64
                       [float_of_Z F64 1; float_of_Z F64 2; float_of_Z F64 3]))
           (Int W64) false (array1d (BufInt Signed W64 [1; 2; 3])));
    reflexivity.
Defined.

(** C9 (as stated) fails: downcasting the float64 array [16777217.0] to
    float32 returns the float32 array [16777216.0]; the conversion is kept
    although the values differ by 1, far beyond the tolerance. *)
Lemma maybe_downcast_numeric_float_unchecked :
  maybe_downcast_numeric numpy_alone
    (array1d (BufFloat F64 [float_of_Z F64 (2 ^ 24 + 1)])) (Np (Float F32))
    false
  = Ok (array1d (BufFloat F32 [float_of_Z F32 (2 ^ 24)]))
  /\ float_eqb (float_of_Z F32 (2 ^ 24)) (float_of_Z F64 (2 ^ 24 + 1)) = false
  /\ float_leb
       (float_abs (float64_sub (float_of_Z F32 (2 ^ 24))
                     (float_of_Z F64 (2 ^ 24 + 1))))
       atol
     = false.
Proof.
  repeat split; vm_compute; reflexivity.
Qed.

(** ** Boxing of the promoted fill value *)

Lemma int_width_beq_refl (w : int_width) : int_width_beq w w = true.
Proof. now destruct w. Qed.

Lemma float_width_beq_refl (w : float_width) : float_width_beq w w = true.
Proof. now destruct w. Qed.

Lemma complex_width_beq_refl (w : complex_width) :
  complex_width_beq w w = true.
Proof. now destruct w. Qed.

(** The scalar constructor of a dtype returns an instance of its class. *)
Lemma scalar_new_isinstance sn (d : np_dtype) (v r : pyobj) :
  constructs_instances sn ->
  d <> Object_ ->
  scalar_new sn d v = Ok r ->
  isinstance r (np.type_of d) = true.
Proof.
  intros S O. unfold scalar_new.
  destruct d as [|w|w|w|w| |u|u| |]; try congruence.
  - unfold bool_new.
    destruct (to_number v) as [[z|f|re im]|] eqn:N;
      try (intros H; injection H as <-; reflexivity).
    apply (S Bool_).
  - unfold integer_new, int_new.
    destruct (to_number v) as [[z|f|re im]|] eqn:N.
    + destruct v; try discriminate N;
        repeat match goal with
          | |- (if ?c then _ else _) = _ -> _ => destruct c
          end;
        intros H; try discriminate H; injection H as <-; simpl;
          apply int_width_beq_refl.
    + destruct (float_trunc f).
      * destruct (_ || _); intros H; try discriminate H.
        injection H as <-. simpl. apply int_width_beq_refl.
      * destruct (is_nan f); discriminate.
    + discriminate.
    + apply (S (Int w)).
  - unfold integer_new, int_new.
    destruct (to_number v) as [[z|f|re im]|] eqn:N.
    + destruct v; try discriminate N;
        repeat match goal with
          | |- (if ?c then _ else _) = _ -> _ => destruct c
          end;
        intros H; try discriminate H; injection H as <-; simpl;
          apply int_width_beq_refl.
    + destruct (float_trunc f).
      * destruct (_ || _); intros H; try discriminate H.
        injection H as <-. simpl. apply int_width_beq_refl.
      * destruct (is_nan f); discriminate.
    + discriminate.
    + apply (S (UInt w)).
  - unfold floating_new.
    destruct (to_number v) as [[z|f|re im]|] eqn:N.
    + destruct (py_float_of_int z); simpl; intros H; try discriminate H.
      injection H as <-. simpl. apply float_width_beq_refl.
    + intros H. injection H as <-. simpl. apply float_width_beq_refl.
    + discriminate.
    + apply (S (Float w)).
  - unfold complex_new.
    destruct (to_number v) as [[z|f|re im]|] eqn:N.
    + destruct (py_float_of_int z); simpl; intros H; try discriminate H.
      injection H as <-. simpl. apply complex_width_beq_refl.
    + intros H. injection H as <-. simpl. apply complex_width_beq_refl.
    + intros H. injection H as <-. simpl. apply complex_width_beq_refl.
    + apply (S (Complex w)).
  - destruct v; try apply (S (Datetime64 u)).
    intros H. injection H as <-. reflexivity.
  - destruct v; try apply (S (Timedelta64 u)).
    intros H. injection H as <-. reflexivity.
  - apply (S Str_).
  - apply (S Bytes_).
Qed.

(** What [_ensure_dtype_type] returns for a dtype that is neither object
    nor an extension dtype. *)
Lemma _ensure_dtype_type_boxed sn (value : pyobj) (d : np_dtype) (r : pyobj) :
  constructs_instances sn ->
  d <> Object_ ->
  _ensure_dtype_type sn value (Np d) = Ok r ->
  (isna r = true /\ r = value) \/ isinstance r (np.type_of d) = true.
Proof.
  intros S O. unfold _ensure_dtype_type.
  replace (eq_object (Np d)) with false by (destruct d; simpl; congruence).
  destruct (isna value) eqn:N.
  - intros H. injection H as <-. now left.
  - intros H. right. eapply scalar_new_isinstance; eassumption.
Qed.

(** C3 (amended): when [maybe_promote] returns a dtype that is neither
    object nor an extension dtype, the returned fill value is an instance
    of the scalar type of that dtype, unless it is a null value: a null
    value (such as NaN) is returned as it is, not boxed. *)
Theorem maybe_promote_boxes_fill :
  forall Timestamp_to_datetime64 Timedelta scalar_new_other d v d' v',
    constructs_instances scalar_new_other ->
    maybe_promote Timestamp_to_datetime64 Timedelta scalar_new_other d v
    = Ok (d', v') ->
    eq_object d' = false ->
    is_extension_array_dtype d' = false ->
    isna v' = true \/ isinstance v' (dtype_type d') = true.
Proof.
  intros ts td sn d v d' v' S. unfold maybe_promote.
  destruct (negb (is_scalar v) && negb (is_object_dtype d)); [discriminate|].
  destruct (fill_of_ndarray d v) as [d0 v0].
  destruct (promote_rules ts td d0 v0) as [[d1 v1]|e]; [|discriminate].
  cbn [bind].
  match goal with
  | |- (fill_value <- _ensure_dtype_type sn v1 ?d2 ;; _) = _ -> _ =>
      set (dt := d2)
  end.
  destruct (_ensure_dtype_type sn v1 dt) as [r|e] eqn:E; [|discriminate].
  cbn [bind]. intros H. injection H as <- <-. intros O X.
  destruct dt as [n|e]; [|discriminate X].
  destruct (_ensure_dtype_type_boxed sn v1 n r S) as [[N _]|I]; auto.
  intros ->. discriminate O.
Qed.

Lemma maybe_promote_boxes_fill_witness :
  isna (NpInt Signed W32 5) = true
  \/ isinstance (NpInt Signed W32 5) (dtype_type (Np (Int W32))) = true.
Proof.
  apply (maybe_promote_boxes_fill no_Timestamp no_Timedelta no_scalar_new
           (Np (Int W32)) (PyInt 5) (Np (Int W32)) (NpInt Signed W32 5)).
  - intros d v r H. discriminate H.
  - reflexivity.
  - reflexivity.
  - reflexivity.
Defined.

(** C3 (as stated) fails: promoting float32 with the fill value NaN returns
    float32 and the Python float NaN it was given, which is not an
    instance of [np.float32]. *)
Lemma maybe_promote_null_not_boxed :
  maybe_promote no_Timestamp no_Timedelta no_scalar_new (Np (Float F32)) nan
  = Ok (Np (Float F32), nan)
  /\ eq_object (Np (Float F32)) = false
  /\ is_extension_array_dtype (Np (Float F32)) = false
  /\ isinstance nan (dtype_type (Np (Float F32))) = false.
Proof.
  repeat split.
Qed.

(** ** Value domains under promotion *)

Lemma xsame_refl (x : xreal) : xsame x x.
Proof.
  destruct x as [m e|s|]; simpl; auto.
  unfold dyadic_compare. simpl. apply Z.compare_refl.
Qed.

Lemma same_value_refl (v : value) : same_value v v.
Proof.
  destruct v; simpl; auto using xsame_refl.
Qed.

Lemma holds_own (d : np_dtype) (v : value) : in_domain d v -> holds d v.
Proof. intros H. exists v. split; [assumption|apply same_value_refl]. Qed.

Lemma holds_object (v : value) : holds Object_ v.
Proof. exists v. split; [exact I|apply same_value_refl]. Qed.

Lemma in_format_mono (a b : float_width) (x : xreal) :
  np.float_le a b = true -> in_format a x -> in_format b x.
Proof.
  unfold np.float_le. intros L. destruct x as [m e| |]; simpl; auto.
  unfold emin_of.
  destruct a, b; simpl in *; try discriminate L; lia.
Qed.

(** An integer of at most [b] bits is a number of a format of more than
    [b] bits of precision. *)
Lemma int_in_format (w : float_width) (z : Z) :
  Z.abs z < 2 ^ prec_of w -> in_format w (XFin z 0).
Proof.
  intros H. simpl. split; [assumption|]. unfold emin_of.
  destruct w; simpl; lia.
Qed.

Lemma in_range_abs (s : signedness) (w : int_width) (z : Z) :
  in_range s w z = true -> Z.abs z <= 2 ^ bits w.
Proof.
  unfold in_range, np.int_min, np.int_max, np.uint_max.
  destruct s, w; simpl bits; intros H; apply andb_prop in H;
    destruct H as [H1 H2]; apply Z.leb_le in H1, H2; lia.
Qed.

Lemma int_fits_float_prec (w : int_width) (f : float_width) :
  np.int_fits_float w f = true ->
  (w = W64 -> f <> F64) ->
  2 ^ bits w < 2 ^ prec_of f.
Proof.
  destruct w, f; simpl; intros H N; try discriminate H; try lia.
  exfalso. now apply N.
Qed.

Lemma real_same_complex (x : xreal) :
  same_value (VComplex x (XFin 0 0)) (VNum x).
Proof. split; [apply xsame_refl|reflexivity]. Qed.

Lemma zero_in_format (w : float_width) : in_format w (XFin 0 0).
Proof. apply int_in_format. destruct w; simpl; lia. Qed.

(** A cast that NumPy calls safe keeps every value, but for the 64-bit
    integers cast to a 53-bit mantissa. *)
Lemma can_cast_holds (d d' : np_dtype) :
  np.can_cast d d' = true ->
  loses_integers d d' = false ->
  dtype_holds d' d.
Proof.
  intros C L v Hv.
  destruct d' as [|b|b|b|b| |u'|u'| |];
    try (apply holds_object);
    destruct d as [|a|a|a|a| |u|u| |]; simpl in C; try discriminate C;
      try (apply np_dtype_beq_eq in C; injection C as <-);
      try (now apply holds_own).
  all: destruct v as [[m [|e|e]|s|]|re im|u0 z|u0 z|s|s|o];
    cbn [in_domain] in Hv; try contradiction.
  (* Bool_ to the numeric dtypes *)
  all: try (match goal with
            | H : ?m = 0 \/ ?m = 1 |- holds (Int _) _ =>
                eexists (VNum (XFin m 0)); split;
                [|apply same_value_refl];
                simpl; unfold in_range, np.int_min, np.int_max;
                destruct b; simpl bits; destruct H as [-> | ->]; reflexivity
            | H : ?m = 0 \/ ?m = 1 |- holds (UInt _) _ =>
                eexists (VNum (XFin m 0)); split;
                [|apply same_value_refl];
                simpl; unfold in_range, np.uint_max;
                destruct b; simpl bits; destruct H as [-> | ->]; reflexivity
            | H : ?m = 0 \/ ?m = 1 |- holds (Float _) _ =>
                eexists (VNum (XFin m 0)); split;
                [|apply same_value_refl];
                apply int_in_format;
                destruct b; simpl; destruct H as [-> | ->]; simpl; lia
            | H : ?m = 0 \/ ?m = 1 |- holds (Complex _) _ =>
                eexists (VComplex (XFin m 0) (XFin 0 0)); split;
                [|apply real_same_complex];
                split; [|apply zero_in_format];
                apply int_in_format;
                destruct b; simpl; destruct H as [-> | ->]; simpl; lia
            end).
  (* integers to integers *)
  all: try (match goal with
            | |- holds (Int _) (VNum (XFin ?m 0)) =>
                eexists (VNum (XFin m 0)); split; [|apply same_value_refl];
                revert Hv; cbn [in_domain]; unfold in_range, np.int_min,
                  np.int_max, np.uint_max;
                destruct a, b; simpl bits in *; simpl in C;
                try discriminate C; intros Hv; apply andb_prop in Hv;
                destruct Hv as [H1 H2]; apply Z.leb_le in H1, H2;
                apply andb_true_intro; split; apply Z.leb_le; lia
            | |- holds (UInt _) (VNum (XFin ?m 0)) =>
                eexists (VNum (XFin m 0)); split; [|apply same_value_refl];
                revert Hv; cbn [in_domain]; unfold in_range, np.int_min,
                  np.int_max, np.uint_max;
                destruct a, b; simpl bits in *; simpl in C;
                try discriminate C; intros Hv; apply andb_prop in Hv;
                destruct Hv as [H1 H2]; apply Z.leb_le in H1, H2;
                apply andb_true_intro; split; apply Z.leb_le; lia
            end).
  (* integers to floats and complex numbers *)
  all: try (match goal with
            | Hv : in_range ?s ?a ?m = true |- holds (Float ?b) _ =>
                eexists (VNum (XFin m 0)); split; [|apply same_value_refl];
                apply int_in_format;
                pose proof (in_range_abs s a m Hv);
                pose proof (int_fits_float_prec a b C) as P;
                assert (2 ^ bits a < 2 ^ prec_of b)
                  by (apply P; intros -> ->; discriminate L);
                lia
            | Hv : in_range ?s ?a ?m = true |- holds (Complex ?b) _ =>
                eexists (VComplex (XFin m 0) (XFin 0 0)); split;
                [|apply real_same_complex];
                split; [|apply zero_in_format];
                apply int_in_format;
                pose proof (in_range_abs s a m Hv);
                pose proof (int_fits_float_prec a (component b) C) as P;
                assert (2 ^ bits a < 2 ^ prec_of (component b))
                  by (apply P; intros ->; destruct b; [discriminate C|];
                      intros _; discriminate L);
                lia
            end).
  all: try (apply internal_time_unit_dec_bl in C; subst u';
            now apply holds_own).
  (* floats to floats and complex numbers *)
  all: try (match goal with
            | Hv : in_format ?a ?x |- holds (Float ?b) (VNum ?x) =>
                exists (VNum x); split; [|apply same_value_refl];
                now apply (in_format_mono a b)
            | Hv : in_format ?a ?x |- holds (Complex ?b) (VNum ?x) =>
                exists (VComplex x (XFin 0 0)); split;
                [|apply real_same_complex];
                split; [|apply zero_in_format];
                now apply (in_format_mono a (component b))
            | Hv : in_format _ ?re /\ in_format _ ?im
              |- holds (Complex ?b) (VComplex ?re ?im) =>
                exists (VComplex re im); split; [|apply same_value_refl];
                destruct Hv as [Hr Hi];
                split; eapply in_format_mono; eassumption
            end).
Qed.

(** The 64-bit integer 2^53 + 1 is no float64 number. *)
Lemma float64_misses_int64_value :
  ~ holds (Float F64) (VNum (XFin (2 ^ 53 + 1) 0)).
Proof.
  intros [v' [D S]].
  destruct v' as [[m e|s|]|re im|u z|u z|s|s|o]; simpl in D, S;
    try contradiction; try discriminate S.
  unfold emin_of in D. simpl in D. destruct D as [Hm He].
  unfold dyadic_compare in S. cbn [fst snd] in S.
  apply Z.compare_eq in S.
  destruct (Z.min_spec e 0) as [[L E]|[L E]]; rewrite E in S.
  - (* e < 0 *)
    rewrite Z.sub_diag, Z.pow_0_r, Z.mul_1_r in S.
    assert (0 < 2 ^ (0 - e)) by (apply Z.pow_pos_nonneg; lia).
    lia.
  - (* 0 <= e *)
    rewrite Z.sub_0_r, Z.sub_diag, Z.pow_0_r, Z.mul_1_r in S.
    destruct (Z.eq_dec e 0) as [->|N].
    + rewrite Z.pow_0_r in S. lia.
    + replace e with (Z.succ (e - 1)) in S by lia.
      rewrite Z.pow_succ_r in S by lia.
      assert (Q : m * (2 * 2 ^ (e - 1)) = 2 * (m * 2 ^ (e - 1))) by ring.
      lia.
Qed.

Lemma float64_misses_int64 : ~ dtype_holds (Float F64) (Int W64).
Proof.
  intros H. apply float64_misses_int64_value. apply H. reflexivity.
Qed.

(** *** Safe casts and joins *)

Lemma can_cast_refl (a : np_dtype) : np.can_cast a a = true.
Proof.
  destruct a as [|w|w|w|w| |u|u| |]; simpl; try reflexivity;
    try apply Z.leb_refl;
    try (destruct u; reflexivity);
    destruct w; reflexivity.
Qed.

Lemma can_cast_object (a : np_dtype) : np.can_cast a Object_ = true.
Proof. now destruct a. Qed.

Lemma can_cast_promote_l (a b : np_dtype) :
  np.can_cast a (np.promote_types a b) = true.
Proof.
  unfold np.promote_types.
  destruct (np_dtype_beq a b); [apply can_cast_refl|].
  destruct (find _ np.numeric_order) as [k|] eqn:F;
    [|apply can_cast_object].
  apply find_some in F. destruct F as [_ F].
  now apply andb_prop in F.
Qed.

Lemma can_cast_promote_r (a b : np_dtype) :
  np.can_cast b (np.promote_types a b) = true.
Proof.
  unfold np.promote_types.
  destruct (np_dtype_beq a b) eqn:E.
  { apply np_dtype_beq_eq in E. subst. apply can_cast_refl. }
  destruct (find _ np.numeric_order) as [k|] eqn:F;
    [|apply can_cast_object].
  apply find_some in F. destruct F as [_ F].
  now apply andb_prop in F.
Qed.

Lemma dtype_gt_can_cast (m d : np_dtype) :
  np.dtype_gt m d = true -> np.can_cast d m = true.
Proof. unfold np.dtype_gt. intros H. now apply andb_prop in H. Qed.

(** Whatever a floating or complex dtype casts to has a null of its own. *)
Lemma can_cast_float_holds_null (w : float_width) (k : np_dtype) :
  np.can_cast (Float w) k = true -> holds_null k = true.
Proof. destruct k; simpl; intros H; try discriminate H; reflexivity. Qed.

Lemma can_cast_complex_holds_null (w : complex_width) (k : np_dtype) :
  np.can_cast (Complex w) k = true -> holds_null k = true.
Proof. destruct k; simpl; intros H; try discriminate H; reflexivity. Qed.

(** *** The promotion rules on a NumPy dtype *)

Lemma is_integer_notna (v : pyobj) : is_integer v = true -> isna v = false.
Proof. destruct v; simpl; intros H; try discriminate H; reflexivity. Qed.

Lemma is_bool_notna (v : pyobj) : is_bool v = true -> isna v = false.
Proof. destruct v; simpl; intros H; try discriminate H; reflexivity. Qed.

Lemma is_float_min_scalar_type (v : pyobj) :
  is_float v = true -> exists w, np.min_scalar_type v = Float w.
Proof.
  destruct v; cbn [is_float is_complex np.min_scalar_type]; intros H;
    try discriminate H; eauto.
Qed.

Lemma is_complex_min_scalar_type (v : pyobj) :
  is_complex v = true -> exists w, np.min_scalar_type v = Complex w.
Proof.
  destruct v; cbn [is_float is_complex np.min_scalar_type]; intros H;
    try discriminate H; eauto.
Qed.

Lemma promoted_raise n e : promoted n (Raise e).
Proof. intros d1 v1 H. discriminate H. Qed.

Lemma promoted_to n n1 v :
  np.can_cast n n1 = true ->
  (isna v = true ->
   holds_null n1 = true \/ np.issubclass_bytes_str (np.type_of n1) = true) ->
  promoted n (Ok (Np n1, v)).
Proof.
  intros C N d1 v1 H. injection H as <- <-. exists n1. auto.
Qed.

Lemma promoted_object n v : promoted n (Ok (Np Object_, v)).
Proof. apply promoted_to; [apply can_cast_object|auto]. Qed.

Lemma promoted_same_notna n v : isna v = false -> promoted n (Ok (Np n, v)).
Proof.
  intros N. apply promoted_to; [apply can_cast_refl|].
  rewrite N. discriminate.
Qed.

Lemma promoted_same_null n v :
  holds_null n = true \/ np.issubclass_bytes_str (np.type_of n) = true ->
  promoted n (Ok (Np n, v)).
Proof. intros N. apply promoted_to; [apply can_cast_refl|auto]. Qed.

Lemma promoted_float64 n v :
  np.issubclass_integer (np.type_of n) = true ->
  np.issubclass_timedelta64 (np.type_of n) = false ->
  promoted n (Ok (Np (Float F64), v)).
Proof.
  intros I T. apply promoted_to; [|auto].
  destruct n as [|w|w|w|w| |u|u| |]; try discriminate I; try discriminate T;
    destruct w; reflexivity.
Qed.

(** The rules for a fill value that is None or NA, or none of the above. *)
Lemma promoted_missing n (v : pyobj) :
  np.issubclass_timedelta64 (np.type_of n) = false ->
  promoted n
    match v with
    | PyNone | PdNA =>
        if is_float_dtype (Np n) || is_complex_dtype (Np n)
        then Ok (Np n, nan)
        else if is_integer_dtype (Np n) then Ok (Np (Float F64), nan)
        else Ok (Np Object_, match v with PdNA => v | _ => nan end)
    | _ => Ok (Np Object_, v)
    end.
Proof.
  intros T.
  assert (M : promoted n
                (if is_float_dtype (Np n) || is_complex_dtype (Np n)
                 then Ok (Np n, nan)
                 else if is_integer_dtype (Np n) then Ok (Np (Float F64), nan)
                 else Ok (Np Object_, match v with PdNA => v | _ => nan end))).
  { destruct (is_float_dtype (Np n) || is_complex_dtype (Np n)) eqn:F.
    - apply promoted_same_null. left.
      destruct n; try discriminate F; reflexivity.
    - destruct (is_integer_dtype (Np n)) eqn:I.
      + apply promoted_float64; [|assumption].
        unfold is_integer_dtype in I. now apply andb_prop in I.
      + apply promoted_object. }
  destruct v; try apply promoted_object; exact M.
Qed.

Lemma promoted_promote n mst v :
  (isna v = true -> holds_null (np.promote_types n mst) = true) ->
  promoted n (Ok (Np (np.promote_types n mst), v)).
Proof.
  intros N. apply promoted_to; [apply can_cast_promote_l|auto].
Qed.

(** A dtype that is of no numeric or temporal class is object or a string
    dtype. *)
Lemma other_dtype (n : np_dtype) :
  np.issubclass_datetime64 (np.type_of n) = false ->
  np.issubclass_timedelta64 (np.type_of n) = false ->
  np.issubclass_bool_ (np.type_of n) = false ->
  np.issubclass_integer (np.type_of n) = false ->
  holds_null n = true \/ np.issubclass_bytes_str (np.type_of n) = true.
Proof.
  destruct n; simpl; intros; try discriminate; auto.
Qed.

Lemma promote_rules_promoted ts td (n : np_dtype) (v : pyobj) :
  promoted n (promote_rules ts td (Np n) v).
Proof.
  unfold promote_rules, object_.
  cbn [dtype_type dtype_kind is_datetime64tz_dtype is_extension_array_dtype
         andb as_np bind].
  destruct (np.issubclass_datetime64 (np.type_of n)) eqn:T1.
  { (* datetime64 *)
    assert (K : holds_null n = true) by (destruct n; try discriminate T1;
                                         reflexivity).
    assert (R : promoted n
                  (if is_integer v || is_float v && negb (isna v)
                   then Ok (Np Object_, v)
                   else if is_valid_nat_for_dtype v (Np n)
                        then Ok (Np n, NpDatetime64 U_ns iNaT)
                        else
                          match ts v with
                          | Ok ns => Ok (Np n, NpDatetime64 U_ns ns)
                          | Raise (TypeError _) | Raise (ValueError _) =>
                              Ok (Np Object_, v)
                          | Raise e => Raise e
                          end)).
    { destruct (is_integer v || is_float v && negb (isna v));
        [apply promoted_object|].
      destruct (is_valid_nat_for_dtype v (Np n));
        [apply promoted_same_null; auto|].
      destruct (ts v) as [ns|[]];
        try apply promoted_raise; try apply promoted_object.
      apply promoted_same_null; auto. }
    destruct v; try exact R.
    destruct tz; [apply promoted_object|exact R]. }
  destruct (np.issubclass_timedelta64 (np.type_of n)) eqn:T2.
  { (* timedelta64 *)
    assert (K : holds_null n = true) by (destruct n; try discriminate T2;
                                         reflexivity).
    destruct (is_integer v || is_float v && negb (np_isnan v) || _);
      [apply promoted_object|].
    destruct (is_valid_nat_for_dtype v (Np n));
      [apply promoted_same_null; auto|].
    destruct (td v) as [[ns|]|[]];
      try apply promoted_raise; try apply promoted_object;
      apply promoted_same_null; auto. }
  destruct (is_float v) eqn:F.
  { destruct (np.issubclass_bool_ (np.type_of n)) eqn:B;
      [apply promoted_object|].
    destruct (np.issubclass_integer (np.type_of n)) eqn:I;
      [now apply promoted_float64|].
    destruct (is_float_min_scalar_type v F) as [w M].
    destruct (np.kind_of n) eqn:K;
      try (apply promoted_same_null; now apply other_dtype).
    - (* a floating dtype *)
      destruct (np.dtype_gt (np.min_scalar_type v) n) eqn:G.
      + apply promoted_to; [now apply dtype_gt_can_cast|].
        rewrite M. auto.
      + apply promoted_same_null. left.
        destruct n; try discriminate K; reflexivity.
    - (* a complex dtype *)
      apply promoted_promote. intros _.
      destruct n as [| | | |c| | | | |]; try discriminate K.
      apply (can_cast_complex_holds_null c), can_cast_promote_l. }
  destruct (is_bool v) eqn:Bv.
  { destruct (negb (np.issubclass_bool_ (np.type_of n)));
      [apply promoted_object|].
    apply promoted_same_notna. now apply is_bool_notna. }
  destruct (is_integer v) eqn:Iv.
  { pose proof (is_integer_notna v Iv) as N.
    destruct (np.issubclass_bool_ (np.type_of n));
      [apply promoted_object|].
    destruct (np.issubclass_integer (np.type_of n));
      [|now apply promoted_same_notna].
    destruct (negb (np.can_cast_scalar v n));
      [|now apply promoted_same_notna].
    destruct (np.kind_of (np.promote_types n (np.min_scalar_type v)));
      try apply promoted_object;
      apply promoted_promote; rewrite N; discriminate. }
  destruct (is_complex v) eqn:Cv.
  { destruct (np.issubclass_bool_ (np.type_of n)) eqn:B;
      [apply promoted_object|].
    destruct (is_complex_min_scalar_type v Cv) as [w M].
    destruct (np.issubclass_integer (np.type_of n)
              || np.issubclass_floating (np.type_of n)) eqn:IF.
    - apply promoted_promote. intros _. rewrite M.
      apply (can_cast_complex_holds_null w), can_cast_promote_r.
    - apply orb_false_elim in IF. destruct IF as [I Fl].
      destruct (np.kind_of n) eqn:K;
        try (apply promoted_same_null; now apply other_dtype).
      destruct (np.dtype_gt (np.min_scalar_type v) n) eqn:G.
      + apply promoted_to; [now apply dtype_gt_can_cast|].
        rewrite M. auto.
      + apply promoted_same_null. left.
        destruct n; try discriminate K; reflexivity. }
  now apply promoted_missing.
Qed.

Lemma fill_of_ndarray_numpy (n : np_dtype) (v : pyobj) :
  negb (is_scalar v) && negb (is_object_dtype (Np n)) = false ->
  exists v0, fill_of_ndarray (Np n) v = (Np n, v0).
Proof.
  intros G. destruct v; try (eexists; reflexivity).
  destruct n; try discriminate G.
  destruct dt; eexists; reflexivity.
Qed.

(** An instance of the boolean or of an integer class is no null. *)
Lemma isinstance_notna (r : pyobj) (n : np_dtype) :
  isinstance r (np.type_of n) = true ->
  holds_null n = false ->
  np.issubclass_bytes_str (np.type_of n) = false ->
  isna r = false.
Proof.
  destruct n; simpl; intros I H S; try discriminate H; try discriminate S;
    destruct r; try discriminate I; try reflexivity;
    destruct s; discriminate I.
Qed.

(** What [maybe_promote] returns for a NumPy dtype. *)
Lemma maybe_promote_numpy ts td sn (n : np_dtype) (v : pyobj) d' v' :
  constructs_instances sn ->
  maybe_promote ts td sn (Np n) v = Ok (d', v') ->
  exists n',
    d' = Np n'
    /\ np.can_cast n n' = true
    /\ (isna v' = true -> holds_null n' = true).
Proof.
  intros S. unfold maybe_promote.
  destruct (negb (is_scalar v) && negb (is_object_dtype (Np n))) eqn:G;
    [discriminate|].
  destruct (fill_of_ndarray_numpy n v G) as [v0 ->].
  pose proof (promote_rules_promoted ts td n v0) as P.
  destruct (promote_rules ts td (Np n) v0) as [[d1 v1]|e]; [|discriminate].
  destruct (P d1 v1 eq_refl) as [n1 [-> [C N]]]. cbn [bind].
  destruct (np.issubclass_bytes_str (np.type_of n1)) eqn:B.
  - (* a string dtype is replaced by object *)
    unfold object_. cbn [_ensure_dtype_type eq_object].
    intros H. injection H as <- <-.
    exists Object_. split; [reflexivity|].
    split; [apply can_cast_object|reflexivity].
  - destruct (_ensure_dtype_type sn v1 (Np n1)) as [r|e] eqn:E;
      [|discriminate].
    cbn [bind]. intros H. injection H as <- <-.
    exists n1. split; [reflexivity|]. split; [assumption|].
    intros R.
    destruct (holds_null n1) eqn:K; [reflexivity|].
    assert (O : n1 <> Object_) by (intros ->; discriminate K).
    destruct (_ensure_dtype_type_boxed sn v1 n1 r S O E) as [[_ ->]|I].
    + destruct (N R) as [Q|Q]; congruence.
    + rewrite (isinstance_notna r n1 I K B) in R. discriminate R.
Qed.

(** C2 (amended): for every NumPy dtype [d] and every fill value on which
    [maybe_promote] returns, the returned dtype [d'] is a NumPy dtype to
    which [d] casts safely; it represents every value of [d] without loss
    unless [d] is a 64-bit integer dtype and [d'] is float64 or complex128
    (a fill value that is a float, a complex number or the generic null
    marker); and when the returned fill value is a null, [d'] is a dtype
    with a null of its own (floating, complex, temporal or object). *)
Theorem maybe_promote_holds_domain :
  forall Timestamp_to_datetime64 Timedelta scalar_new_other d v d' v',
    constructs_instances scalar_new_other ->
    maybe_promote Timestamp_to_datetime64 Timedelta scalar_new_other (Np d) v
    = Ok (d', v') ->
    exists n',
      d' = Np n'
      /\ np.can_cast d n' = true
      /\ (loses_integers d n' = false -> dtype_holds n' d)
      /\ (isna v' = true -> holds_null n' = true).
Proof.
  intros ts td sn d v d' v' S H.
  destruct (maybe_promote_numpy ts td sn d v d' v' S H) as [n' [-> [C N]]].
  exists n'. split; [reflexivity|]. split; [assumption|].
  split; [|assumption].
  now apply can_cast_holds.
Qed.

Lemma maybe_promote_holds_domain_witness :
  exists n',
    Np (Float F64) = Np n'
    /\ np.can_cast (Int W32) n' = true
    /\ (loses_integers (Int W32) n' = false -> dtype_holds n' (Int W32))
    /\ (isna nan = true -> holds_null n' = true).
Proof.
  apply (maybe_promote_holds_domain no_Timestamp no_Timedelta no_scalar_new
           (Int W32) PyNone (Np (Float F64)) nan).
  - intros d v r H. discriminate H.
  - reflexivity.
Defined.

(** C2 (as stated) fails: promoting the signed 64-bit integer dtype with
    the generic null marker returns float64 (and NaN), and float64 does not
    hold every 64-bit integer: it has no number equal to 2^53 + 1. *)
Lemma maybe_promote_int64_none_loses_integers :
  maybe_promote no_Timestamp no_Timedelta no_scalar_new (Np (Int W64)) PyNone
  = Ok (Np (Float F64), nan)
  /\ in_domain (Int W64) (VNum (XFin (2 ^ 53 + 1) 0))
  /\ ~ holds (Float F64) (VNum (XFin (2 ^ 53 + 1) 0))
  /\ ~ dtype_holds (Float F64) (Int W64).
Proof.
  split; [reflexivity|]. split; [reflexivity|].
  split; [|apply float64_misses_int64].
  intros H. apply float64_misses_int64_value. exact H.
Qed.

(** * Further properties *)

(** ** The join of dtypes *)

Lemma dict_fromkeys_In (l : list DtypeObj) (t : DtypeObj) :
  all_numpy l -> In t (dict_fromkeys l) <-> In t l.
Proof.
  intros H. unfold dict_fromkeys. rewrite fromkeys_from_In by assumption.
  simpl. tauto.
Qed.

Lemma dict_fromkeys_numpy (l : list DtypeObj) :
  all_numpy l -> existsb isinstance_ExtensionDtype (dict_fromkeys l) = false.
Proof.
  intros H. destruct (existsb _ _) eqn:X; [|reflexivity].
  apply existsb_exists in X. destruct X as [t [Ht Xt]].
  apply (dict_fromkeys_In _ _ H) in Ht.
  rewrite (H t Ht) in Xt. discriminate.
Qed.

(** Two different dtypes in a list defeat the early exit of the join. *)
Lemma not_all_equal (first : DtypeObj) (rest : list DtypeObj) (a b : DtypeObj) :
  all_numpy (first :: rest) ->
  In a (first :: rest) -> In b (first :: rest) -> a <> b ->
  forallb (is_dtype_equal first) rest = false.
Proof.
  intros H Ha Hb N.
  destruct (forallb (is_dtype_equal first) rest) eqn:F; [|reflexivity].
  exfalso. apply N.
  pose proof (proj1 (all_equal_first first rest H) F) as Q.
  now rewrite (Q a Ha), (Q b Hb).
Qed.

Lemma forallb_false_In {A} (f : A -> bool) (l : list A) (a : A) :
  In a l -> f a = false -> forallb f l = false.
Proof.
  intros Ha Fa. destruct (forallb f l) eqn:F; [|reflexivity].
  rewrite forallb_forall in F. rewrite (F a Ha) in Fa. discriminate.
Qed.

Lemma existsb_true_In {A} (f : A -> bool) (l : list A) (a : A) :
  In a l -> f a = true -> existsb f l = true.
Proof. intros Ha Fa. apply existsb_exists. eauto. Qed.

(** X1: in a list of NumPy dtypes, the boolean dtype joins with an
    integer, floating or complex dtype to object (NumPy itself would join
    them to the numeric dtype). *)
Theorem find_common_type_bool_with_number :
  forall _get_common_dtype (types : list DtypeObj) (t : DtypeObj),
    all_numpy types ->
    In (Np Bool_) types ->
    In t types ->
    is_integer_dtype t || is_float_dtype t || is_complex_dtype t = true ->
    find_common_type _get_common_dtype types = Ok (Some (Np Object_)).
Proof.
  intros gcd types t H Hb Ht N.
  destruct types as [|first rest]; [contradiction|].
  unfold find_common_type.
  rewrite (not_all_equal first rest (Np Bool_) t H Hb Ht)
    by (intros <-; discriminate N).
  rewrite (dict_fromkeys_numpy _ H).
  pose proof (proj2 (dict_fromkeys_In _ (Np Bool_) H) Hb) as Db.
  pose proof (proj2 (dict_fromkeys_In _ t H) Ht) as Dt.
  rewrite (forallb_false_In is_datetime64_dtype _ _ Db eq_refl).
  rewrite (forallb_false_In is_timedelta64_dtype _ _ Db eq_refl).
  rewrite (existsb_true_In is_bool_dtype _ _ Db eq_refl).
  rewrite (existsb_true_In _ _ _ Dt N).
  reflexivity.
Qed.

Lemma find_common_type_bool_with_number_witness :
  find_common_type sparse_common_dtype [Np (Int W64); Np Bool_; Np (Float F32)]
  = Ok (Some (Np Object_)).
Proof.
  apply (find_common_type_bool_with_number sparse_common_dtype
           [Np (Int W64); Np Bool_; Np (Float F32)] (Np (Float F32))).
  - intros t [<-|[<-|[<-|[]]]]; reflexivity.
  - simpl. auto.
  - simpl. auto.
  - reflexivity.
Defined.

(** X2: a list of datetime64 dtypes in which two units differ joins to
    datetime64[ns], whatever the units; likewise a list of timedelta64
    dtypes joins to timedelta64[ns]. *)
Theorem find_common_type_temporal_units :
  forall _get_common_dtype (types : list DtypeObj) (u1 u2 : time_unit),
    u1 <> u2 ->
    ((forall t, In t types -> exists u, t = Np (Datetime64 u)) ->
     In (Np (Datetime64 u1)) types -> In (Np (Datetime64 u2)) types ->
     find_common_type _get_common_dtype types
     = Ok (Some (Np (Datetime64 U_ns))))
    /\ ((forall t, In t types -> exists u, t = Np (Timedelta64 u)) ->
        In (Np (Timedelta64 u1)) types -> In (Np (Timedelta64 u2)) types ->
        find_common_type _get_common_dtype types
        = Ok (Some (Np (Timedelta64 U_ns)))).
Proof.
  intros gcd types u1 u2 N. split; intros A H1 H2.
  - assert (H : all_numpy types).
    { intros t Ht. destruct (A t Ht) as [u ->]. reflexivity. }
    destruct types as [|first rest]; [contradiction|].
    unfold find_common_type.
    rewrite (not_all_equal first rest _ _ H H1 H2) by congruence.
    rewrite (dict_fromkeys_numpy _ H).
    replace (forallb is_datetime64_dtype (dict_fromkeys (first :: rest)))
      with true; [reflexivity|].
    symmetry. apply forallb_forall. intros t Ht.
    apply (dict_fromkeys_In _ _ H) in Ht.
    destruct (A t Ht) as [u ->]. reflexivity.
  - assert (H : all_numpy types).
    { intros t Ht. destruct (A t Ht) as [u ->]. reflexivity. }
    destruct types as [|first rest]; [contradiction|].
    unfold find_common_type.
    rewrite (not_all_equal first rest _ _ H H1 H2) by congruence.
    rewrite (dict_fromkeys_numpy _ H).
    pose proof (proj2 (dict_fromkeys_In _ _ H) H1) as D1.
    rewrite (forallb_false_In is_datetime64_dtype _ _ D1 eq_refl).
    replace (forallb is_timedelta64_dtype (dict_fromkeys (first :: rest)))
      with true; [reflexivity|].
    symmetry. apply forallb_forall. intros t Ht.
    apply (dict_fromkeys_In _ _ H) in Ht.
    destruct (A t Ht) as [u ->]. reflexivity.
Qed.

Lemma find_common_type_temporal_units_witness :
  find_common_type sparse_common_dtype
    [Np (Datetime64 U_s); Np (Datetime64 U_D); Np (Datetime64 U_s)]
  = Ok (Some (Np (Datetime64 U_ns))).
Proof.
  apply (proj1 (find_common_type_temporal_units sparse_common_dtype
                  [Np (Datetime64 U_s); Np (Datetime64 U_D);
                   Np (Datetime64 U_s)] U_s U_D ltac:(discriminate))).
  - intros t [<-|[<-|[<-|[]]]]; eauto.
  - simpl. auto.
  - simpl. auto.
Defined.

(** ** Promotion *)

(** With the object dtype, promotion has nothing to do. *)
Lemma promote_rules_object ts td (v : pyobj) :
  promote_rules ts td (Np Object_) v
  = Ok (Np Object_, match v with PyNone => nan | _ => v end).
Proof. destruct v; reflexivity. Qed.

Lemma maybe_promote_object ts td sn (v : pyobj) :
  exists v', maybe_promote ts td sn (Np Object_) v = Ok (Np Object_, v').
Proof.
  unfold maybe_promote. cbn [is_object_dtype dtype_type np.type_of
                               np.issubclass_object_ negb andb].
  rewrite Bool.andb_false_r.
  destruct (fill_of_ndarray (Np Object_) v) as [d0 v0] eqn:F.
  assert (d0 = Np Object_) as ->.
  { destruct v; try (injection F as <- _; reflexivity).
    destruct dt; injection F as <- _; reflexivity. }
  rewrite promote_rules_object. cbn. eauto.
Qed.

(** X3: the object dtype absorbs every fill value: promotion returns the
    object dtype for a scalar, a list or an array alike, and never
    raises. *)
Theorem maybe_promote_object_absorbs :
  forall Timestamp_to_datetime64 Timedelta scalar_new_other (v : pyobj),
  exists v',
    maybe_promote Timestamp_to_datetime64 Timedelta scalar_new_other
      (Np Object_) v
    = Ok (Np Object_, v').
Proof. intros ts td sn v. apply maybe_promote_object. Qed.

(** X4: booleans and numbers do not mix.  The boolean dtype with an
    integer, float or complex fill value, and an integer, floating or
    complex dtype with a boolean fill value, both promote to object, with
    the fill value as it was given. *)
Theorem maybe_promote_bool_number :
  forall Timestamp_to_datetime64 Timedelta scalar_new_other
         (d : np_dtype) (v : pyobj),
    (d = Bool_ /\ is_integer v || is_float v || is_complex v = true)
    \/ (is_numeric d = true /\ d <> Bool_ /\ is_bool v = true) ->
    maybe_promote Timestamp_to_datetime64 Timedelta scalar_new_other (Np d) v
    = Ok (Np Object_, v).
Proof.
  intros ts td sn d v [[-> N]|[K [B V]]].
  - destruct v; try discriminate N; reflexivity.
  - destruct v; try discriminate V;
      destruct d; try discriminate K; try congruence; reflexivity.
Qed.

Lemma maybe_promote_bool_number_witness :
  maybe_promote no_Timestamp no_Timedelta no_scalar_new (Np (Float F64))
    (PyBool true)
  = Ok (Np Object_, PyBool true).
Proof.
  apply (maybe_promote_bool_number no_Timestamp no_Timedelta no_scalar_new
           (Float F64) (PyBool true)).
  right. split; [reflexivity|]. split; [discriminate|reflexivity].
Defined.

(** *** Integer fill values *)

(** Deciding the comparisons of a goal, by cases where the context does
    not settle them. *)
Ltac literal_bounds :=
  repeat match goal with
    | |- context [2 ^ (bits ?w - 1)] =>
        let v := eval vm_compute in (2 ^ (bits w - 1)) in
        change (2 ^ (bits w - 1)) with v
    | |- context [2 ^ bits ?w] =>
        let v := eval vm_compute in (2 ^ bits w) in
        change (2 ^ bits w) with v
    end.

Ltac decide_cmp :=
  repeat (literal_bounds;
          match goal with
          | |- context [Z.leb ?a ?b] =>
              first [ rewrite (proj2 (Z.leb_le a b)) by lia
                    | rewrite (proj2 (Z.leb_gt a b)) by lia
                    | destruct (Z.leb_spec a b) ]
          | |- context [Z.ltb ?a ?b] =>
              first [ rewrite (proj2 (Z.ltb_lt a b)) by lia
                    | rewrite (proj2 (Z.ltb_ge a b)) by lia
                    | destruct (Z.ltb_spec a b) ]
          end).

Ltac evaluate :=
  repeat (progress (cbn -[Z.leb Z.ltb Z.eqb Z.pow Z.modulo]; decide_cmp)).

(** X5: promoting an integer dtype by a Python integer never raises; the
    dtype returned holds the integer (it is an integer dtype with the
    integer in range, or object), the fill value returned is that integer,
    and the dtype is kept exactly when the integer is in its range. *)
Theorem maybe_promote_integer_fill :
  forall Timestamp_to_datetime64 Timedelta scalar_new_other
         (s : signedness) (w : int_width) (z : Z),
  exists d' v',
    maybe_promote Timestamp_to_datetime64 Timedelta scalar_new_other
      (Np (int_dtype s w)) (PyInt z)
    = Ok (Np d', v')
    /\ holds_int d' z = true
    /\ to_number v' = Some (NumInt z)
    /\ (d' = int_dtype s w <-> in_range s w z = true).
Proof.
  intros ts td sn s w z.
  unfold maybe_promote, promote_rules, _ensure_dtype_type, scalar_new,
    integer_new, int_new, np.can_cast_scalar, np.small_unsigned,
    np.min_scalar_type, np.min_int_type, np.dtype_of, holds_int, in_range,
    wrap, np.int_min, np.int_max, np.uint_max.
  destruct s, w; evaluate.
  all: do 2 eexists; (split; [reflexivity|]); evaluate.
  all: try rewrite Z.mod_small by lia.
  all: repeat split; try discriminate; try (f_equal; f_equal; lia).
Qed.
(** *** Promoting twice *)

Ltac opaque_cbn :=
  cbn -[np.min_int_type np.within np.small_unsigned is_nan is_finite
        float_round float_of_Z float_trunc float_eqb wrap in_range].

Ltac opaque_cases :=
  repeat match goal with
    | |- context [np.within ?l ?f] => destruct (np.within l f); opaque_cbn
    | |- context [is_finite ?f] => destruct (is_finite f); opaque_cbn
    | |- context [is_nan ?f] => destruct (is_nan f); opaque_cbn
    end.

(** A fill value that is an instance of the scalar class of a numeric
    dtype leaves the dtype as it is. *)
Lemma maybe_promote_boxed ts td sn (n : np_dtype) (v : pyobj) :
  is_numeric n = true ->
  isinstance v (np.type_of n) = true ->
  exists v', maybe_promote ts td sn (Np n) v = Ok (Np n, v').
Proof.
  intros K I.
  destruct n; try discriminate K; destruct v; try discriminate I.
  all: repeat match goal with
         | w : int_width |- _ => destruct w
         | w : float_width |- _ => destruct w
         | w : complex_width |- _ => destruct w
         | s : signedness |- _ => destruct s
         end; try discriminate I.
  all: unfold maybe_promote, promote_rules; opaque_cbn; opaque_cases.
  all: eexists; reflexivity.
Qed.

Lemma settled_object ts td (v : pyobj) : settled ts td (Np Object_) v.
Proof. intros sn v' _. apply maybe_promote_object. Qed.

(** On a number, the scalar constructors do not call for help. *)
Lemma scalar_new_number sn (n : np_dtype) (v r : pyobj) :
  is_numeric n = true ->
  is_number v = true ->
  scalar_new sn n v = Ok r ->
  isinstance r (np.type_of n) = true.
Proof.
  intros K N H.
  apply (scalar_new_isinstance no_scalar_new n v r).
  - intros d x y E. discriminate E.
  - intros ->. discriminate K.
  - rewrite <- H.
    destruct n; try discriminate K; destruct v; try discriminate N;
      reflexivity.
Qed.

Lemma settled_numeric ts td (n : np_dtype) (v : pyobj) :
  is_numeric n = true ->
  is_number v = true ->
  (isna v = true ->
   (is_float v = true
    /\ match np.kind_of n with Kf | Kc => true | _ => false end = true)
   \/ (is_complex v = true
       /\ match np.kind_of n with Kc => true | _ => false end = true
       /\ np.dtype_gt (np.min_scalar_type v) n = false)) ->
  settled ts td (Np n) v.
Proof.
  intros K N Null sn v'. unfold _ensure_dtype_type.
  replace (eq_object (Np n)) with false
    by (destruct n; try discriminate K; reflexivity).
  destruct (isna v) eqn:A.
  - intros E. injection E as <-.
    destruct (Null eq_refl) as [[F Kn]|[C [Kn G]]].
    + destruct v; try discriminate F; cbn [isna] in A;
        destruct f; try discriminate A;
        destruct n; try discriminate Kn;
        repeat match goal with
          | w : float_width |- _ => destruct w
          | w : complex_width |- _ => destruct w
          end;
        eexists; reflexivity.
    + destruct n; try discriminate Kn.
      unfold maybe_promote, promote_rules.
      destruct v; try discriminate C;
        cbn [np.min_scalar_type] in G; cbn [isna] in A;
        cbn -[np.dtype_gt np.min_complex_type is_nan];
        rewrite G; cbn -[is_nan]; rewrite A; cbn [bind]; eauto.
  - intros E. apply maybe_promote_boxed; [assumption|].
    eapply scalar_new_number; eassumption.
Qed.

Ltac walk_cbn :=
  cbn -[np.can_cast_scalar np.min_int_type np.within is_nan is_finite
        float_round float_of_Z float_trunc float_eqb wrap in_range].

Ltac concrete_widths :=
  repeat match goal with
    | w : int_width |- _ => destruct w
    | w : float_width |- _ => destruct w
    | w : complex_width |- _ => destruct w
    end.

Ltac walk_cases :=
  repeat match goal with
    | |- context [np.can_cast_scalar ?v ?d] =>
        destruct (np.can_cast_scalar v d); walk_cbn
    | |- context [np.min_int_type ?z] =>
        destruct (np.min_int_type z); concrete_widths; walk_cbn
    | |- context [np.within ?l ?f] =>
        destruct (np.within l f) eqn:?; walk_cbn
    | |- context [is_finite ?f] => destruct (is_finite f) eqn:?; walk_cbn
    end.

Ltac recall_cases :=
  repeat match goal with
    | E : np.within ?l ?f = _ |- context [np.within ?l ?f] => rewrite E
    | E : is_finite ?f = _ |- context [is_finite ?f] => rewrite E
    end.

(** Every pair the rules return for a dtype of numbers or objects is
    settled. *)
Lemma promote_rules_settled ts td (n : np_dtype) (v : pyobj) d1 v1 :
  is_plain n = true ->
  promote_rules ts td (Np n) v = Ok (d1, v1) ->
  settled ts td d1 v1
  /\ exists n1,
      d1 = Np n1 /\ np.issubclass_bytes_str (np.type_of n1) = false.
Proof.
  intros P. destruct n; try discriminate P; destruct v; concrete_widths.
  all: unfold promote_rules; walk_cbn; walk_cases.
  all: intros H; injection H as <- <-.
  all: (split; [|eexists; split; reflexivity]).
  all: try apply settled_object.
  all: apply settled_numeric; [reflexivity|reflexivity|].
  all: intros A; try discriminate A.
  all: try (left; split; reflexivity).
  all: right; split; [reflexivity|]; split; [reflexivity|].
  all: walk_cbn; recall_cases; reflexivity.
Qed.

(** A string dtype promotes to object, whatever the fill value. *)
Lemma maybe_promote_string ts td sn (n : np_dtype) (v : pyobj) d' v' :
  np.issubclass_bytes_str (np.type_of n) = true ->
  maybe_promote ts td sn (Np n) v = Ok (d', v') ->
  d' = Np Object_.
Proof.
  intros S. destruct n; try discriminate S; destruct v;
    unfold maybe_promote, promote_rules; walk_cbn;
    intros H; try discriminate H; injection H as <- _; reflexivity.
Qed.

(** X6: promotion is stable.  When promoting a NumPy dtype that is not
    temporal by a fill value returns a dtype and a fill value, promoting
    the returned dtype by the returned fill value returns that dtype
    again.  The calls that return the class [np.float64] in the place of a
    dtype -- an integer dtype with [None] or [pd.NA] -- are set aside:
    what they return cannot be promoted again. *)
Theorem maybe_promote_stable :
  forall Timestamp_to_datetime64 Timedelta scalar_new_other
         (d : np_dtype) (v : pyobj) (d' : DtypeObj) (v' : pyobj),
    is_temporal d = false ->
    returns_scalar_class d v = false ->
    maybe_promote Timestamp_to_datetime64 Timedelta scalar_new_other (Np d) v
    = Ok (d', v') ->
    exists v'',
      maybe_promote Timestamp_to_datetime64 Timedelta scalar_new_other d' v'
      = Ok (d', v'').
Proof.
  intros ts td sn d v d' v' T _ H.
  destruct (np.issubclass_bytes_str (np.type_of d)) eqn:S.
  { rewrite (maybe_promote_string ts td sn d v d' v' S H).
    apply maybe_promote_object. }
  assert (P : is_plain d = true)
    by (destruct d; try discriminate T; try discriminate S; reflexivity).
  revert H. unfold maybe_promote at 1.
  destruct (negb (is_scalar v) && negb (is_object_dtype (Np d))) eqn:G;
    [discriminate|].
  destruct (fill_of_ndarray_numpy d v G) as [v0 ->].
  destruct (promote_rules ts td (Np d) v0) as [[d1 v1]|e] eqn:R;
    [|discriminate].
  destruct (promote_rules_settled ts td d v0 d1 v1 P R) as [Q [n1 [-> B]]].
  cbn [bind]. rewrite B.
  destruct (_ensure_dtype_type sn v1 (Np n1)) as [r|e] eqn:E; [|discriminate].
  cbn [bind]. intros H. injection H as <- <-.
  exact (Q sn r E).
Qed.

Lemma maybe_promote_stable_witness :
  exists v'',
    maybe_promote no_Timestamp no_Timedelta no_scalar_new (Np (Int W32))
      (NpInt Signed W32 300)
    = Ok (Np (Int W32), v'').
Proof.
  apply (maybe_promote_stable no_Timestamp no_Timedelta no_scalar_new
           (Int W8) (PyInt 300) (Np (Int W32)) (NpInt Signed W32 300)).
  - reflexivity.
  - reflexivity.
  - vm_compute. reflexivity.
Defined.

(** X7: promotion never returns a string dtype: a dtype of kind U or S
    that the rules leave in place is replaced by object, so that a string
    dtype always promotes to object. *)
Theorem maybe_promote_never_string :
  forall Timestamp_to_datetime64 Timedelta scalar_new_other
         (dtype : DtypeObj) (v : pyobj) (d' : np_dtype) (v' : pyobj),
    maybe_promote Timestamp_to_datetime64 Timedelta scalar_new_other dtype v
    = Ok (Np d', v') ->
    np.issubclass_bytes_str (np.type_of d') = false
    /\ (kind_in_US (dtype_kind dtype) = true ->
        isinstance_ExtensionDtype dtype = false -> d' = Object_).
Proof.
  intros ts td sn dtype v d' v' H. split.
  - revert H. unfold maybe_promote.
    destruct (negb (is_scalar v) && negb (is_object_dtype dtype));
      [discriminate|].
    destruct (fill_of_ndarray dtype v) as [d0 v0].
    destruct (promote_rules ts td d0 v0) as [[d1 v1]|e]; [|discriminate].
    cbn [bind].
    destruct d1 as [n1|e1].
    + destruct (np.issubclass_bytes_str (np.type_of n1)) eqn:B;
        match goal with
        | |- (fill_value <- ?r ;; _) = _ -> _ => destruct r
        end; cbn [bind]; intros H; try discriminate H;
        injection H as <- _; [reflexivity|assumption].
    + match goal with
      | |- (fill_value <- ?r ;; _) = _ -> _ => destruct r
      end; cbn [bind]; intros H; discriminate H.
  - intros K X. destruct dtype as [n|e]; [|discriminate X].
    assert (S : np.issubclass_bytes_str (np.type_of n) = true)
      by (destruct n; try discriminate K; reflexivity).
    pose proof (maybe_promote_string ts td sn n v (Np d') v' S H) as E.
    congruence.
Qed.

Lemma maybe_promote_never_string_witness :
  np.issubclass_bytes_str (np.type_of Object_) = false
  /\ (kind_in_US (dtype_kind (Np Str_)) = true ->
      isinstance_ExtensionDtype (Np Str_) = false -> Object_ = Object_).
Proof.
  apply (maybe_promote_never_string no_Timestamp no_Timedelta no_scalar_new
           (Np Str_) (PyInt 5) Object_ (PyInt 5)).
  reflexivity.
Defined.

(** ** Numeric validation *)

(** X8: a value that [validate_numeric_casting] rejects for a boolean or
    numeric dtype is a value that promotion does not keep in that dtype:
    [maybe_promote] moves the dtype to float64 or to object, and returns
    the value as it is. *)
Theorem validate_numeric_casting_rejects_promoted :
  forall Timestamp_to_datetime64 Timedelta scalar_new_other
         (d : np_dtype) (v : pyobj) (e : exn),
    is_numeric d = true ->
    validate_numeric_casting d v = Raise e ->
    exists d',
      maybe_promote Timestamp_to_datetime64 Timedelta scalar_new_other
        (Np d) v
      = Ok (Np d', v)
      /\ d' <> d
      /\ (d' = Float F64 \/ d' = Object_).
Proof.
  intros ts td sn d v e K.
  unfold validate_numeric_casting.
  destruct d; try discriminate K; concrete_widths;
    destruct v; cbn -[is_nan]; try discriminate.
  all: try (destruct (is_nan f) eqn:N; cbn -[is_nan]; try discriminate).
  all: intros _; unfold maybe_promote, promote_rules; cbn -[is_nan];
    rewrite ?N; cbn -[is_nan]; eexists; split; [reflexivity|];
    split; [discriminate|auto].
Qed.

Lemma validate_numeric_casting_rejects_promoted_witness :
  exists d',
    maybe_promote no_Timestamp no_Timedelta no_scalar_new (Np (Int W64)) nan
    = Ok (Np d', nan)
    /\ d' <> Int W64
    /\ (d' = Float F64 \/ d' = Object_).
Proof.
  apply (validate_numeric_casting_rejects_promoted
           no_Timestamp no_Timedelta no_scalar_new (Int W64) nan
           (ValueError "Cannot assign nan to integer series")).
  - reflexivity.
  - reflexivity.
Defined.

(** ** Codes of a categorical *)

Lemma wrap_signed_small (w : int_width) (z : Z) :
  - 2 ^ (bits w - 1) <= z < 2 ^ (bits w - 1) -> wrap Signed w z = z.
Proof.
  unfold wrap. destruct w; simpl bits; intros H;
    rewrite Z.mod_small; lia.
Qed.

Lemma with_data_same (a : ndarray) : with_data a (data a) = a.
Proof. now destruct a. Qed.

Lemma ensure_int_codes env (w' : int_width) (indexer : ndarray) s w codes :
  data indexer = BufInt s w codes ->
  Forall (fun c => - 2 ^ (bits w' - 1) <= c < 2 ^ (bits w' - 1)) codes ->
  ensure_int env w' indexer = Ok (with_data indexer (BufInt Signed w' codes)).
Proof.
  intros D F. unfold ensure_int, arr_dtype. rewrite D.
  destruct (np_dtype_beq (buffer_dtype (BufInt s w codes)) (Int w')) eqn:E.
  - apply np_dtype_beq_eq in E. destruct s; [|discriminate E].
    injection E as ->. now rewrite <- D, with_data_same.
  - unfold astype, astype_int. rewrite D. do 3 f_equal.
    rewrite <- (map_id codes) at 2.
    apply (map_ext_Forall _ _ _ _ F). intros c Hc. cbv beta in Hc |- *.
    now apply wrap_signed_small.
Qed.

(** X9: [coerce_indexer_dtype] keeps every code.  For an integer indexer
    whose elements are codes of the categories (positions, or -1 for a
    missing value) the result is the signed integer array of the same
    codes, in the narrowest of int8, int16 and int32 whose largest value
    exceeds the number of categories, else in int64. *)
Theorem coerce_indexer_dtype_keeps_codes :
  forall env (A : Type) (indexer : ndarray) s w (codes : list Z)
         (categories : list A),
    data indexer = BufInt s w codes ->
    Forall (valid_code (List.length categories)) codes ->
    Z.of_nat (List.length categories) <= 2 ^ 63 ->
    exists w',
      coerce_indexer_dtype env indexer categories
      = Ok (with_data indexer (BufInt Signed w' codes))
      /\ (w' = W64 \/ Z.of_nat (List.length categories) < np.int_max w')
      /\ (forall w'', bits w'' < bits w' ->
                      np.int_max w'' <= Z.of_nat (List.length categories)).
Proof.
  intros env A indexer s w codes categories D F L.
  unfold coerce_indexer_dtype, _int8_max, _int16_max, _int32_max.
  unfold valid_code in F.
  set (n := Z.of_nat (List.length categories)) in *.
  destruct (Z.ltb_spec n (np.int_max W8)) as [H8|H8];
    [|destruct (Z.ltb_spec n (np.int_max W16)) as [H16|H16];
      [|destruct (Z.ltb_spec n (np.int_max W32)) as [H32|H32]]].
  - exists W8. split; [|split; [now right|]].
    + apply (ensure_int_codes env W8 indexer s w codes D).
      eapply Forall_impl; [|exact F]. intros c Hc. cbv beta in Hc |- *.
      unfold np.int_max in H8. simpl (bits _ - 1) in *. lia.
    + intros w''. destruct w''; simpl bits; lia.
  - exists W16. split; [|split; [now right|]].
    + apply (ensure_int_codes env W16 indexer s w codes D).
      eapply Forall_impl; [|exact F]. intros c Hc. cbv beta in Hc |- *.
      unfold np.int_max in H16. simpl (bits _ - 1) in *. lia.
    + intros w''. destruct w''; simpl bits; try lia.
  - exists W32. split; [|split; [now right|]].
    + apply (ensure_int_codes env W32 indexer s w codes D).
      eapply Forall_impl; [|exact F]. intros c Hc. cbv beta in Hc |- *.
      unfold np.int_max in H32. simpl (bits _ - 1) in *. lia.
    + intros w''. destruct w''; simpl bits; try lia.
  - exists W64. split; [|split; [now left|]].
    + apply (ensure_int_codes env W64 indexer s w codes D).
      eapply Forall_impl; [|exact F]. intros c Hc. cbv beta in Hc |- *.
      simpl (bits _ - 1) in *. lia.
    + intros w''. destruct w''; simpl bits; try lia.
Qed.

Lemma coerce_indexer_dtype_keeps_codes_witness :
  exists w',
    coerce_indexer_dtype numpy_alone
      (array1d (BufInt Signed W64 [0; 1; -1; 1])) ["a"; "b"]
    = Ok (with_data (array1d (BufInt Signed W64 [0; 1; -1; 1]))
            (BufInt Signed w' [0; 1; -1; 1]))
    /\ (w' = W64 \/ Z.of_nat (List.length ["a"; "b"]) < np.int_max w')
    /\ (forall w'', bits w'' < bits w' ->
                    np.int_max w'' <= Z.of_nat (List.length ["a"; "b"])).
Proof.
  apply (coerce_indexer_dtype_keeps_codes numpy_alone string
           (array1d (BufInt Signed W64 [0; 1; -1; 1])) Signed W64
           [0; 1; -1; 1] ["a"; "b"]).
  - reflexivity.
  - unfold valid_code. repeat constructor; simpl; lia.
  - simpl. lia.
Defined.

(** ** Upcasting for a mask *)

Lemma putmask_length {A} (l : list A) (mask : list bool) (v : A) :
  List.length (putmask l mask v) = List.length l.
Proof.
  revert mask. induction l as [|x l IH]; intros [|m mask]; simpl;
    try reflexivity.
  now rewrite IH.
Qed.

(** The nulls after [np.putmask] with NaN: the masked positions, and the
    nulls that were there. *)
Lemma putmask_nan_nulls (l : list float) (mask : list bool) :
  List.length mask = List.length l ->
  map is_nan (putmask l mask float_nan)
  = zip_with orb mask (map is_nan l).
Proof.
  revert mask. induction l as [|x l IH]; intros [|m mask] L;
    try discriminate L; simpl; [reflexivity|].
  injection L as L. rewrite (IH mask L). now destruct m.
Qed.

Lemma zip_with_orb_false (mask : list bool) {A} (l : list A) :
  List.length mask = List.length l ->
  zip_with orb mask (map (fun _ => false) l) = mask.
Proof.
  revert l. induction mask as [|m mask IH]; intros [|x l] L;
    try discriminate L; simpl; [reflexivity|].
  injection L as L. rewrite (IH l L). now rewrite Bool.orb_false_r.
Qed.

Lemma maybe_promote_integer_nan ts td sn (s : signedness) (w : int_width) :
  maybe_promote ts td sn (Np (int_dtype s w)) nan = Ok (Np (Float F64), nan).
Proof. destruct s, w; reflexivity. Qed.

Lemma maybe_promote_floating_nan ts td sn (w : float_width) :
  maybe_promote ts td sn (Np (Float w)) nan = Ok (Np (Float w), nan).
Proof. destruct w; reflexivity. Qed.

(** X10: on an integer array and a mask with an element set,
    [maybe_upcast_putmask] returns a float64 copy: NaN at the masked
    positions and, elsewhere, the integers as floats.  The nulls of the
    result are exactly the masked positions, and the array passed in is
    left as it was. *)
Theorem maybe_upcast_putmask_integer :
  forall Timestamp_to_datetime64 Timedelta env place_other
         (result : ndarray) s w (l : list Z) (mask : list bool),
    data result = BufInt s w l ->
    List.length mask = List.length l ->
    any mask = true ->
    exists returned,
      maybe_upcast_putmask Timestamp_to_datetime64 Timedelta env place_other
        (AL_ndarray result) mask
      = Ok (returned, result)
      /\ returned
         = with_data result
             (BufFloat F64
                (putmask (map (float_of_Z F64) l) mask float_nan))
      /\ isna_array returned = mask.
Proof.
  intros ts td env po result s w l mask D L A.
  eexists. split; [|split; [reflexivity|]].
  - unfold maybe_upcast_putmask. rewrite A.
    unfold arr_dtype. rewrite D. cbn [buffer_dtype].
    rewrite maybe_promote_integer_nan. cbn [bind as_np].
    replace (np_dtype_beq (Float F64) (int_dtype s w)) with false
      by (destruct s; reflexivity).
    cbn [negb]. unfold astype, astype_float. rewrite D. cbn [bind].
    unfold place_nan, size. cbn [with_data data buffer_size].
    rewrite length_map, L, Nat.eqb_refl. reflexivity.
  - unfold isna_array. cbn [with_data data].
    rewrite putmask_nan_nulls by (now rewrite length_map).
    rewrite map_map.
    rewrite (map_ext _ (fun _ => false))
      by (intros z; apply float_of_Z_not_nan).
    now apply zip_with_orb_false.
Qed.

Lemma maybe_upcast_putmask_integer_witness :
  exists returned,
    maybe_upcast_putmask no_Timestamp no_Timedelta numpy_alone
      (fun _ _ => unavailable)
      (AL_ndarray (array1d (BufInt Signed W64 [1; 2; 3]))) [false; true; false]
    = Ok (returned, array1d (BufInt Signed W64 [1; 2; 3]))
    /\ returned
       = with_data (array1d (BufInt Signed W64 [1; 2; 3]))
           (BufFloat F64
              (putmask (map (float_of_Z F64) [1; 2; 3]) [false; true; false]
                 float_nan))
    /\ isna_array returned = [false; true; false].
Proof.
  apply (maybe_upcast_putmask_integer no_Timestamp no_Timedelta numpy_alone
           (fun _ _ => unavailable)
           (array1d (BufInt Signed W64 [1; 2; 3])) Signed W64 [1; 2; 3]
           [false; true; false]); reflexivity.
Defined.

(** X11: on a floating array, [maybe_upcast_putmask] writes in place: the
    array returned is the array passed in, now with NaN at the masked
    positions and its other elements unchanged, in the same dtype. *)
Theorem maybe_upcast_putmask_floating_in_place :
  forall Timestamp_to_datetime64 Timedelta env place_other
         (result : ndarray) w (l : list float) (mask : list bool),
    data result = BufFloat w l ->
    List.length mask = List.length l ->
    any mask = true ->
    exists returned,
      maybe_upcast_putmask Timestamp_to_datetime64 Timedelta env place_other
        (AL_ndarray result) mask
      = Ok (returned, returned)
      /\ returned = with_data result (BufFloat w (putmask l mask float_nan))
      /\ isna_array returned = zip_with orb mask (isna_array result).
Proof.
  intros ts td env po result w l mask D L A.
  eexists. split; [|split; [reflexivity|]].
  - unfold maybe_upcast_putmask. rewrite A.
    unfold arr_dtype. rewrite D. cbn [buffer_dtype].
    rewrite maybe_promote_floating_nan. cbn [bind].
    rewrite np_dtype_beq_refl. cbn [negb].
    unfold place_nan, size. rewrite D. cbn [buffer_size].
    rewrite L, Nat.eqb_refl. reflexivity.
  - unfold isna_array. rewrite D. cbn [with_data data].
    now apply putmask_nan_nulls.
Qed.

Lemma maybe_upcast_putmask_floating_in_place_witness :
  exists returned,
    maybe_upcast_putmask no_Timestamp no_Timedelta numpy_alone
      (fun _ _ => unavailable)
      (AL_ndarray (array1d (BufFloat F32 [one_and_a_half; two_and_a_half])))
      [true; false]
    = Ok (returned, returned)
    /\ returned
       = with_data (array1d (BufFloat F32 [one_and_a_half; two_and_a_half]))
           (BufFloat F32
              (putmask [one_and_a_half; two_and_a_half] [true; false]
                 float_nan))
    /\ isna_array returned
       = zip_with orb [true; false]
           (isna_array
              (array1d (BufFloat F32 [one_and_a_half; two_and_a_half]))).
Proof.
  apply (maybe_upcast_putmask_floating_in_place no_Timestamp no_Timedelta
           numpy_alone (fun _ _ => unavailable)
           (array1d (BufFloat F32 [one_and_a_half; two_and_a_half])) F32
           [one_and_a_half; two_and_a_half] [true; false]); reflexivity.
Defined.

(** ** Inference from a scalar *)

(** X12: inference from a number.  For a boolean, an integer, a float or
    a complex number, of Python or of NumPy, [infer_dtype_from_scalar]
    returns the value as it is with a NumPy dtype; the dtype is the one
    NumPy gives the scalar, except that every complex number is given
    complex128; and promoting that dtype by the value keeps the dtype. *)
Theorem infer_dtype_from_scalar_number :
  forall item_from_zerodim Timestamp Timedelta period_dtype interval_left
         IntervalDtype Timestamp_to_datetime64 scalar_new_other
         (v : pyobj) (pandas_dtype : bool),
    is_number v = true ->
    exists d,
      infer_dtype_from_scalar item_from_zerodim Timestamp Timedelta
        period_dtype interval_left IntervalDtype v pandas_dtype
      = Some (Ok (Np d, v))
      /\ (d = np.dtype_of v \/ (is_complex v = true /\ d = Complex C128))
      /\ exists v',
          maybe_promote Timestamp_to_datetime64 Timedelta scalar_new_other
            (Np d) v
          = Ok (Np d, v').
Proof.
  intros izd Ts Td pd il ID ts sn v p N.
  unfold infer_dtype_from_scalar.
  destruct v; try discriminate N; concrete_widths;
    try (destruct s);
    cbn [infer_dtype_from_scalar_fuel infer_dtype_from_scalar_body
           is_bool is_integer is_float is_complex int_dtype].
  all: try (eexists; split; [reflexivity|]; split;
            [first [left; reflexivity | right; split; reflexivity]|];
            unfold maybe_promote, promote_rules; opaque_cbn; opaque_cases;
            eexists; reflexivity).
  (* a Python integer *)
  unfold int_new, in_range, np.dtype_of, np.int_min, np.int_max, np.uint_max.
  evaluate.
  all: eexists; (split; [reflexivity|]); (split; [left; reflexivity|]).
  all: unfold maybe_promote, promote_rules, _ensure_dtype_type, scalar_new,
         integer_new, int_new, np.can_cast_scalar, np.dtype_of, in_range,
         np.int_min, np.int_max, np.uint_max.
  all: evaluate; eexists; reflexivity.
Qed.

Lemma infer_dtype_from_scalar_number_witness :
  exists d,
    infer_dtype_from_scalar (fun _ => None) (fun _ => unavailable)
      no_Timedelta (fun _ => None) (fun _ => None)
      (fun _ => sparse_int64 "0") (PyInt (2 ^ 63)) false
    = Some (Ok (Np d, PyInt (2 ^ 63)))
    /\ (d = np.dtype_of (PyInt (2 ^ 63))
        \/ (is_complex (PyInt (2 ^ 63)) = true /\ d = Complex C128))
    /\ exists v',
        maybe_promote no_Timestamp no_Timedelta no_scalar_new (Np d)
          (PyInt (2 ^ 63))
        = Ok (Np d, v').
Proof.
  apply (infer_dtype_from_scalar_number (fun _ => None)
           (fun _ => unavailable) no_Timedelta (fun _ => None)
           (fun _ => None) (fun _ => sparse_int64 "0")
           no_Timestamp no_scalar_new (PyInt (2 ^ 63)) false).
  reflexivity.
Defined.

(** ** Nan-safe casts: refusals *)

(** X14: what a temporal array can be cast to.  A datetime64 array is
    cast to int64, to a datetime64 dtype, to str or to object only: for
    any other NumPy dtype [astype_nansafe] raises the TypeError
    "cannot astype a datetimelike", whatever the shape and the elements.
    Likewise a timedelta64 array is cast to int64, to a timedelta64 dtype,
    to str or to object only. *)
Theorem astype_nansafe_temporal_refusals :
  forall env (arr : ndarray) (d : np_dtype) copy skipna,
    d <> Int W64 -> d <> Str_ -> d <> Object_ ->
    (forall u l,
        data arr = BufDatetime64 u l ->
        np.kind_of d <> KM ->
        astype_nansafe env arr (Np d) copy skipna
        = Some ([], Raise (cannot_astype "datetimelike" (Datetime64 u) d)))
    /\ (forall u l,
           data arr = BufTimedelta64 u l ->
           np.kind_of d <> Km ->
           astype_nansafe env arr (Np d) copy skipna
           = Some ([], Raise (cannot_astype "timedelta" (Timedelta64 u) d))).
Proof.
  intros env arr d copy skipna N1 N2 N3.
  split; intros u l Hd K; apply astype_nansafe_raise_any_shape;
    intros fuel a D Ha; cbn [astype_nansafe_fuel];
    unfold astype_nansafe_body; rewrite D, atleast_1d_dtype;
    unfold arr_dtype; rewrite Ha, Hd;
    destruct d; concrete_widths; try congruence;
    try (exfalso; apply K; reflexivity); reflexivity.
Qed.

Lemma astype_nansafe_temporal_refusals_witness :
  astype_nansafe numpy_alone (array1d (BufDatetime64 U_ns [0; 1]))
    (Np (Float F64)) true false
  = Some ([], Raise (cannot_astype "datetimelike" (Datetime64 U_ns)
                       (Float F64))).
Proof.
  apply (proj1 (astype_nansafe_temporal_refusals numpy_alone
                  (array1d (BufDatetime64 U_ns [0; 1])) (Float F64)
                  true false ltac:(discriminate) ltac:(discriminate)
                  ltac:(discriminate)) U_ns [0; 1]).
  - reflexivity.
  - discriminate.
Defined.

(** The cast of a floating array of at most one dimension to an integer
    dtype. *)
Lemma astype_nansafe_float_int_1d env fuel (a : ndarray) wf l s w copy skipna :
  (1 <? ndim a)%nat = false ->
  data a = BufFloat wf l ->
  astype_nansafe_fuel env (S fuel) a (Np (int_dtype s w)) copy skipna
  = Some ([],
          if forallb is_finite l
          then Ok (inl (with_data (atleast_1d a)
                          (BufInt s w (map (float_to_int env s w) l))))
          else Raise non_finite_to_integer).
Proof.
  intros D Hd. cbn [astype_nansafe_fuel]. unfold astype_nansafe_body.
  rewrite D.
  assert (Hd' : data (atleast_1d a) = BufFloat wf l)
    by (now rewrite atleast_1d_data).
  unfold arr_dtype, isfinite_all, astype, astype_int. rewrite Hd'.
  destruct (forallb is_finite l); destruct s, w, wf, copy; reflexivity.
Qed.

(** X15: the cast of a floating array to an integer dtype raises the
    "Cannot convert non-finite values (NA or inf) to integer" error if and
    only if some element is NaN or an infinity; otherwise it returns, in
    the shape of the input, the integers that the C cast gives the
    elements, and it emits no warning. *)
Theorem astype_nansafe_floating_to_integer :
  forall env shp fo wf (l : list float) s w copy skipna,
    let arr := {| shape := shp; fortran := fo; data := BufFloat wf l |} in
    exists r,
      astype_nansafe env arr (Np (int_dtype s w)) copy skipna = Some ([], r)
      /\ (r = Raise non_finite_to_integer
          <-> exists f, In f l /\ is_finite f = false)
      /\ (Forall (fun f => is_finite f = true) l ->
          exists res,
            r = Ok (inl res)
            /\ data res = BufInt s w (map (float_to_int env s w) l)
            /\ shape res = shape (atleast_1d arr)).
Proof.
  intros env shp fo wf l s w copy skipna arr.
  assert (E : forallb is_finite l = false
              <-> exists f, In f l /\ is_finite f = false).
  { rewrite <- Bool.not_true_iff_false, forallb_forall. split.
    - intros N. induction l as [|x l IH].
      + exfalso. apply N. intros ? [].
      + destruct (is_finite x) eqn:X.
        * destruct IH as [f [Hf Ff]].
          { intros H. apply N. intros y [<-|Hy]; auto. }
          exists f. split; [now right|assumption].
        * exists x. split; [now left|assumption].
    - intros [f [Hf Ff]] H. rewrite (H f Hf) in Ff. discriminate. }
  assert (A : forallb is_finite l = true
              <-> Forall (fun f => is_finite f = true) l).
  { rewrite forallb_forall, Forall_forall. reflexivity. }
  unfold astype_nansafe.
  destruct (1 <? ndim arr)%nat eqn:D.
  - rewrite astype_nansafe_fuel_nd by assumption.
    rewrite (astype_nansafe_float_int_1d env 1 (ravel_K arr) wf l)
      by reflexivity.
    destruct (forallb is_finite l) eqn:F.
    + eexists. split; [reflexivity|]. split.
      * split; [discriminate|]. intros H. apply E in H. discriminate.
      * intros _. eexists. split; [reflexivity|]. split; [reflexivity|].
        unfold atleast_1d. subst arr. simpl.
        destruct shp; [discriminate D|reflexivity].
    + eexists. split; [reflexivity|]. split.
      * split; [intros _; now apply E|reflexivity].
      * intros H. apply A in H. discriminate.
  - rewrite (astype_nansafe_float_int_1d env 2 arr wf l) by auto.
    destruct (forallb is_finite l) eqn:F.
    + eexists. split; [reflexivity|]. split.
      * split; [discriminate|]. intros H. apply E in H. discriminate.
      * intros _. eexists. split; [reflexivity|]. split; reflexivity.
    + eexists. split; [reflexivity|]. split.
      * split; [intros _; now apply E|reflexivity].
      * intros H. apply A in H. discriminate.
Qed.

(** The cast of a timedelta64 array of at most one dimension to int64. *)
Lemma astype_nansafe_td64_int64_1d env fuel (a : ndarray) u l copy skipna :
  (1 <? ndim a)%nat = false ->
  data a = BufTimedelta64 u l ->
  astype_nansafe_fuel env (S fuel) a (Np (Int W64)) copy skipna
  = Some ([int64_cast_deprecated (Timedelta64 u)],
          if any (map (fun z => z =? iNaT) l) then Raise nat_to_integer
          else Ok (inl (with_data (atleast_1d a) (BufInt Signed W64 l)))).
Proof.
  intros D Hd. cbn [astype_nansafe_fuel]. unfold astype_nansafe_body. rewrite D.
  assert (Hd' : data (atleast_1d a) = BufTimedelta64 u l)
    by (now rewrite atleast_1d_data).
  unfold arr_dtype, isna_array, view_int64. rewrite Hd'. reflexivity.
Qed.

(** X16: casting a timedelta64 array to int64 always emits the
    deprecation warning; it raises the "Cannot convert NaT values to
    integer" error if and only if the array holds a NaT, and otherwise
    returns, in the shape of the input, the backing counts unchanged as
    int64 -- in the unit of the array, not in nanoseconds. *)
Theorem astype_nansafe_timedelta64_to_int64 :
  forall env shp fo u l copy skipna,
    let arr := {| shape := shp; fortran := fo; data := BufTimedelta64 u l |} in
    exists r,
      astype_nansafe env arr (Np (Int W64)) copy skipna
      = Some ([int64_cast_deprecated (Timedelta64 u)], r)
      /\ (r = Raise nat_to_integer <-> In iNaT l)
      /\ (~ In iNaT l ->
          exists res,
            r = Ok (inl res)
            /\ data res = BufInt Signed W64 l
            /\ shape res = shape (atleast_1d arr)).
Proof.
  intros env shp fo u l copy skipna arr.
  unfold astype_nansafe.
  pose proof (any_isna_iNaT l) as N.
  destruct (1 <? ndim arr)%nat eqn:D.
  - rewrite astype_nansafe_fuel_nd by assumption.
    rewrite (astype_nansafe_td64_int64_1d env 1 (ravel_K arr) u l)
      by reflexivity.
    destruct (any (map (fun z => z =? iNaT) l)) eqn:E.
    + eexists. split; [reflexivity|]. split.
      * split; [intros _; now apply N | reflexivity].
      * intros H. exfalso. apply H. now apply N.
    + eexists. split; [reflexivity|]. split.
      * split; [discriminate|]. intros H. apply N in H. discriminate.
      * intros _. eexists. split; [reflexivity|]. split; [reflexivity|].
        unfold atleast_1d. subst arr. simpl.
        destruct shp; [discriminate D|reflexivity].
  - rewrite (astype_nansafe_td64_int64_1d env 2 arr u l) by auto.
    destruct (any (map (fun z => z =? iNaT) l)) eqn:E.
    + eexists. split; [reflexivity|]. split.
      * split; [intros _; now apply N | reflexivity].
      * intros H. exfalso. apply H. now apply N.
    + eexists. split; [reflexivity|]. split.
      * split; [discriminate|]. intros H. apply N in H. discriminate.
      * intros _. eexists. split; [reflexivity|]. split; reflexivity.
Qed.

(** ** Strict integer casting: the values that pass *)

Lemma wrap_in_its_range (s : signedness) (w : int_width) (z : Z) :
  in_range s w z = true -> wrap s w z = z.
Proof.
  unfold in_range, wrap, np.int_min, np.int_max, np.uint_max.
  destruct s; intros H; apply andb_prop in H; destruct H as [H1 H2];
    apply Z.leb_le in H1, H2;
    destruct w; simpl (bits _ - 1) in *; simpl bits in *;
    rewrite Z.mod_small; lia.
Qed.

Lemma in_range_W64 (s : signedness) (w : int_width) (z : Z) :
  in_range s w z = true -> in_range s W64 z = true.
Proof.
  unfold in_range, np.int_min, np.int_max, np.uint_max.
  destruct s; intros H; apply andb_prop in H; destruct H as [H1 H2];
    apply Z.leb_le in H1, H2; apply andb_true_intro;
    split; apply Z.leb_le;
    destruct w; simpl (bits _ - 1) in *; simpl bits in *; lia.
Qed.

Lemma int_of_pyobj_in_range env (s : signedness) (w : int_width) (z : Z) :
  in_range s w z = true -> int_of_pyobj env s w (PyInt z) = Ok z.
Proof.
  intros H. unfold int_of_pyobj, integer_new, int_new.
  cbn [to_number]. rewrite H, Bool.orb_true_r. cbn [bind].
  now rewrite wrap_in_its_range.
Qed.

Lemma mapM_int_of_pyobj env (s : signedness) (w : int_width) (zs : list Z) :
  Forall (fun z => in_range s w z = true) zs ->
  mapM (int_of_pyobj env s w) (map PyInt zs) = Ok zs.
Proof.
  induction 1 as [|z zs Hz H IH]; [reflexivity|].
  cbn [map mapM]. rewrite (int_of_pyobj_in_range env s w z Hz), IH.
  reflexivity.
Qed.

Lemma traverse_py_as_int (zs : list Z) :
  traverse py_as_int (map PyInt zs) = Some zs.
Proof.
  induction zs as [|z zs IH]; [reflexivity|].
  cbn [map traverse py_as_int]. now rewrite IH.
Qed.

Lemma float_eqb_refl (f : float) : is_nan f = false -> float_eqb f f = true.
Proof.
  unfold float_eqb, float_compare.
  destruct f as [s|s| |s m e]; try discriminate; intros _.
  - unfold dyadic, dyadic_compare. cbn [fst snd]. now rewrite Z.compare_refl.
  - now destruct s.
  - unfold dyadic, dyadic_compare. cbn [fst snd]. now rewrite Z.compare_refl.
Qed.

Lemma int_eq_int_refl (dx dy : np_dtype) (x : Z) : int_eq_int dx dy x x = true.
Proof.
  unfold int_eq_int. destruct (common_float dx dy).
  - apply float_eqb_refl, float_of_Z_not_nan.
  - apply Z.eqb_refl.
Qed.

Lemma all_zip_with_refl {A} (f : A -> A -> bool) (l : list A) :
  (forall x, f x x = true) -> all (zip_with f l l) = true.
Proof.
  intros R. unfold all.
  induction l as [|x l IH]; [reflexivity|]. simpl. now rewrite R, IH.
Qed.

(** Signed or unsigned, integers in the range of a dtype make an int64 or
    a uint64 array. *)
Lemma asarray_list_ints env (s : signedness) (w : int_width) (zs : list Z) :
  Forall (fun z => in_range s w z = true) zs ->
  zs <> [] ->
  exists s', asarray_list env (map PyInt zs)
             = Ok (array1d (BufInt s' W64 zs)).
Proof.
  intros F N. unfold asarray_list.
  assert (R : forallb (in_range s W64) zs = true).
  { apply forallb_forall. intros x Hx. rewrite Forall_forall in F.
    apply (in_range_W64 s w). now apply F. }
  destruct zs as [|z zs]; [congruence|].
  cbn [map].
  replace (traverse py_as_bool (PyInt z :: map PyInt zs))
    with (@None (list bool)) by reflexivity.
  change (PyInt z :: map PyInt zs) with (map PyInt (z :: zs)).
  rewrite traverse_py_as_int. cbv beta iota.
  destruct s.
  - rewrite R. eauto.
  - rewrite R. destruct (forallb (in_range Signed W64) (z :: zs)); eauto.
Qed.

(** X17: a list of Python integers that are all in the range of the target
    integer dtype passes [maybe_cast_to_integer_array]: the call returns
    the array of these integers in the target dtype, and raises nothing. *)
Theorem maybe_cast_to_integer_array_in_range :
  forall env (s : signedness) (w : int_width) (zs : list Z) (copy : bool),
    Forall (fun z => in_range s w z = true) zs ->
    maybe_cast_to_integer_array env (AL_list (map PyInt zs))
      (Np (int_dtype s w)) copy
    = Ok (Some (array1d (BufInt s w zs))).
Proof.
  intros env s w zs copy F. unfold maybe_cast_to_integer_array.
  replace (is_integer_dtype (Np (int_dtype s w))) with true
    by (destruct s, w; reflexivity).
  cbn [negb].
  assert (C : direct_conversion env (AL_list (map PyInt zs))
                (Np (int_dtype s w))
              = Ok (array1d (BufInt s w zs))).
  { unfold direct_conversion. cbn [as_np bind].
    destruct s; cbn [int_dtype]; unfold array_int;
      rewrite (mapM_int_of_pyobj env _ w zs F); reflexivity. }
  rewrite C.
  replace (array_equal env (AL_list (map PyInt zs))
             (array1d (BufInt s w zs))) with true; [reflexivity|].
  symmetry. unfold array_equal, asarray.
  destruct zs as [|z zs].
  - cbn. reflexivity.
  - destruct (asarray_list_ints env s w (z :: zs) F ltac:(discriminate))
      as [s' ->].
    destruct (list_eq_dec Nat.eq_dec
                (shape (array1d (BufInt s' W64 (z :: zs))))
                (shape (array1d (BufInt s w (z :: zs))))) as [_|N];
      [|exfalso; apply N; reflexivity].
    unfold all_equal. cbn [array1d data int_values].
    apply all_zip_with_refl. intros x. apply int_eq_int_refl.
Qed.

Lemma maybe_cast_to_integer_array_in_range_witness :
  maybe_cast_to_integer_array numpy_alone
    (AL_list (map PyInt [0; 255; 17])) (Np (int_dtype Unsigned W8)) false
  = Ok (Some (array1d (BufInt Unsigned W8 [0; 255; 17]))).
Proof.
  apply (maybe_cast_to_integer_array_in_range numpy_alone Unsigned W8
           [0; 255; 17] false).
  repeat constructor.
Defined.

(** ** Nanosecond resolution *)

(** X18: [sanitize_to_nanoseconds] is idempotent, provided the datetime64
    conversion it relies on returns datetime64[ns] arrays: the array it
    returns is returned as it is by a second call.  A temporal array comes
    back with the nanosecond dtype of its family, any other array
    unchanged. *)
Theorem sanitize_to_nanoseconds_idempotent :
  forall env ensure_datetime64ns (values r : ndarray),
    (forall a b, ensure_datetime64ns a = Ok b ->
                 arr_dtype b = Datetime64 U_ns) ->
    sanitize_to_nanoseconds env ensure_datetime64ns values = Ok r ->
    sanitize_to_nanoseconds env ensure_datetime64ns r = Ok r
    /\ (np.kind_of (arr_dtype values) = KM -> arr_dtype r = Datetime64 U_ns)
    /\ (np.kind_of (arr_dtype values) = Km -> arr_dtype r = Timedelta64 U_ns)
    /\ (is_temporal (arr_dtype values) = false -> r = values).
Proof.
  intros env e64 values r C. unfold sanitize_to_nanoseconds at 1.
  assert (S : forall d, arr_dtype r = d ->
                        (d = Datetime64 U_ns \/ d = Timedelta64 U_ns) ->
                        sanitize_to_nanoseconds env e64 r = Ok r).
  { intros d E [-> | ->]; unfold sanitize_to_nanoseconds; rewrite E;
      reflexivity. }
  change (arr_dtype values) with (buffer_dtype (data values)).
  destruct (data values) as [l|[] w l|w l|w l|u l|u l|l|l] eqn:D;
    cbn [buffer_dtype int_dtype np.kind_of kind_beq andb].
  1-5, 8-9:
    intros H; injection H as <-; unfold arr_dtype; rewrite D;
    (split; [unfold sanitize_to_nanoseconds, arr_dtype; rewrite D;
             reflexivity|]);
    (split; [discriminate|]);
    (split; [discriminate|reflexivity]).
  - destruct (np_dtype_beq (Datetime64 u) (Datetime64 U_ns)) eqn:B;
      cbn [negb].
    + apply np_dtype_beq_eq in B. injection B as ->.
      intros H. injection H as <-. unfold arr_dtype. rewrite D.
      split; [apply (S (Datetime64 U_ns)); [unfold arr_dtype; now rewrite D
                                           |now left]|].
      split; [reflexivity|]. split; [discriminate|reflexivity].
    + intros H. pose proof (C _ _ H) as E. rewrite E.
      split; [apply (S _ E); now left|].
      split; [reflexivity|]. split; intros X; discriminate X.
  - destruct (np_dtype_beq (Timedelta64 u) (Timedelta64 U_ns)) eqn:B;
      cbn [negb].
    + apply np_dtype_beq_eq in B. injection B as ->.
      intros H. injection H as <-. unfold arr_dtype. rewrite D.
      split; [apply (S (Timedelta64 U_ns)); [unfold arr_dtype; now rewrite D
                                            |now right]|].
      split; [discriminate|]. split; reflexivity.
    + unfold ensure_timedelta64ns, astype, astype_timedelta64. rewrite D.
      intros H. injection H as <-.
      assert (E : arr_dtype
                    (with_data values
                       (BufTimedelta64 (td64_result_unit u U_ns)
                          (map (td64_cast u U_ns) l)))
                  = Timedelta64 U_ns) by reflexivity.
      split; [apply (S _ E); now right|].
      split; [intros X; discriminate X|].
      split; [intros _; reflexivity|intros X; discriminate X].
Qed.

Lemma sanitize_to_nanoseconds_idempotent_witness :
  sanitize_to_nanoseconds numpy_alone (fun _ => unavailable)
    (array1d (BufTimedelta64 U_ns [1000000000; iNaT]))
  = Ok (array1d (BufTimedelta64 U_ns [1000000000; iNaT]))
  /\ (np.kind_of (arr_dtype (array1d (BufTimedelta64 U_s [1; iNaT]))) = KM ->
      arr_dtype (array1d (BufTimedelta64 U_ns [1000000000; iNaT]))
      = Datetime64 U_ns)
  /\ (np.kind_of (arr_dtype (array1d (BufTimedelta64 U_s [1; iNaT]))) = Km ->
      arr_dtype (array1d (BufTimedelta64 U_ns [1000000000; iNaT]))
      = Timedelta64 U_ns)
  /\ (is_temporal (arr_dtype (array1d (BufTimedelta64 U_s [1; iNaT])))
      = false ->
      array1d (BufTimedelta64 U_ns [1000000000; iNaT])
      = array1d (BufTimedelta64 U_s [1; iNaT])).
Proof.
  apply (sanitize_to_nanoseconds_idempotent numpy_alone
           (fun _ => unavailable)
           (array1d (BufTimedelta64 U_s [1; iNaT]))
           (array1d (BufTimedelta64 U_ns [1000000000; iNaT]))).
  - intros a b H. discriminate H.
  - vm_compute. reflexivity.
Defined.

(** ** Unit conversion of durations: nulls *)

(** X19: [astype_td64_unit_conversion] keeps the null positions, for every
    pair of units.  To the dtype of the array it returns the array as it
    is; to any other timedelta64 dtype it returns a float64 array of the
    same shape whose NaN are exactly at the NaT of the input. *)
Theorem astype_td64_unit_conversion_nulls :
  forall env (values : ndarray) (u0 u : time_unit) (l : list Z) (copy : bool),
    data values = BufTimedelta64 u0 l ->
    exists r,
      astype_td64_unit_conversion env values (Timedelta64 u) copy = Ok r
      /\ isna_array r = isna_array values
      /\ shape r = shape values
      /\ (u = u0 -> r = values)
      /\ (u <> u0 -> arr_dtype r = Float F64).
Proof.
  intros env values u0 u l copy D.
  unfold astype_td64_unit_conversion, arr_dtype. rewrite D.
  cbn [buffer_dtype].
  destruct (np_dtype_beq (Timedelta64 u0) (Timedelta64 u)) eqn:B.
  - apply np_dtype_beq_eq in B. injection B as <-.
    exists values. split; [now destruct copy|].
    repeat split; congruence.
  - assert (N : u <> u0).
    { intros ->. rewrite np_dtype_beq_refl in B. discriminate B. }
    unfold astype, astype_timedelta64. rewrite D. cbn [bind].
    unfold astype_float. cbn [with_data data bind].
    eexists. split; [reflexivity|].
    split; [|split; [reflexivity|split; [congruence|reflexivity]]].
    unfold isna_array. rewrite D. cbn [with_data data].
    rewrite putmask_nan_nulls by (now rewrite !length_map).
    rewrite !map_map.
    rewrite (map_ext (fun z => is_nan (float_of_Z F64 (td64_cast u0 u z)))
               (fun _ => false))
      by (intros z; apply float_of_Z_not_nan).
    apply zip_with_orb_false. now rewrite length_map.
Qed.

Lemma astype_td64_unit_conversion_nulls_witness :
  exists r,
    astype_td64_unit_conversion numpy_alone
      (array1d (BufTimedelta64 U_s [90; iNaT])) (Timedelta64 U_m) true
    = Ok r
    /\ isna_array r = isna_array (array1d (BufTimedelta64 U_s [90; iNaT]))
    /\ shape r = shape (array1d (BufTimedelta64 U_s [90; iNaT]))
    /\ (U_m = U_s -> r = array1d (BufTimedelta64 U_s [90; iNaT]))
    /\ (U_m <> U_s -> arr_dtype r = Float F64).
Proof.
  apply (astype_td64_unit_conversion_nulls numpy_alone
           (array1d (BufTimedelta64 U_s [90; iNaT])) U_s U_m [90; iNaT] true).
  reflexivity.
Defined.

(** ** Numeric downcasting: what comes back *)

(** X20: [maybe_downcast_numeric] on an integer or floating array returns
    either the array it was given or a cast of it to the requested dtype,
    of the same shape and with as many elements: no third outcome, and no
    change of shape. *)
Theorem maybe_downcast_numeric_input_or_cast :
  forall env (result : ndarray) (d : np_dtype) (do_round : bool)
         (r : ndarray),
    match data result with
    | BufInt _ _ _ | BufFloat _ _ => True
    | _ => False
    end ->
    maybe_downcast_numeric env result (Np d) do_round = Ok r ->
    r = result
    \/ (arr_dtype r = d /\ shape r = shape result /\ size r = size result).
Proof.
  intros env result d do_round r K.
  unfold maybe_downcast_numeric, trans, round, astype, astype_int,
    astype_bool, astype_float, first_element, arr_dtype, size.
  destruct (data result) as [l|s w l|w l|w l|u l|u l|l|l] eqn:D;
    try contradiction.
  all: destruct l as [|x l]; destruct d; try destruct s; concrete_widths;
    destruct do_round;
    cbn -[allclose all_equal is_nan all notna_array];
    rewrite ?D;
    cbn -[allclose all_equal is_nan all notna_array].
  all: repeat match goal with
         | |- Ok _ = Ok _ -> _ => intros H; injection H as <-
         | |- Raise _ = Ok _ -> _ => discriminate
         | |- context [if ?c then _ else _] => destruct c
         | |- context [allclose ?e ?a ?b] => destruct (allclose e a b)
         | _ => progress cbn -[allclose all_equal is_nan all notna_array]
         end.
  all: try (left; reflexivity).
  all: try (right; cbn; rewrite ?length_map; repeat split; reflexivity).
Qed.

Lemma maybe_downcast_numeric_input_or_cast_witness :
  array1d (BufFloat F64 [one_and_a_half])
  = array1d (BufFloat F64 [one_and_a_half])
  \/ (arr_dtype (array1d (BufFloat F64 [one_and_a_half])) = Int W64
      /\ shape (array1d (BufFloat F64 [one_and_a_half]))
         = shape (array1d (BufFloat F64 [one_and_a_half]))
      /\ size (array1d (BufFloat F64 [one_and_a_half]))
         = size (array1d (BufFloat F64 [one_and_a_half]))).
Proof.
  apply (maybe_downcast_numeric_input_or_cast numpy_alone
           (array1d (BufFloat F64 [one_and_a_half])) (Int W64) false
           (array1d (BufFloat F64 [one_and_a_half]))).
  - exact I.
  - vm_compute. reflexivity.
Defined.

(** ** Upcasting for a fill value *)

(** An integer fill value in the range of an integer dtype keeps the
    dtype and is boxed in it. *)
Lemma maybe_promote_integer_in_range ts td sn (s : signedness) (w : int_width)
  (z : Z) :
  in_range s w z = true ->
  maybe_promote ts td sn (Np (int_dtype s w)) (PyInt z)
  = Ok (Np (int_dtype s w), NpInt s w z).
Proof.
  unfold in_range, np.int_min, np.int_max, np.uint_max.
  intros H.
  assert (B : match s with
              | Signed => - 2 ^ (bits w - 1) <= z <= 2 ^ (bits w - 1) - 1
              | Unsigned => 0 <= z <= 2 ^ bits w - 1
              end).
  { destruct s; apply andb_prop in H; destruct H as [H1 H2];
      apply Z.leb_le in H1, H2; auto. }
  clear H.
  unfold maybe_promote, promote_rules, _ensure_dtype_type, scalar_new,
    integer_new, int_new, np.can_cast_scalar, np.small_unsigned,
    np.min_scalar_type, np.min_int_type, np.dtype_of, in_range,
    wrap, np.int_min, np.int_max, np.uint_max.
  destruct s, w; simpl (bits _ - 1) in B; simpl bits in B; evaluate.
  all: try rewrite Z.mod_small by lia.
  all: repeat f_equal; lia.
Qed.

(** X21: [maybe_upcast] on an integer array.  With the default fill value
    NaN it returns the float64 array of the integers as floats, and NaN;
    with a Python integer in the range of the dtype of the array it
    returns the array as it is, and the integer boxed in that dtype. *)
Theorem maybe_upcast_integer_array :
  forall Timestamp_to_datetime64 Timedelta env
         (values : ndarray) s w (l : list Z) (copy : bool),
    data values = BufInt s w l ->
    maybe_upcast Timestamp_to_datetime64 Timedelta env values nan copy
    = Ok (with_data values (BufFloat F64 (map (float_of_Z F64) l)), nan)
    /\ forall z,
        in_range s w z = true ->
        maybe_upcast Timestamp_to_datetime64 Timedelta env values (PyInt z)
          copy
        = Ok (values, NpInt s w z).
Proof.
  intros ts td env values s w l copy D. split.
  - unfold maybe_upcast, arr_dtype. rewrite D. cbn [buffer_dtype].
    rewrite maybe_promote_integer_nan. cbn [bind as_np].
    unfold astype_copy, arr_dtype. rewrite D. cbn [buffer_dtype].
    replace (np_dtype_beq (int_dtype s w) (Float F64)) with false
      by (destruct s; reflexivity).
    unfold astype, astype_float. rewrite D. reflexivity.
  - intros z R. unfold maybe_upcast, arr_dtype. rewrite D.
    cbn [buffer_dtype].
    rewrite (maybe_promote_integer_in_range ts td _ s w z R).
    cbn [bind as_np]. unfold astype_copy, arr_dtype. rewrite D.
    cbn [buffer_dtype]. now rewrite np_dtype_beq_refl.
Qed.

Lemma maybe_upcast_integer_array_witness :
  maybe_upcast no_Timestamp no_Timedelta numpy_alone
    (array1d (BufInt Signed W8 [1; -2])) nan false
  = Ok (with_data (array1d (BufInt Signed W8 [1; -2]))
          (BufFloat F64 (map (float_of_Z F64) [1; -2])), nan)
  /\ forall z,
      in_range Signed W8 z = true ->
      maybe_upcast no_Timestamp no_Timedelta numpy_alone
        (array1d (BufInt Signed W8 [1; -2])) (PyInt z) false
      = Ok (array1d (BufInt Signed W8 [1; -2]), NpInt Signed W8 z).
Proof.
  apply (maybe_upcast_integer_array no_Timestamp no_Timedelta numpy_alone
           (array1d (BufInt Signed W8 [1; -2])) Signed W8 [1; -2] false).
  reflexivity.
Defined.

(** ** The dtype of an aggregation *)

(** X22: [maybe_cast_result_dtype] is idempotent: the dtype it returns for
    an aggregation is returned unchanged when passed again with the same
    aggregation.  A NumPy dtype other than the boolean one is never
    changed, and no aggregation returns the boolean NumPy dtype for a
    sum-like operation. *)
Theorem maybe_cast_result_dtype_idempotent :
  forall is_masked_bool_or_int Int64Dtype Float64Dtype
         (dtype : DtypeObj) (how : string),
    let f := maybe_cast_result_dtype is_masked_bool_or_int Int64Dtype
               Float64Dtype in
    f (f dtype how) how = f dtype how
    /\ (forall n, dtype = Np n -> n <> Bool_ -> f dtype how = dtype)
    /\ (how_in how ["add"; "cumsum"; "sum"; "prod"] = true ->
        f dtype how <> Np Bool_).
Proof.
  intros m I F dtype how f. subst f. unfold maybe_cast_result_dtype.
  destruct (how_in how ["add"; "cumsum"; "sum"; "prod"]) eqn:S;
    destruct (how_in how ["mean"; "median"; "var"]) eqn:M;
    cbn [andb].
  all: split; [|split].
  all: try (intros n -> N; destruct n; congruence).
  all: try (intros H; discriminate H).
  all: try (intros _; destruct dtype as [[]|e]; try discriminate;
            destruct (m e); discriminate).
  all: destruct dtype as [[]|e]; try reflexivity.
  all: destruct (m e) eqn:E; try reflexivity; try (now rewrite E).
  all: destruct (m I), (m F); reflexivity.
Qed.
